(** * Hyperparameter search of the GNN recommender ([main.py])

    A shallow embedding of the search-space declaration
    ([SearchableHyperparameters]), of the trial executor ([train]), of the
    objective wrapper ([fitness]) and of the entry point ([main]) together
    with the sequential driver of scikit-optimize that [main] calls.

    Python values are a small tagged union, dictionaries ([params],
    the instance dictionary of [fixed_params]) are [gmap string value],
    floats are IEEE binary64 ([PrimFloat]), exceptions are an error type and
    the body of [train] is written in a state-and-error monad whose state is
    the keyword dictionary [params] (mutated in place by the source) and the
    ordered log of calls to the external collaborators. *)

From Stdlib Require Import ZArith Floats.PrimFloat Uint63.
From Stdlib Require Import Floats.SpecFloat Floats.FloatOps.
From stdpp Require Import gmap strings list sorting.

Set Warnings "-inexact-float".
Local Open Scope string_scope.
Local Open Scope Z_scope.

(** ** Python values and exceptions *)

Module Py.

Inductive value :=
| VStr (s : string)
| VFloat (f : float)
| VInt (z : Z)
| VBool (b : bool).

Inductive exn :=
| KeyError (k : value)
| AttributeError (a : string)
| AssertionError
| TypeError
| ValueError
| IndexError
| NameError (n : string)
| ZeroDivisionError
| RuntimeError
| OverflowError.

Inductive result (A : Type) :=
| Ok (a : A)
| Raise (e : exn).
Arguments Ok {A} a.
Arguments Raise {A} e.

(** The order of an [int] and a [float].  Python compares the two exactly,
    without converting the integer: the float is [m * 2^e], or zero, or
    infinite.  [None] when the float is NaN, which no comparison holds
    with. *)
Definition compare_int_float (z : Z) (f : float) : option comparison :=
  match Prim2SF f with
  | S754_nan => None
  | S754_zero _ => Some (z ?= 0)
  | S754_infinity s => Some (if s then Gt else Lt)
  | S754_finite s m e =>
      let m' := if s then Z.neg m else Z.pos m in
      Some (if 0 <=? e then z ?= m' * 2 ^ e else z * 2 ^ (- e) ?= m')
  end.

(** [z == f], [z <= f] and [f <= z] for an [int] and a [float]. *)
Definition eq_int_float (z : Z) (f : float) : bool :=
  match compare_int_float z f with
  | Some Eq => true
  | _ => false
  end.

Definition le_int_float (z : Z) (f : float) : bool :=
  match compare_int_float z f with
  | Some Eq | Some Lt => true
  | _ => false
  end.

Definition le_float_int (f : float) (z : Z) : bool :=
  match compare_int_float z f with
  | Some Eq | Some Gt => true
  | _ => false
  end.

(** [v == w].  A string equals strings only; a [bool] is the [int] 0 or 1
    ([True == 1], [1.0 == True]); numbers of different types are equal when
    they have the same value; NaN equals nothing. *)
Definition eqb (v w : value) : bool :=
  match v, w with
  | VStr s, VStr t => String.eqb s t
  | VStr _, _ | _, VStr _ => false
  | VFloat f, VFloat g => PrimFloat.eqb f g
  | VFloat f, VInt z | VInt z, VFloat f => eq_int_float z f
  | VFloat f, VBool b | VBool b, VFloat f => eq_int_float (Z.b2z b) f
  | VInt a, VInt b => Z.eqb a b
  | VBool a, VBool b => Bool.eqb a b
  | VBool a, VInt b | VInt b, VBool a => Z.eqb (Z.b2z a) b
  end.

(** [x in l] for a Python list [l]. *)
Definition In_list (v : value) (l : list value) : bool :=
  existsb (eqb v) l.

(** [s.endswith(suffix)] *)
Definition endswith (s suffix : string) : bool :=
  let n := String.length s in
  let k := String.length suffix in
  if decide (k ≤ n)%nat
  then String.eqb (String.substring (n - k)%nat k s) suffix
  else false.

(** ['sub' in s] *)
Definition contains (sub s : string) : bool :=
  match String.index 0 sub s with
  | Some _ => true
  | None => false
  end.

(** [d[k]] for a dictionary literal, kept as the list of its items. *)
Fixpoint getitem (d : list (value * value)) (k : value) : option value :=
  match d with
  | [] => None
  | (k', v) :: d' => if eqb k' k then Some v else getitem d' k
  end.

(** Truth value of an object ([if x:]). *)
Definition truthy (v : value) : bool :=
  match v with
  | VStr s => negb (String.eqb s "")
  | VFloat f => negb (PrimFloat.eqb f 0%float)
  | VInt z => negb (Z.eqb z 0)
  | VBool b => b
  end.

(** [float(z)]: the nearest float, ties to even; an integer beyond the
    largest float raises. *)
Definition float_of_int (z : Z) : result float :=
  let f := SF2Prim (binary_normalize prec emax z 0 false) in
  if PrimFloat.is_infinity f then Raise OverflowError else Ok f.

(** [v > n] and [v == n] for an integer literal [n]. *)
Definition gt_int (v : value) (n : Z) : result bool :=
  match v with
  | VInt z => Ok (n <? z)
  | VBool b => Ok (n <? Z.b2z b)
  | VFloat f => Ok (match compare_int_float n f with
                    | Some Lt => true
                    | _ => false
                    end)
  | VStr _ => Raise TypeError
  end.

Definition eq_int (v : value) (n : Z) : bool :=
  match v with
  | VInt z => Z.eqb z n
  | VBool b => Z.eqb (Z.b2z b) n
  | VFloat f => eq_int_float n f
  | VStr _ => false
  end.

(** [n / z] for two integers: the quotient is rounded once, to the nearest
    float, and the division raises when that is beyond the largest float
    [2^1024 - 2^971]. *)
Definition int_truediv_check (n z : Z) : result unit :=
  if z =? 0 then Raise ZeroDivisionError
  else if Z.abs z * (2 ^ 1024 - 2 ^ 970) <=? Z.abs n then Raise OverflowError
  else Ok ().

Definition eq_str (v : value) (s : string) : bool := eqb v (VStr s).

End Py.
Export Py.

(** A point of the search space: one value per dimension. *)
Abbreviation point := (list value).

(** ** The search space ([skopt.space]) *)

Module Space.

Inductive prior := Uniform | LogUniform.

(** [Categorical(categories, name)], [Real(low, high, prior, name)] and
    [Integer(low, high, name)], with the fields the program sets. *)
Inductive dimension :=
| Categorical (categories : list value) (name : string)
| Real (low high : float) (prior_ : prior) (name : string)
| Integer (low high : Z) (name : string).

Definition name (d : dimension) : string :=
  match d with
  | Categorical _ n | Real _ _ _ n | Integer _ _ n => n
  end.

(** [v in d] answers [True]: [v in self.categories], or
    [self.low <= v <= self.high] with both bounds included.  The bounds
    are compared with the value as Python compares numbers: a [bool] is 0 or
    1, an [int] and a [float] are compared exactly.  For a string the
    comparison with a bound does not answer (see [dimension_contains]). *)
Definition contains (d : dimension) (v : value) : bool :=
  match d, v with
  | Categorical cats _, _ => Py.In_list v cats
  | Real lo hi _ _, VFloat f => PrimFloat.leb lo f && PrimFloat.leb f hi
  | Real lo hi _ _, VInt z => Py.le_float_int lo z && Py.le_int_float z hi
  | Real lo hi _ _, VBool b =>
      Py.le_float_int lo (Z.b2z b) && Py.le_int_float (Z.b2z b) hi
  | Real _ _ _ _, VStr _ => false
  | Integer lo hi _, VInt z => (lo <=? z) && (z <=? hi)
  | Integer lo hi _, VBool b => (lo <=? Z.b2z b) && (Z.b2z b <=? hi)
  | Integer lo hi _, VFloat f => Py.le_int_float lo f && Py.le_float_int f hi
  | Integer _ _ _, VStr _ => false
  end.

(** [Dimension.__contains__]: the answer of [v in d], or the [TypeError] of
    the comparison of a string with a numeric bound. *)
Definition dimension_contains (d : dimension) (v : value) : result bool :=
  match d, v with
  | Real _ _ _ _, VStr _ | Integer _ _ _, VStr _ => Raise TypeError
  | _, _ => Ok (contains d v)
  end.

(** [Space.__contains__]: the components are paired with the dimensions
    by [zip] and tested in order, up to the first one that is not a
    member. *)
Fixpoint space_contains (dims : list dimension) (x : point) : result bool :=
  match dims, x with
  | d :: dims', v :: x' =>
      match dimension_contains d v with
      | Ok true => space_contains dims' x'
      | r => r
      end
  | _, _ => Ok true
  end.

(** A point belongs to the space when it has one component per dimension
    and each component belongs to its dimension, position by position. *)
Fixpoint point_in (dims : list dimension) (x : point) : bool :=
  match dims, x with
  | [], [] => true
  | d :: dims', v :: x' => contains d v && point_in dims' x'
  | _, _ => false
  end.

End Space.
Export Space.

(** ** [SearchableHyperparameters] *)

Module SearchableHyperparameters.

(** The instance attributes, in the order [__init__] assigns them, up to
    the point where the list comprehension over [dir(self)] runs. *)
Definition attributes : list (string * dimension) :=
  [ ("aggregator_hetero",
      Categorical [VStr "mean"; VStr "sum"; VStr "max"] "aggregator_hetero");
    ("aggregator_type",
      Categorical [VStr "mean"; VStr "mean_nn"; VStr "pool_nn"] "aggregator_type");
    ("clicks_sample",
      Categorical [VFloat 0.2; VFloat 0.3; VFloat 0.4] "clicks_sample");
    ("delta", Real 0.15 0.35 LogUniform "delta");
    ("dropout", Real 0 0.8 Uniform "dropout");
    ("embed_dim",
      Categorical [VStr "Very Small"; VStr "Small"; VStr "Medium";
                   VStr "Large"; VStr "Very Large"] "embed_dim");
    ("embedding_layer", Categorical [VBool true; VBool false] "embedding_layer");
    ("lr", Real 1e-4 1e-2 LogUniform "lr");
    ("n_layers", Integer 3 5 "n_layers");
    ("neg_sample_size", Integer 700 3000 "neg_sample_size");
    ("norm", Categorical [VBool true; VBool false] "norm");
    ("popularity_importance",
      Categorical [VStr "No"; VStr "Small"; VStr "Medium"; VStr "Large"]
                  "popularity_importance");
    ("purchases_sample",
      Categorical [VFloat 0.4; VFloat 0.5; VFloat 0.6] "purchases_sample");
    ("use_recency", Categorical [VBool true; VBool false] "use_recency") ].

(** Names every instance inherits from its class and from [object]. *)
Definition inherited_names : list string :=
  [ "__class__"; "__delattr__"; "__dict__"; "__dir__"; "__doc__"; "__eq__";
    "__format__"; "__ge__"; "__getattribute__"; "__gt__"; "__hash__";
    "__init__"; "__init_subclass__"; "__le__"; "__lt__"; "__module__";
    "__ne__"; "__new__"; "__reduce__"; "__reduce_ex__"; "__repr__";
    "__setattr__"; "__sizeof__"; "__str__"; "__subclasshook__";
    "__weakref__" ].

(** [sorted] on strings (code-point order), by insertion. *)
Fixpoint insert_sorted (s : string) (l : list string) : list string :=
  match l with
  | [] => [s]
  | t :: l' => if String.leb s t then s :: l else t :: insert_sorted s l'
  end.

Definition sorted (l : list string) : list string :=
  foldr insert_sorted [] l.

(** [dir(self)]: the attribute names in alphabetical order. *)
Definition dir : list string :=
  sorted (inherited_names ++ (fst <$> attributes)).

(** [self.__getattribute__(attr)] on a declared dimension. *)
Fixpoint getattribute (attrs : list (string * dimension)) (attr : string)
  : option dimension :=
  match attrs with
  | [] => None
  | (n, d) :: attrs' =>
      if String.eqb n attr then Some d else getattribute attrs' attr
  end.

(** [[self.__getattribute__(attr) for attr in dir(self) if '__' not in attr]] *)
Definition dimensions : list dimension :=
  omap (getattribute attributes)
       (filter (λ attr, Py.contains "__" attr = false) dir).

Definition default_parameters : point :=
  [ VStr "sum"; VStr "mean_nn"; VFloat 0.3; VFloat 0.266; VFloat 0.5;
    VStr "Medium"; VBool false; VFloat 0.00565; VInt 3; VInt 2500;
    VBool true; VStr "No"; VFloat 0.5; VBool true ].

End SearchableHyperparameters.

(** ** State and exceptions

    A computation runs on a state [S] and either returns a value or raises;
    the state reached is kept in both cases, so that what happened before an
    exception stays observable. *)

Definition M (S A : Type) : Type := S → result A * S.

#[export] Instance M_ret {S} : MRet (M S) := λ A a s, (Ok a, s).

#[export] Instance M_bind {S} : MBind (M S) := λ A B k c s,
  match c s with
  | (Ok a, s') => k a s'
  | (Raise e, s') => (Raise e, s')
  end.

Definition raise {S A} (e : exn) : M S A := λ s, (Raise e, s).

Definition lift {S A} (r : result A) : M S A := λ s, (r, s).

(** [assert b] *)
Definition assert {S} (b : bool) : M S unit :=
  if b then mret () else raise AssertionError.

(** ** The trial executor [train] *)

(** Calls to the external collaborators, with the hyperparameters each one
    receives.  Graphs, loaders, tensors and file contents are opaque to the
    search and are not represented. *)
Inductive ground_truth := PurchaseTest | Test.

Inductive call :=
| CreateGraph
| AssignGraphFeatures (kwargs : gmap string value)
| TrainValidSplit (clicks_sample purchases_sample : value)
| GenerateDataloaders (embedding_layer n_layers neg_sample_size : value)
| ConvModel (n_layers dim_out dim_hidden norm dropout aggregator_type
             pred aggregator_hetero embedding_layer : value)
| SaveTxt
| TrainModel (delta neg_sample_size use_recency lr out_dim pred
              use_popularity weight_popularity embedding_layer : value)
| PlotTrainLoss
| GetEmbeddings (out_dim embedding_layer : value)
| GetMetricsAtK (gt : ground_truth)
                (out_dim use_popularity weight_popularity : value)
| CreateAlreadyBought
| CreateGroundTruth
| GetRecs (out_dim use_popularity weight_popularity : value)
| ExploreRecs
| CheckCoverage
| SaveOutputs
| TorchSave
| InferenceFn (overwrite_fixed_params : bool) (kwargs : gmap string value).

(** What [train] reads back from its collaborators.  Each answer may
    depend on everything that was called before (the log ends with the call
    being answered). *)
Record collaborators := {
  (** [(precision, recall, coverage)] returned by [get_metrics_at_k] *)
  metrics_at_k : list call → float * float * float;
  (** [len(viz['train_loss_list'])] after [train_model] *)
  train_loss_list_len : list call → nat;
  (** the recall returned by [inference_hp.inference_fn] *)
  inference_recall : list call → float;
  (** the edge counts summed over the edge types by the loop of lines 176
      to 178, and the sizes of the id collections that enter the numbers of
      batches *)
  train_eids_len : list call → nat;
  valid_eids_len : list call → nat;
  len_subtrain_uids : list call → nat;
  len_valid_uids : list call → nat;
  len_test_uids : list call → nat;
  len_all_iids : list call → nat;
}.

(** The local state of one call of [train]: the keyword dictionary
    [params], updated in place, and the log of collaborator calls. *)
Record frame := Frame {
  params : gmap string value;
  trace : list call;
}.

(** [params[k]] *)
Definition param (k : string) : M frame value := λ s,
  match params s !! k with
  | Some v => (Ok v, s)
  | None => (Raise (KeyError (VStr k)), s)
  end.

(** [params[k] = v] *)
Definition set_param (k : string) (v : value) : M frame unit := λ s,
  (Ok (), Frame (<[k := v]> (params s)) (trace s)).

(** [del params[k]] *)
Definition del_param (k : string) : M frame unit := λ s,
  match params s !! k with
  | Some _ => (Ok (), Frame (delete k (params s)) (trace s))
  | None => (Raise (KeyError (VStr k)), s)
  end.

(** [params.update(d)] *)
Definition update_params (d : gmap string value) : M frame unit := λ s,
  (Ok (), Frame (d ∪ params s) (trace s)).

(** A call to a collaborator is appended to the log. *)
Definition emit (c : call) : M frame unit := λ s,
  (Ok (), Frame (params s) (trace s ++ [c])).

Definition get_trace : M frame (list call) := λ s, (Ok (trace s), s).
Definition get_params : M frame (gmap string value) := λ s, (Ok (params s), s).

(** [fixed_params.a]; the instance is its attribute dictionary, which is
    also what [vars(fixed_params)] returns. *)
Definition attr {S} (fixed_params : gmap string value) (a : string) : M S value :=
  match fixed_params !! a with
  | Some v => mret v
  | None => raise (AttributeError a)
  end.

(** [table[key]] for a dictionary literal. *)
Definition lookup_table {S} (table : list (value * value)) (key : value)
  : M S value :=
  match Py.getitem table key with
  | Some v => mret v
  | None => raise (KeyError key)
  end.

(** [a += suffix] on strings. *)
Definition iadd_str {S} (a : value) (suffix : string) : M S value :=
  match a with
  | VStr s => mret (VStr (s +:+ suffix))
  | _ => raise TypeError
  end.

(** [a.endswith(suffix)] *)
Definition endswith_value {S} (a : value) (suffix : string) : M S bool :=
  match a with
  | VStr s => mret (Py.endswith s suffix)
  | _ => raise (AttributeError "endswith")
  end.

(** [math.ceil(n / d)] for a count [n]; the number of batches only
    reaches the collaborators, so only the exceptions are kept.  With a
    float divisor the count is converted first, then a zero divisor raises,
    and [math.ceil] refuses NaN and the infinities. *)
Definition ceil_div {S} (n : nat) (d : value) : M S unit :=
  match d with
  | VStr _ => raise TypeError
  | VInt z => lift (Py.int_truediv_check (Z.of_nat n) z)
  | VBool b => lift (Py.int_truediv_check (Z.of_nat n) (Z.b2z b))
  | VFloat f =>
      x ← lift (Py.float_of_int (Z.of_nat n));
      if Py.eq_int d 0 then raise ZeroDivisionError
      else
        let q := PrimFloat.div x f in
        if PrimFloat.is_nan q then raise ValueError
        else if PrimFloat.is_infinity q then raise OverflowError
        else mret ()
  end.

Definition out_dim : list (value * value) :=
  [ (VStr "Very Small", VInt 32); (VStr "Small", VInt 96);
    (VStr "Medium", VInt 128); (VStr "Large", VInt 192);
    (VStr "Very Large", VInt 256) ].

Definition hidden_dim : list (value * value) :=
  [ (VStr "Very Small", VInt 64); (VStr "Small", VInt 192);
    (VStr "Medium", VInt 256); (VStr "Large", VInt 384);
    (VStr "Very Large", VInt 512) ].

Definition use_popularity : list (value * value) :=
  [ (VStr "No", VBool false); (VStr "Small", VBool true);
    (VStr "Medium", VBool true); (VStr "Large", VBool true) ].

Definition weight_popularity : list (value * value) :=
  [ (VStr "No", VInt 0); (VStr "Small", VFloat 0.01);
    (VStr "Medium", VFloat 0.05); (VStr "Large", VFloat 0.1) ].

Definition days_popularity : list (value * value) :=
  [ (VStr "No", VInt 0); (VStr "Small", VInt 7);
    (VStr "Medium", VInt 7); (VStr "Large", VInt 7) ].

(** Lines 86 to 100 of [train]: the derived parameters. *)
Definition expand_derived (fixed_params : gmap string value) : M frame unit :=
  e ← param "embed_dim"; v ← lookup_table out_dim e;
  set_param "out_dim" v;;
  e ← param "embed_dim"; v ← lookup_table hidden_dim e;
  set_param "hidden_dim" v;;
  p ← param "popularity_importance"; v ← lookup_table use_popularity p;
  set_param "use_popularity" v;;
  p ← param "popularity_importance"; v ← lookup_table weight_popularity p;
  set_param "weight_popularity" v;;
  p ← param "popularity_importance"; v ← lookup_table days_popularity p;
  set_param "days_popularity" v;;
  d ← attr fixed_params "duplicates";
  if Py.eq_str d "count_occurrence" then
    a ← param "aggregator_type";
    a' ← iadd_str a "_edge";
    set_param "aggregator_type" a'
  else mret ().

(** Lines 103 to 106: graph data consistent with message passing. *)
Definition check_consistency (fixed_params : gmap string value) : M frame unit :=
  d ← attr fixed_params "duplicates";
  if Py.eq_str d "count_occurrence" then
    a ← param "aggregator_type";
    b ← endswith_value a "edge";
    assert b
  else
    a ← param "aggregator_type";
    b ← endswith_value a "edge";
    assert (negb b).

Section Train.

Context (collab : collaborators).
(** [torch.cuda.is_available()] at import time. *)
Context (cuda : bool).

(** Attribute reads of [fixed_params] made while the arguments of a call
    are evaluated; only their failure is visible. *)
Fixpoint read_attrs (fixed_params : gmap string value) (names : list string)
  : M frame unit :=
  match names with
  | [] => mret ()
  | a :: names' => attr fixed_params a;; read_attrs fixed_params names'
  end.

(** Lines 108 to 203: graph, split, loaders and model. *)
Definition build (fixed_params : gmap string value) : M frame unit :=
  emit CreateGraph;;
  kwargs ← get_params;
  emit (AssignGraphFeatures kwargs);;
  dim_out ← param "out_dim";
  dim_hidden ← param "hidden_dim";
  read_attrs fixed_params
    ["etype"; "subtrain_size"; "valid_size"; "reverse_etype";
     "train_on_clicks"; "remove_train_eids"];;
  clicks_sample ← param "clicks_sample";
  purchases_sample ← param "purchases_sample";
  emit (TrainValidSplit clicks_sample purchases_sample);;
  embedding_layer ← param "embedding_layer";
  n_layers ← param "n_layers";
  neg_sample_size ← param "neg_sample_size";
  emit (GenerateDataloaders embedding_layer n_layers neg_sample_size);;
  t ← get_trace;
  d ← attr fixed_params "edge_batch_size";
  ceil_div (train_eids_len collab t) d;;
  d ← attr fixed_params "node_batch_size";
  ceil_div (len_subtrain_uids collab t + len_all_iids collab t) d;;
  d ← attr fixed_params "edge_batch_size";
  ceil_div (valid_eids_len collab t) d;;
  d ← attr fixed_params "node_batch_size";
  ceil_div (len_valid_uids collab t + len_all_iids collab t) d;;
  d ← attr fixed_params "node_batch_size";
  ceil_div (len_test_uids collab t + len_all_iids collab t) d;;
  sampler ← attr fixed_params "neighbor_sampler";
  (if Py.eq_str sampler "partial" then set_param "n_layers" (VInt 3)
   else mret ());;
  n_layers ← param "n_layers";
  norm ← param "norm";
  dropout ← param "dropout";
  aggregator_type ← param "aggregator_type";
  pred ← attr fixed_params "pred";
  aggregator_hetero ← param "aggregator_hetero";
  embedding_layer ← param "embedding_layer";
  emit (ConvModel n_layers dim_out dim_hidden norm dropout aggregator_type
                  pred aggregator_hetero embedding_layer).

(** One round of the loop of lines 289 to 312. *)
Definition test_metrics (fixed_params : gmap string value) (gt : ground_truth)
  : M frame (float * float * float) :=
  out_dim ← param "out_dim";
  read_attrs fixed_params ["k"; "pred"];;
  use_popularity ← param "use_popularity";
  weight_popularity ← param "weight_popularity";
  emit (GetMetricsAtK gt out_dim use_popularity weight_popularity);;
  t ← get_trace;
  emit SaveTxt;;
  mret (metrics_at_k collab t).

(** Lines 207 to 312: [hp_sentence] is the same object as [params], so
    the two [update]s add the attributes of [fixed_params] and ['cuda'] to
    [params]; then training, and the metrics on the two test sets.  Returns
    the number of epochs run and the recall of the last round. *)
Definition fit_and_test (fixed_params : gmap string value)
    (visualization : value) : M frame (nat * float) :=
  update_params fixed_params;;
  update_params {[ "cuda" := VBool cuda ]};;
  emit SaveTxt;;
  attr fixed_params "num_epochs";;
  delta ← param "delta";
  neg_sample_size ← param "neg_sample_size";
  use_recency ← param "use_recency";
  attr fixed_params "optimizer";;
  lr ← param "lr";
  attr fixed_params "k";;
  out_dim ← param "out_dim";
  read_attrs fixed_params ["start_epoch"; "patience"];;
  pred ← param "pred";
  use_popularity ← param "use_popularity";
  weight_popularity ← param "weight_popularity";
  attr fixed_params "remove_false_negative";;
  embedding_layer ← param "embedding_layer";
  emit (TrainModel delta neg_sample_size use_recency lr out_dim pred
                   use_popularity weight_popularity embedding_layer);;
  t ← get_trace;
  emit SaveTxt;;
  (if Py.truthy visualization then emit PlotTrainLoss else mret ());;
  emit SaveTxt;;
  out_dim ← param "out_dim";
  embedding_layer ← param "embedding_layer";
  emit (GetEmbeddings out_dim embedding_layer);;
  test_metrics fixed_params PurchaseTest;;
  m ← test_metrics fixed_params Test;
  mret (train_loss_list_len collab t, m.1.2).

(** Lines 314 to 436, the body of [if check_embedding:].  Returns the
    recall of the first inference when there was one. *)
Definition explore (fixed_params : gmap string value) (recall : float)
  : M frame (option float) :=
  emit CreateAlreadyBought;;
  emit CreateGroundTruth;;
  out_dim ← param "out_dim";
  read_attrs fixed_params ["k"; "pred"];;
  use_popularity ← param "use_popularity";
  weight_popularity ← param "weight_popularity";
  emit (GetRecs out_dim use_popularity weight_popularity);;
  emit CreateGroundTruth;;
  read_attrs fixed_params ["num_choices"; "item_id_type"];;
  emit ExploreRecs;;
  id_type ← attr fixed_params "item_id_type";
  (if Py.eq_str id_type "SPECIFIC ITEM_IDENTIFIER"
   then emit CheckCoverage;; emit SaveTxt
   else mret ());;
  emit SaveOutputs;;
  del_param "remove";;
  id_type ← attr fixed_params "item_id_type";
  save ← (if PrimFloat.ltb 0.08 recall
             && Py.eq_str id_type "SPECIFIC ITEM_IDENTIFIER"
          then mret true
          else id_type ← attr fixed_params "item_id_type";
               mret (PrimFloat.ltb 0.2 recall
                     && Py.eq_str id_type "GENERAL ITEM_IDENTIFIER"));
  (if save : bool then emit TorchSave;; emit SaveOutputs else mret ());;
  run_inference ← attr fixed_params "run_inference";
  b ← lift (Py.gt_int run_inference 0);
  if b : bool then
    attr fixed_params "remove_on_inference";;
    kwargs ← get_params;
    emit (InferenceFn false kwargs);;
    t ← get_trace;
    run_inference ← attr fixed_params "run_inference";
    b ← lift (Py.gt_int run_inference 1);
    (if b : bool then
       del_param "days_of_purchases";;
       del_param "days_of_clicks";;
       del_param "lifespan_of_items";;
       attr fixed_params "remove_on_inference";;
       kwargs ← get_params;
       emit (InferenceFn true kwargs)
     else mret ());;
    mret (Some (inference_recall collab t))
  else mret None.

(** Lines 438 to 445: the recap uses [inference_recall], which is only
    bound when the inference ran, and divides by the number of epochs. *)
Definition recap (fixed_params : gmap string value) (epochs : nat)
    (inference : option float) : M frame unit :=
  run_inference ← attr fixed_params "run_inference";
  (if Py.eq_int run_inference 1 then
     attr fixed_params "remove_on_inference";;
     match inference with
     | Some _ => mret ()
     | None => raise (NameError "inference_recall")
     end
   else mret ());;
  (if decide (epochs = 0%nat) then raise ZeroDivisionError else mret ());;
  emit SaveTxt.

Definition train_body (fixed_params : gmap string value)
    (visualization check_embedding : value) : M frame float :=
  expand_derived fixed_params;;
  check_consistency fixed_params;;
  build fixed_params;;
  r ← fit_and_test fixed_params visualization;
  inference ← (if Py.truthy check_embedding then explore fixed_params r.2
               else mret None);
  recap fixed_params r.1 inference;;
  mret r.2.

(** [train(data, fixed_params, data_paths, visualization, check_embedding,
    **params)].  The dataset handle and the paths only reach the
    collaborators.  The function runs on the process-wide log of collaborator
    calls; [params] is its own dictionary. *)
Definition train (fixed_params : gmap string value)
    (visualization check_embedding : value) (params : gmap string value)
  : M (list call) float := λ log,
  let r := train_body fixed_params visualization check_embedding
             (Frame params log) in
  (r.1, trace r.2).

(** ** The objective [fitness] *)

(** The module-level [fitness_params], [None] until [main] fills it. *)
Record context := Context_ {
  ctx_fixed_params : gmap string value;
  ctx_visualization : value;
  ctx_check_embedding : value;
}.

Record process := Process {
  fitness_params : option context;
  log : list call;
}.

(** The function under the decorator: [train] is called on the dictionary
    [fitness_params] extended with the named hyperparameters, and the recall
    it returns is negated.  Unpacking [None] raises. *)
Definition fitness_named (params : gmap string value) : M process float :=
  λ w,
  match fitness_params w with
  | None => (Raise TypeError, w)
  | Some c =>
      let r := train (ctx_fixed_params c) (ctx_visualization c)
                 (ctx_check_embedding c) params (log w) in
      (match r.1 with
       | Ok recall => Ok (PrimFloat.opp recall)
       | Raise e => Raise e
       end,
       Process (fitness_params w) r.2)
  end.

(** [skopt.utils.use_named_args]: the wrapper checks the length of the
    point and calls the function on the dictionary that maps each dimension
    name to its component (a later name wins). *)
Definition arg_dict (dims : list dimension) (x : point) : gmap string value :=
  foldl (λ m dv, <[Space.name dv.1 := dv.2]> m) ∅ (zip dims x).

Definition use_named_args {S A} (dims : list dimension)
    (func : gmap string value → M S A) (x : point) : M S A :=
  if decide (length x = length dims) then func (arg_dict dims x)
  else raise ValueError.

Definition fitness : point → M process float :=
  use_named_args SearchableHyperparameters.dimensions fitness_named.

End Train.

(** ** The sequential driver of scikit-optimize

    [gp_minimize] belongs to the scikit-optimize library.  The module follows
    the control flow of its [base_minimize] and of [Optimizer.ask] and
    [Optimizer.tell]: the bookkeeping of the initial points, the checks that
    raise, and the order of the calls to the objective.  The sampler of the
    space and the fit of the surrogate followed by the maximisation of the
    acquisition function are parameters.  The only callback [main] installs
    is a [CheckpointSaver], which writes the current result to a file and
    returns [None]: it never stops the loop, and the file is not
    represented. *)

Module Skopt.

(** Where an evaluated point comes from: the caller's [x0], the random
    sampler of the space, or the acquisition function on the fitted
    surrogate. *)
Inductive origin := Given | Sampled | Acquired.

Record OptimizeResult := Result {
  x_iters : list point;
  func_vals : list float;
}.

(** The argument [x0]: [None], one point (a flat list) or a list of
    points. *)
Inductive x0_arg :=
| X0_None
| X0_flat (x : point)
| X0_nested (xs : list point).

(** The state of a search: the caller's state and the objective calls made
    so far, in order, each with the origin of its point. *)
Record run (W : Type) := Run {
  world : W;
  evaluated : list (origin * point);
}.
Arguments Run {W} world evaluated.
Arguments world {W} r.
Arguments evaluated {W} r.

Section Minimize.

Context {W rng : Type}.
(** [space.rvs(random_state=rng)[0]] *)
Context (rvs : rng → point * rng).
(** Fit the surrogate on the observations and return the maximiser of the
    acquisition function. *)
Context (acquire : list point → list float → rng → point * rng).
Context (space : list dimension).

Record Optimizer := {
  Xi : list point;
  yi : list float;
  _n_initial_points : Z;
  _next_x : option point;
  rng_ : rng;
}.

(** [Optimizer.__init__] *)
Definition Optimizer_init (n_initial_points : Z) (random_state : rng)
  : result Optimizer :=
  if n_initial_points <? 0 then Raise ValueError
  else Ok {| Xi := []; yi := []; _n_initial_points := n_initial_points;
             _next_x := None; rng_ := random_state |}.

(** The end of [_tell]: once the initial points are used up the surrogate
    is fitted on all observations and the next point is computed. *)
Definition fit (o : Optimizer) : Optimizer :=
  if _n_initial_points o <=? 0 then
    let r := acquire (Xi o) (yi o) (rng_ o) in
    {| Xi := Xi o; yi := yi o; _n_initial_points := _n_initial_points o;
       _next_x := Some r.1; rng_ := r.2 |}
  else o.

(** [check_x_in_space(x, space)] for one point: the point is tested, then
    its length. *)
Definition check_x_in_space (x : point) : result unit :=
  match Space.space_contains space x with
  | Raise e => Raise e
  | Ok false => Raise ValueError
  | Ok true =>
      if bool_decide (length x = length space) then Ok ()
      else Raise ValueError
  end.

(** [[p in space for p in x]] *)
Fixpoint points_in_space (xs : list point) : result (list bool) :=
  match xs with
  | [] => Ok []
  | p :: xs' =>
      match Space.space_contains space p with
      | Raise e => Raise e
      | Ok b =>
          match points_in_space xs' with
          | Raise e => Raise e
          | Ok bs => Ok (b :: bs)
          end
      end
  end.

(** [check_x_in_space(x, space)] for a list of points: every point is
    tested, then every length. *)
Definition check_xs_in_space (xs : list point) : result unit :=
  match points_in_space xs with
  | Raise e => Raise e
  | Ok bs =>
      if forallb id bs then
        if forallb (λ p, bool_decide (length p = length space)) xs
        then Ok () else Raise ValueError
      else Raise ValueError
  end.

(** [tell(x, y)] for one point. *)
Definition tell (o : Optimizer) (x : point) (y : float) : result Optimizer :=
  match check_x_in_space x with
  | Raise e => Raise e
  | Ok _ =>
      Ok (fit {| Xi := Xi o ++ [x]; yi := yi o ++ [y];
                 _n_initial_points := _n_initial_points o - 1;
                 _next_x := _next_x o; rng_ := rng_ o |})
  end.

(** [tell(x, y)] for a list of points. *)
Definition tell_many (o : Optimizer) (xs : list point) (ys : list float)
  : result Optimizer :=
  match check_xs_in_space xs with
  | Raise e => Raise e
  | Ok _ =>
      Ok (fit {| Xi := Xi o ++ xs; yi := yi o ++ ys;
                 _n_initial_points := _n_initial_points o
                                      - Z.of_nat (length ys);
                 _next_x := _next_x o; rng_ := rng_ o |})
  end.

(** [ask()]: a random point while initial points remain, else the point
    computed by the last [tell]. *)
Definition ask (o : Optimizer) : result (origin * point * Optimizer) :=
  if 0 <? _n_initial_points o then
    let r := rvs (rng_ o) in
    Ok (Sampled, r.1,
        {| Xi := Xi o; yi := yi o; _n_initial_points := _n_initial_points o;
           _next_x := _next_x o; rng_ := r.2 |})
  else
    match _next_x o with
    | Some x => Ok (Acquired, x, o)
    | None => Raise RuntimeError
    end.

Context (func : point → M W float).

(** One call of the objective, recorded before its outcome is known. *)
Definition evaluate (src : origin) (x : point) : M (run W) float := λ s,
  let r := func x (world s) in
  (r.1, Run r.2 (evaluated s ++ [(src, x)])).

(** [list(map(func, x0))] *)
Fixpoint map_func (xs : list point) : M (run W) (list float) :=
  match xs with
  | [] => mret []
  | x :: xs' =>
      y ← evaluate Given x;
      ys ← map_func xs';
      mret (y :: ys)
  end.

(** [for n in range(n_calls)]: ask, evaluate, tell. *)
Fixpoint optimize (n : nat) (o : Optimizer) : M (run W) Optimizer :=
  match n with
  | O => mret o
  | S n' =>
      a ← lift (ask o);
      next_y ← evaluate a.1.1 a.1.2;
      o' ← lift (tell a.2 a.1.2 next_y);
      optimize n' o'
  end.

Definition base_minimize (n_calls n_initial_points : Z) (x0 : x0_arg)
    (y0 : option (list float)) (random_state : rng)
  : M (run W) OptimizeResult :=
  x0 ← match x0 with
       | X0_None => mret []
       | X0_flat [] | X0_nested [] => raise IndexError
       | X0_flat x => mret [x]
       | X0_nested xs => mret xs
       end;
  (if (n_initial_points <=? 0) && bool_decide (x0 = [])
   then raise ValueError else mret ());;
  let required_calls :=
    n_initial_points +
    match y0 with
    | None | Some [] => Z.of_nat (length x0)
    | Some _ => 0
    end in
  (if n_calls <? required_calls then raise ValueError else mret ());;
  let n_initial_points := n_initial_points + Z.of_nat (length x0) in
  optimizer ← lift (Optimizer_init n_initial_points random_state);
  (if forallb (λ p, bool_decide (length p = length space)) x0 then mret ()
   else raise RuntimeError);;
  yn ← match x0, y0 with
       | _ :: _, None =>
           y0 ← map_func x0;
           mret (y0, n_calls - Z.of_nat (length y0))
       | _, None => mret ([], n_calls)
       | _, Some y0 => mret (y0, n_calls)
       end;
  optimizer ← match x0 with
              | [] => mret optimizer
              | _ :: _ =>
                  if decide (length x0 = length yn.1)
                  then lift (tell_many optimizer x0 yn.1)
                  else raise ValueError
              end;
  optimizer ← optimize (Z.to_nat yn.2) optimizer;
  mret (Result (Xi optimizer) (yi optimizer)).

(** [gp_minimize]: ten initial points unless the caller says otherwise. *)
Definition gp_minimize (n_calls : Z) (n_initial_points : option Z)
    (x0 : x0_arg) (y0 : option (list float)) (random_state : rng)
  : M (run W) OptimizeResult :=
  base_minimize n_calls (default 10 n_initial_points) x0 y0 random_state.

End Minimize.

End Skopt.

(** ** The entry point [main] *)

Section Main.

Context (collab : collaborators) (cuda : bool).
Context {rng : Type}.
(** The generator built from [random_state=46], the sampler of the space
    and the acquisition step of the library. *)
Context (seed : Z → rng).
Context (rvs : rng → point * rng).
Context (acquire : list point → list float → rng → point * rng).

(** The command-line options. *)
Record options := {
  from_beginning : Z;
  verbose : Z;
  visualization : Z;
  check_embedding : Z;
  remove : float;
  num_epochs : Z;
  start_epoch : Z;
  patience : Z;
  edge_batch_size : Z;
  item_id_type : string;
  duplicates : string;
}.

(** The class [FixedParameters] is defined in another module of the
    project; its constructor is a parameter, and an instance is the
    dictionary of its attributes. *)
Context (FixedParameters : options → gmap string value).

Definition set_fitness_params (c : context) : M (Skopt.run process) unit :=
  λ s, (Ok (), Skopt.Run (Process (Some c) (log (Skopt.world s)))
                         (Skopt.evaluated s)).

(** The dictionary [main] stores in [fitness_params]. *)
Definition main_context (o : options) : context :=
  let fixed_params := FixedParameters o in
  Context_ fixed_params (VInt (visualization o)) (VInt (check_embedding o)).

(** [main]; [checkpoint] is what [load(get_last_checkpoint())] gives. *)
Definition main (o : options) (checkpoint : result Skopt.OptimizeResult)
  : M (Skopt.run process) Skopt.OptimizeResult :=
  set_fitness_params (main_context o);;
  if negb (from_beginning o =? 0) then
    Skopt.gp_minimize rvs acquire SearchableHyperparameters.dimensions
      (fitness collab cuda)
      200 None
      (Skopt.X0_flat SearchableHyperparameters.default_parameters) None
      (seed 46)
  else
    res ← lift checkpoint;
    let x0 := Skopt.x_iters res in
    let y0 := Skopt.func_vals res in
    Skopt.gp_minimize rvs acquire SearchableHyperparameters.dimensions
      (fitness collab cuda)
      200 (Some (- Z.of_nat (length x0)))
      (Skopt.X0_nested x0) (Some y0)
      (seed 46).

End Main.

(** ** A concrete setting, used to run the definitions *)

Module Sample.

Definition collab : collaborators := {|
  metrics_at_k := λ _, (0.05, 0.2, 0.5)%float;
  train_loss_list_len := λ _, 10%nat;
  inference_recall := λ _, 0.1%float;
  train_eids_len := λ _, 900%nat;
  valid_eids_len := λ _, 100%nat;
  len_subtrain_uids := λ _, 30%nat;
  len_valid_uids := λ _, 30%nat;
  len_test_uids := λ _, 40%nat;
  len_all_iids := λ _, 200%nat;
|}.

Definition FixedParameters (o : options) : gmap string value :=
  list_to_map
    [ ("num_epochs", VInt (num_epochs o));
      ("start_epoch", VInt (start_epoch o));
      ("patience", VInt (patience o));
      ("edge_batch_size", VInt (edge_batch_size o));
      ("remove", VFloat (remove o));
      ("item_id_type", VStr (item_id_type o));
      ("duplicates", VStr (duplicates o));
      ("etype", VStr "buys");
      ("reverse_etype", VStr "bought-by");
      ("subtrain_size", VFloat 0.05);
      ("valid_size", VFloat 0.05);
      ("train_on_clicks", VBool true);
      ("remove_train_eids", VBool false);
      ("node_batch_size", VInt 128);
      ("neighbor_sampler", VStr "full");
      ("pred", VStr "cos");
      ("optimizer", VStr "adam");
      ("k", VInt 10);
      ("remove_false_negative", VBool true);
      ("num_choices", VInt 10);
      ("run_inference", VInt 0);
      ("remove_on_inference", VFloat 0.7) ].

Definition cli (fresh : Z) (dup : string) : options := {|
  from_beginning := fresh; verbose := 0; visualization := 0;
  check_embedding := 0; remove := 0.95; num_epochs := 10; start_epoch := 0;
  patience := 3; edge_batch_size := 2048;
  item_id_type := "SPECIFIC ITEM IDENTIFIER"; duplicates := dup;
|}.

(** A sampler and an acquisition step that walk through [n_layers]. *)
Definition proposal (n : Z) : point :=
  [ VStr "mean"; VStr "pool_nn"; VFloat 0.2; VFloat 0.2; VFloat 0.1;
    VStr "Small"; VBool true; VFloat 0.001; VInt (3 + n mod 3); VInt 1000;
    VBool false; VStr "Large"; VFloat 0.6; VBool false ].

Definition rvs (g : Z) : point * Z := (proposal g, g + 1).
Definition acquire (X : list point) (Y : list float) (g : Z) : point * Z :=
  (proposal (Z.of_nat (length X)), g).

(** A raw vector whose aggregator already carries the edge suffix. *)
Definition edge_point : point :=
  [ VStr "mean"; VStr "mean_edge"; VFloat 0.2; VFloat 0.2; VFloat 0.1;
    VStr "Small"; VBool true; VFloat 0.001; VInt 4; VInt 1000;
    VBool false; VStr "Large"; VFloat 0.6; VBool false ].

(** The fixed parameters with the partial neighbour sampler. *)
Definition partial_params : gmap string value :=
  <["neighbor_sampler" := VStr "partial"]>
    (FixedParameters (cli 1 "keep_all")).

(** A checkpoint with one observation: the default vector, with the
    objective of a recall of [0.09]. *)
Definition checkpoint : Skopt.OptimizeResult :=
  Skopt.Result [SearchableHyperparameters.default_parameters]
               [(-0.09)%float].

(** Collaborators whose training loop reports no epoch at all. *)
Definition collab_no_epoch : collaborators := {|
  metrics_at_k := λ _, (0.05, 0.2, 0.5)%float;
  train_loss_list_len := λ _, 0%nat;
  inference_recall := λ _, 0.1%float;
  train_eids_len := λ _, 900%nat;
  valid_eids_len := λ _, 100%nat;
  len_subtrain_uids := λ _, 30%nat;
  len_valid_uids := λ _, 30%nat;
  len_test_uids := λ _, 40%nat;
  len_all_iids := λ _, 200%nat;
|}.

(** Fixed parameters that ask for one inference run, with the periods
    the inference overrides. *)
Definition inference_params (run_inference : Z) : gmap string value :=
  <["run_inference" := VInt run_inference]>
  (<["days_of_purchases" := VInt 365]>
  (<["days_of_clicks" := VInt 30]>
  (<["lifespan_of_items" := VInt 180]>
     (FixedParameters (cli 1 "keep_all"))))).

(** The same with the partial neighbour sampler and two inference runs. *)
Definition partial_inference_params : gmap string value :=
  <["neighbor_sampler" := VStr "partial"]> (inference_params 2).

(** A checkpoint written by hand: the default vector with the integer
    [2^63] as dropout, and one objective value. *)
Definition damaged_checkpoint : Skopt.OptimizeResult :=
  Skopt.Result
    [<[4%nat := VInt (2 ^ 63)]> SearchableHyperparameters.default_parameters]
    [(-0.09)%float].

(** Collaborators whose metrics differ between the two test rounds. *)
Definition collab_by_round : collaborators := {|
  metrics_at_k := λ calls,
    match last calls with
    | Some (GetMetricsAtK PurchaseTest _ _ _) => (0.01, 0.07, 0.3)%float
    | _ => (0.02, 0.12, 0.5)%float
    end;
  train_loss_list_len := λ _, 10%nat;
  inference_recall := λ _, 0.1%float;
  train_eids_len := λ _, 900%nat;
  valid_eids_len := λ _, 100%nat;
  len_subtrain_uids := λ _, 30%nat;
  len_valid_uids := λ _, 30%nat;
  len_test_uids := λ _, 40%nat;
  len_all_iids := λ _, 200%nat;
|}.

(** Fixed parameters with an attribute named like a searched
    hyperparameter. *)
Definition shadowing_params : gmap string value :=
  <["lr" := VFloat 0.5]> (FixedParameters (cli 1 "keep_all")).

Definition start : Skopt.run process := Skopt.Run (Process None []) [].

Definition run_main (o : options) (checkpoint : result Skopt.OptimizeResult) :=
  main collab false (λ z, z) rvs acquire FixedParameters o checkpoint start.

End Sample.

(** * The vocabulary of the properties *)

(** A step is log-free when its outcome and the dictionary it leaves do
    not depend on the log and the log is left as it was. *)
Definition log_free {A} (c : M frame A) : Prop :=
  ∀ p t, c (Frame p t) =
         ((c (Frame p [])).1, Frame (params (c (Frame p [])).2) t).

(** A step that never stops on a failed [assert]. *)
Definition no_assertion {S A} (c : M S A) : Prop :=
  ∀ s, (c s).1 ≠ Raise AssertionError.

(** A step that keeps the calls already logged and may add new ones. *)
Definition appends {A} (c : M frame A) : Prop :=
  ∀ s, ∃ l, trace (c s).2 = (trace s ++ l)%list.

(** The claim C3 as it is written: every incompatible combination aborts
    before any collaborator is called, with the aggregation value left as
    it was given. *)
Definition incompatible (fixed_params p : gmap string value) : Prop :=
  ∃ d a, fixed_params !! "duplicates" = Some d ∧
         p !! "aggregator_type" = Some (VStr a) ∧
         Py.eq_str d "count_occurrence" ≠ Py.endswith a "edge".

Definition aborts_uncoerced collab cuda
    (fixed_params : gmap string value) (visualization check_embedding : value)
    (p : gmap string value) (t : list call) : Prop :=
  let r := train_body collab cuda fixed_params visualization check_embedding
             (Frame p t) in
  (∃ e, r.1 = Raise e) ∧ trace r.2 = t ∧
  params r.2 !! "aggregator_type" = p !! "aggregator_type".

(** The origins of [n] iterations of the loop when [k] initial points
    remain: random samples first, then acquisitions. *)
Definition schedule (n : nat) (k : Z) : list Skopt.origin :=
  (repeat Skopt.Sampled (n `min` Z.to_nat k) ++
   repeat Skopt.Acquired (n - n `min` Z.to_nat k))%list.

(** The optimizer can answer the next [ask] with a good point: the sampler
    is only needed while initial points remain, and a point computed by the
    last [tell] is there once none remains. *)
Definition ready {rng} (good : point → Prop) (sampling : Prop)
    (o : @Skopt.Optimizer rng) : Prop :=
  (0 < Skopt._n_initial_points o → sampling) ∧
  (Skopt._n_initial_points o ≤ 0 →
   ∃ x, Skopt._next_x o = Some x ∧ good x).

(** The optimizer a resumed search starts its loop with: all loaded
    observations told at once, no initial point left. *)
Definition resumed {rng}
    (acquire : list point → list float → rng → point * rng)
    (xs : list point) (ys : list float) (g : rng) : Skopt.Optimizer :=
  Skopt.fit acquire
    {| Skopt.Xi := xs; Skopt.yi := ys;
       Skopt._n_initial_points :=
         - Z.of_nat (length xs) + Z.of_nat (length xs)
         - Z.of_nat (length ys);
       Skopt._next_x := None; Skopt.rng_ := g |}.

(** The point lies in the space and its trial returns a recall, at any
    point of the process history. *)
Definition trial_returns collab cuda (c : context) (x : point) : Prop :=
  Space.point_in SearchableHyperparameters.dimensions x = true ∧
  ∀ log, ∃ y, (fitness collab cuda x (Process (Some c) log)).1 = Ok y.

(** The well-formed checkpoints: at least one observation, as many
    objective values as points, every point in the space. *)
Definition well_formed (res : Skopt.OptimizeResult) : Prop :=
  Skopt.x_iters res ≠ [] ∧
  length (Skopt.x_iters res) = length (Skopt.func_vals res) ∧
  forallb (Space.point_in SearchableHyperparameters.dimensions)
          (Skopt.x_iters res) = true.

(** The calls made only by the exploration of the recommendations
    (lines 314 to 436). *)
Definition is_exploration (c : call) : bool :=
  match c with
  | CreateAlreadyBought | CreateGroundTruth | GetRecs _ _ _ | ExploreRecs
  | CheckCoverage | SaveOutputs | TorchSave | InferenceFn _ _ => true
  | _ => false
  end.

Definition is_train_model (c : call) : bool :=
  match c with TrainModel _ _ _ _ _ _ _ _ _ => true | _ => false end.

Definition is_conv_model (c : call) : bool :=
  match c with ConvModel _ _ _ _ _ _ _ _ _ => true | _ => false end.

(** The aggregator a model is built with. *)
Definition conv_model_aggregator (c : call) : option value :=
  match c with
  | ConvModel _ _ _ _ _ aggregator_type _ _ _ => Some aggregator_type
  | _ => None
  end.

(** The keyword arguments of a call to [train_model] that come from
    [params]. *)
Definition train_model_kwargs (c : call) : gmap string value :=
  match c with
  | TrainModel delta ns ur lr od pred up wp el =>
      list_to_map
        [ ("delta", delta); ("neg_sample_size", ns); ("use_recency", ur);
          ("lr", lr); ("out_dim", od); ("pred", pred);
          ("use_popularity", up); ("weight_popularity", wp);
          ("embedding_layer", el) ]
  | _ => ∅
  end.

(** The value of [n_layers] a call hands to a collaborator other than the
    model: the loaders get it as an argument, the graph features and the
    inference through the keyword dictionary. *)
Definition n_layers_passed (c : call) : option value :=
  match c with
  | GenerateDataloaders _ n_layers _ => Some n_layers
  | AssignGraphFeatures kwargs | InferenceFn _ kwargs => kwargs !! "n_layers"
  | _ => None
  end.

(** The claim C10 as it is written: the override is for the construction
    of the model only, so every other collaborator of a trial that returns
    is given the searched [n_layers]. *)
Definition overrides_model_only (collab : collaborators) (cuda : bool)
    (fixed_params : gmap string value) (visualization check_embedding : value)
    (p : gmap string value) (t : list call) : Prop :=
  ∀ recall s' n,
    train_body collab cuda fixed_params visualization check_embedding
      (Frame p t) = (Ok recall, s') →
    p !! "n_layers" = Some n →
    ∀ c m, c ∈ drop (length t) (trace s') → n_layers_passed c = Some m → m = n.

(** The keywords an inference call must not receive through [params]:
    [remove] always, and the three periods when it overrides them. *)
Definition inference_kwargs_ok (c : call) : Prop :=
  match c with
  | InferenceFn overwrite kwargs =>
      kwargs !! "remove" = None ∧
      (overwrite = true →
       kwargs !! "days_of_purchases" = None ∧
       kwargs !! "days_of_clicks" = None ∧
       kwargs !! "lifespan_of_items" = None)
  | _ => True
  end.

(** A step that keeps the calls already logged and adds only calls that
    satisfy [P]. *)
Definition emits_only (P : call → bool) {A} (c : M frame A) : Prop :=
  ∀ s, ∃ l, trace (c s).2 = (trace s ++ l)%list ∧ forallb P l = true.

(** The list comprehension of [SearchableHyperparameters.__init__] on
    any list of instance attributes: the dimensions of the attributes whose
    name holds no double underscore, in the order of [dir(self)]. *)
Definition assemble (attrs : list (string * dimension)) : list dimension :=
  omap (SearchableHyperparameters.getattribute attrs)
       (filter (λ attr, Py.contains "__" attr = false)
               (SearchableHyperparameters.sorted
                  (SearchableHyperparameters.inherited_names ++
                   (fst <$> attrs)))).

(** The order [sorted] sorts by. *)
Definition string_le (s1 s2 : string) : Prop := String.leb s1 s2 = true.

(** The points given to the search through [x0]. *)
Definition x0_points (x0 : Skopt.x0_arg) : list point :=
  match x0 with
  | Skopt.X0_None => []
  | Skopt.X0_flat x => [x]
  | Skopt.X0_nested xs => xs
  end.

(** The observations of an optimizer: points of the space, one objective
    value each. *)
Definition observations_ok {rng} (space : list dimension)
    (o : @Skopt.Optimizer rng) : Prop :=
  Forall (λ x, Space.point_in space x = true) (Skopt.Xi o) ∧
  length (Skopt.Xi o) = length (Skopt.yi o).

(** * Properties *)

(** ** Running monadic code *)

Section Runs.

Context {S : Type}.

Lemma bind_run {A B} (c : M S A) (k : A → M S B) s :
  (c ≫= k) s =
  match c s with
  | (Ok a, s1) => k a s1
  | (Raise e, s1) => (Raise e, s1)
  end.
Proof. reflexivity. Qed.

Lemma bind_Ok {A B} (c : M S A) (k : A → M S B) s b s' :
  (c ≫= k) s = (Ok b, s') →
  ∃ a s1, c s = (Ok a, s1) ∧ k a s1 = (Ok b, s').
Proof.
  rewrite bind_run. destruct (c s) as [[a|e] s1]; [eauto | discriminate].
Qed.

Lemma bind_Ok_intro {A B} (c : M S A) (k : A → M S B) s a s1 :
  c s = (Ok a, s1) → (c ≫= k) s = k a s1.
Proof. intros H. by rewrite bind_run, H. Qed.

Lemma bind_Raise_intro {A B} (c : M S A) (k : A → M S B) s e s1 :
  c s = (Raise e, s1) → (c ≫= k) s = (Raise e, s1).
Proof. intros H. by rewrite bind_run, H. Qed.

Lemma ret_run {A} (a : A) (s : S) : (mret a : M S A) s = (Ok a, s).
Proof. reflexivity. Qed.

Lemma attr_Ok (fp : gmap string value) a v (s s' : S) :
  attr fp a s = (Ok v, s') → fp !! a = Some v ∧ s' = s.
Proof.
  unfold attr. destruct (fp !! a); [|discriminate].
  rewrite ret_run. by intros [= -> ->].
Qed.

Lemma lookup_table_Ok table key v (s s' : S) :
  lookup_table table key s = (Ok v, s') →
  Py.getitem table key = Some v ∧ s' = s.
Proof.
  unfold lookup_table. destruct (Py.getitem table key); [|discriminate].
  rewrite ret_run. by intros [= -> ->].
Qed.

Lemma iadd_str_Ok a suffix v (s s' : S) :
  iadd_str a suffix s = (Ok v, s') →
  ∃ t, a = VStr t ∧ v = VStr (t +:+ suffix) ∧ s' = s.
Proof.
  destruct a; try discriminate. cbn. intros [= <- <-]. eauto.
Qed.

Lemma endswith_value_Ok a suffix b (s s' : S) :
  endswith_value a suffix s = (Ok b, s') →
  ∃ t, a = VStr t ∧ b = Py.endswith t suffix ∧ s' = s.
Proof.
  destruct a; try discriminate. cbn. intros [= <- <-]. eauto.
Qed.

End Runs.

Lemma param_Ok k v s s' :
  param k s = (Ok v, s') → params s !! k = Some v ∧ s' = s.
Proof.
  unfold param. destruct (params s !! k); [|discriminate].
  by intros [= -> ->].
Qed.

Lemma param_run k v s : params s !! k = Some v → param k s = (Ok v, s).
Proof. unfold param. by intros ->. Qed.

Lemma set_param_run k v s :
  set_param k v s = (Ok (), Frame (<[k := v]> (params s)) (trace s)).
Proof. reflexivity. Qed.

Lemma emit_Ok c a s s' :
  emit c s = (Ok a, s') →
  () = a ∧ s' = Frame (params s) (trace s ++ [c]).
Proof. by intros [= <- <-]. Qed.

Lemma get_params_Ok kw s s' :
  get_params s = (Ok kw, s') → kw = params s ∧ s' = s.
Proof. by intros [= <- <-]. Qed.

Lemma get_trace_Ok t s s' :
  get_trace s = (Ok t, s') → t = trace s ∧ s' = s.
Proof. by intros [= <- <-]. Qed.

Lemma ceil_div_Ok {S} n d a (s s' : S) :
  ceil_div n d s = (Ok a, s') → s' = s.
Proof.
  unfold ceil_div, lift. destruct d as [t|f|z|b]; try discriminate.
  - unfold mbind, M_bind. destruct (Py.float_of_int _); [|discriminate].
    destruct (Py.eq_int _ 0); [discriminate|].
    cbv zeta. destruct (PrimFloat.is_nan _); [discriminate|].
    destruct (PrimFloat.is_infinity _); [discriminate|].
    by intros [= <- <-].
  - by intros [= _ <-].
  - by intros [= _ <-].
Qed.

Lemma ceil_div_state {S} n d (s : S) : (ceil_div n d s).2 = s.
Proof.
  unfold ceil_div, lift. destruct d as [t|f|z|b]; try done.
  unfold mbind, M_bind. destruct (Py.float_of_int _); [|done].
  destruct (Py.eq_int _ 0); [done|].
  cbv zeta. destruct (PrimFloat.is_nan _); [done|].
  by destruct (PrimFloat.is_infinity _).
Qed.

Lemma read_attrs_Ok fp names a s s' :
  read_attrs fp names s = (Ok a, s') → s' = s.
Proof.
  revert s. induction names as [|n names IH]; intros s; cbn [read_attrs].
  - by intros [= <- <-].
  - intros H. apply bind_Ok in H as (v & s1 & H1 & H).
    apply attr_Ok in H1 as [_ ->]. by apply IH.
Qed.

(** Decompose a run that returned into the runs of its steps. *)
Ltac inv_run H :=
  repeat match type of H with
  | (_ ≫= _) _ = (Ok _, _) =>
      let a := fresh "a" in let s1 := fresh "s" in
      let H1 := fresh "Hstep" in
      apply bind_Ok in H as (a & s1 & H1 & H);
      first [ apply param_Ok in H1 as [H1 ->]
            | apply attr_Ok in H1 as [H1 ->]
            | apply lookup_table_Ok in H1 as [H1 ->]
            | rewrite set_param_run in H1; injection H1 as <- <-
            | apply iadd_str_Ok in H1 as (? & -> & -> & ->)
            | apply endswith_value_Ok in H1 as (? & -> & -> & ->)
            | apply emit_Ok in H1 as [<- ->]
            | apply get_params_Ok in H1 as [-> ->]
            | apply get_trace_Ok in H1 as [-> ->]
            | apply ceil_div_Ok in H1 as ->
            | apply read_attrs_Ok in H1 as ->
            | match type of H1 with
              | (if ?b then _ else _) _ = _ => destruct b eqn:?
              end;
              first [ rewrite set_param_run in H1; injection H1 as <- <-
                    | rewrite ret_run in H1; injection H1 as <- <-
                    | idtac ]
            | idtac ]
  end.

(** ** Derived parameters *)

(** What a successful expansion read and what it wrote. *)
Lemma expand_derived_Ok fixed_params s s' :
  expand_derived fixed_params s = (Ok (), s') →
  ∃ e p d vo vh vu vw vd,
    params s !! "embed_dim" = Some e ∧
    params s !! "popularity_importance" = Some p ∧
    fixed_params !! "duplicates" = Some d ∧
    Py.getitem out_dim e = Some vo ∧
    Py.getitem hidden_dim e = Some vh ∧
    Py.getitem use_popularity p = Some vu ∧
    Py.getitem weight_popularity p = Some vw ∧
    Py.getitem days_popularity p = Some vd ∧
    let derived :=
      <["days_popularity" := vd]> (<["weight_popularity" := vw]>
      (<["use_popularity" := vu]> (<["hidden_dim" := vh]>
      (<["out_dim" := vo]> (params s))))) in
    trace s' = trace s ∧
    if Py.eq_str d "count_occurrence"
    then ∃ a, params s !! "aggregator_type" = Some (VStr a) ∧
              params s' = <["aggregator_type" := VStr (a +:+ "_edge")]> derived
    else params s' = derived.
Proof.
  intros H. unfold expand_derived in H. inv_run H. cbn [params trace] in *.
  repeat (rewrite lookup_insert_ne in * by done).
  simplify_eq.
  eexists _, _, _, _, _, _, _, _. repeat (split; [eassumption|]).
  cbn zeta. destruct (Py.eq_str _ _).
  - inv_run H. cbn [params trace] in *.
    repeat (rewrite lookup_insert_ne in * by done).
    rewrite set_param_run in H. injection H as <-. cbn. eauto.
  - rewrite ret_run in H. injection H as <-. done.
Qed.

(** *** Strings *)

Lemma append_String c (a b : string) :
  String c a +:+ b = String c (a +:+ b).
Proof. reflexivity. Qed.

Lemma length_append (a b : string) :
  String.length (a +:+ b) = (String.length a + String.length b)%nat.
Proof.
  induction a as [|c a IH]; [done|].
  rewrite append_String. cbn. by rewrite IH.
Qed.

Lemma substring_full (s : string) :
  String.substring 0 (String.length s) s = s.
Proof. induction s as [|c s IH]; cbn; [done | by rewrite IH]. Qed.

Lemma substring_append (a b : string) :
  String.substring (String.length a) (String.length b) (a +:+ b) = b.
Proof.
  induction a as [|c a IH]; [apply substring_full|].
  rewrite append_String. cbn. done.
Qed.

Lemma append_assoc (a b c : string) : (a +:+ b) +:+ c = a +:+ (b +:+ c).
Proof.
  induction a as [|x a IH]; [done|].
  rewrite !append_String. by rewrite IH.
Qed.

Lemma endswith_append (a suffix : string) :
  Py.endswith (a +:+ suffix) suffix = true.
Proof.
  unfold Py.endswith. rewrite length_append.
  destruct (decide _) as [_|Hn]; [|lia].
  replace (String.length a + String.length suffix - String.length suffix)%nat
    with (String.length a) by lia.
  rewrite substring_append. apply String.eqb_refl.
Qed.

Lemma endswith_edge_suffix (a : string) :
  Py.endswith (a +:+ "_edge") "edge" = true.
Proof.
  change "_edge" with ("_" +:+ "edge"). rewrite <- append_assoc.
  apply endswith_append.
Qed.

Lemma eq_str_true d s : Py.eq_str d s = true ↔ d = VStr s.
Proof.
  unfold Py.eq_str. destruct d; cbn; try (split; [discriminate | congruence]).
  rewrite String.eqb_eq. split; congruence.
Qed.

Lemma In_list_VStr v (l : list string) :
  Py.In_list v (VStr <$> l) = true → ∃ s, v = VStr s ∧ s ∈ l.
Proof.
  induction l as [|t l IH]; cbn; [discriminate|].
  intros [H|H]%orb_true_iff.
  - destruct v; cbn in H; try discriminate.
    apply String.eqb_eq in H as ->. exists t. split; [done | left].
  - destruct (IH H) as (s & -> & Hs). exists s. split; [done | by right].
Qed.

(** *** Steps that ignore the call log *)

Lemma log_free_ret {A} (a : A) : log_free (mret a).
Proof. done. Qed.

Lemma log_free_raise {A} e : log_free (raise e : M frame A).
Proof. done. Qed.

Lemma log_free_bind {A B} (c : M frame A) (k : A → M frame B) :
  log_free c → (∀ a, log_free (k a)) → log_free (c ≫= k).
Proof.
  intros Hc Hk p t. rewrite !bind_run, (Hc p t).
  destruct (c (Frame p [])) as [[a|e] [p' t']]; cbn; [|done].
  rewrite (Hk a p' t), (Hk a p' t'). done.
Qed.

Lemma log_free_param k : log_free (param k).
Proof. intros p t. unfold param; cbn. by destruct (p !! k). Qed.

Lemma log_free_set_param k v : log_free (set_param k v).
Proof. done. Qed.

Lemma log_free_attr fp a : log_free (attr fp a).
Proof. unfold attr. by destruct (fp !! a). Qed.

Lemma log_free_lookup_table table key : log_free (lookup_table table key).
Proof. unfold lookup_table. by destruct (Py.getitem table key). Qed.

Lemma log_free_iadd_str a suffix : log_free (iadd_str a suffix).
Proof. by destruct a. Qed.

Lemma log_free_endswith_value a suffix : log_free (endswith_value a suffix).
Proof. by destruct a. Qed.

Lemma log_free_assert b : log_free (assert b).
Proof. by destruct b. Qed.

Lemma log_free_if {A} (b : bool) (c1 c2 : M frame A) :
  log_free c1 → log_free c2 → log_free (if b then c1 else c2).
Proof. by destruct b. Qed.

Create HintDb log_free.
#[local] Hint Resolve log_free_ret log_free_raise log_free_bind
  log_free_param log_free_set_param log_free_attr log_free_lookup_table
  log_free_iadd_str log_free_endswith_value log_free_assert log_free_if
  : log_free.

Lemma log_free_expand_derived fp : log_free (expand_derived fp).
Proof. unfold expand_derived. auto 40 with log_free. Qed.

Lemma log_free_check_consistency fp : log_free (check_consistency fp).
Proof. unfold check_consistency. auto 20 with log_free. Qed.

(** *** Steps that cannot fail an assertion *)

Lemma no_assertion_ret {S A} (a : A) : no_assertion (mret a : M S A).
Proof. done. Qed.

Lemma no_assertion_bind {S A B} (c : M S A) (k : A → M S B) :
  no_assertion c → (∀ a, no_assertion (k a)) → no_assertion (c ≫= k).
Proof.
  intros Hc Hk s. rewrite bind_run. specialize (Hc s).
  destruct (c s) as [[a|e] s1]; [apply Hk|].
  cbn in *. intros [= ->]. by apply Hc.
Qed.

Lemma no_assertion_param k : no_assertion (param k).
Proof. intros s. unfold param. by destruct (params s !! k). Qed.

Lemma no_assertion_set_param k v : no_assertion (set_param k v).
Proof. done. Qed.

Lemma no_assertion_attr {S} fp a : no_assertion (attr fp a : M S value).
Proof. unfold attr. by destruct (fp !! a). Qed.

Lemma no_assertion_lookup_table {S} table key :
  no_assertion (lookup_table table key : M S value).
Proof. unfold lookup_table. by destruct (Py.getitem table key). Qed.

Lemma no_assertion_iadd_str {S} a suffix :
  no_assertion (iadd_str a suffix : M S value).
Proof. by destruct a. Qed.

Lemma no_assertion_if {S A} (b : bool) (c1 c2 : M S A) :
  no_assertion c1 → no_assertion c2 → no_assertion (if b then c1 else c2).
Proof. by destruct b. Qed.

Create HintDb no_assertion.
#[local] Hint Resolve no_assertion_ret no_assertion_bind no_assertion_param
  no_assertion_set_param no_assertion_attr no_assertion_lookup_table
  no_assertion_iadd_str no_assertion_if : no_assertion.

Lemma no_assertion_expand_derived fp : no_assertion (expand_derived fp).
Proof. unfold expand_derived. auto 40 with no_assertion. Qed.

(** ** The claims about derived parameters *)

(** C7: whenever the popularity bucket of the raw parameters is ['No'],
    the expansion step writes [use_popularity = False],
    [weight_popularity = 0] and [days_popularity = 0], whatever the other
    raw parameters and the fixed parameters are. *)
Theorem C7_disabled_popularity fixed_params s s' :
  params s !! "popularity_importance" = Some (VStr "No") →
  expand_derived fixed_params s = (Ok (), s') →
  params s' !! "use_popularity" = Some (VBool false) ∧
  params s' !! "weight_popularity" = Some (VInt 0) ∧
  params s' !! "days_popularity" = Some (VInt 0).
Proof.
  intros Hno H.
  apply expand_derived_Ok in H
    as (e & p & d & vo & vh & vu & vw & vd & _ & Hp & _ & _ & _
        & Hu & Hw & Hd & _ & H).
  rewrite Hno in Hp. injection Hp as <-.
  cbn in Hu, Hw, Hd. injection Hu as <-. injection Hw as <-. injection Hd as <-.
  destruct (Py.eq_str d "count_occurrence").
  - destruct H as (a & _ & ->).
    rewrite !(lookup_insert_ne _ "aggregator_type") by done.
    by simplify_map_eq.
  - rewrite H. by simplify_map_eq.
Qed.

Lemma C7_disabled_popularity_witness :
  let fp := Sample.FixedParameters (Sample.cli 1 "count_occurrence") in
  let s := Frame (arg_dict SearchableHyperparameters.dimensions
                           SearchableHyperparameters.default_parameters) [] in
  let s' := (expand_derived fp s).2 in
  params s' !! "use_popularity" = Some (VBool false) ∧
  params s' !! "weight_popularity" = Some (VInt 0) ∧
  params s' !! "days_popularity" = Some (VInt 0).
Proof.
  intros fp s s'. apply (C7_disabled_popularity fp s s').
  - vm_compute. reflexivity.
  - vm_compute. reflexivity.
Defined.

(** C8: the expansion step is a pure, deterministic function of the raw
    parameters and of the fixed parameters.  Run twice on the same
    dictionary and the same fixed parameters, at any two points of the
    process history, it has the same outcome and leaves the same
    dictionary (hence the same [out_dim], [hidden_dim], [use_popularity],
    [weight_popularity], [days_popularity] and [aggregator_type]), and it
    calls no collaborator. *)
Theorem C8_expansion_deterministic fixed_params p t1 t2 :
  let r1 := expand_derived fixed_params (Frame p t1) in
  let r2 := expand_derived fixed_params (Frame p t2) in
  r1.1 = r2.1 ∧ params r1.2 = params r2.2 ∧
  trace r1.2 = t1 ∧ trace r2.2 = t2.
Proof.
  cbn zeta.
  rewrite (log_free_expand_derived fixed_params p t1).
  rewrite (log_free_expand_derived fixed_params p t2).
  done.
Qed.

(** C2: when the raw [aggregator_type] belongs to the declared
    categorical dimension, the expansion followed by the consistency check
    never fails an assertion; and after a successful expansion, which calls
    no collaborator, the aggregator ends with ['edge'] exactly when
    [fixed_params.duplicates] is ['count_occurrence'], so that the check
    passes. *)
Theorem C2_consistency_holds fixed_params p t a dim :
  SearchableHyperparameters.getattribute
    SearchableHyperparameters.attributes "aggregator_type" = Some dim →
  p !! "aggregator_type" = Some a →
  Space.contains dim a = true →
  ((expand_derived fixed_params ≫= λ _, check_consistency fixed_params)
     (Frame p t)).1 ≠ Raise AssertionError ∧
  ∀ s', expand_derived fixed_params (Frame p t) = (Ok (), s') →
    trace s' = t ∧
    check_consistency fixed_params s' = (Ok (), s') ∧
    ∃ a', params s' !! "aggregator_type" = Some (VStr a') ∧
          (Py.endswith a' "edge" = true ↔
           fixed_params !! "duplicates" = Some (VStr "count_occurrence")).
Proof.
  intros [= <-] Ha Hin.
  assert (Hpost : ∀ s', expand_derived fixed_params (Frame p t) = (Ok (), s') →
    trace s' = t ∧
    check_consistency fixed_params s' = (Ok (), s') ∧
    ∃ a', params s' !! "aggregator_type" = Some (VStr a') ∧
          (Py.endswith a' "edge" = true ↔
           fixed_params !! "duplicates" = Some (VStr "count_occurrence"))).
  { intros s' H.
    apply expand_derived_Ok in H
      as (e & q & d & vo & vh & vu & vw & vd & _ & _ & Hd & _ & _
          & _ & _ & _ & Ht & H).
    cbn [params trace] in *. split; [done|].
    apply (In_list_VStr a ["mean"; "mean_nn"; "pool_nn"]) in Hin
      as (s0 & -> & Hs0).
    unfold check_consistency.
    rewrite (bind_Ok_intro _ _ _ d s'); [|unfold attr; by rewrite Hd].
    destruct (Py.eq_str d "count_occurrence") eqn:Hcount.
    - apply eq_str_true in Hcount as ->.
      destruct H as (a0 & Ha0 & Hp').
      assert (Hagg : params s' !! "aggregator_type"
                     = Some (VStr (a0 +:+ "_edge")))
        by (rewrite Hp'; apply lookup_insert_eq).
      split.
      + rewrite (bind_Ok_intro _ _ _ _ s' (param_run _ _ _ Hagg)).
        cbn. by rewrite endswith_edge_suffix.
      + eexists. split; [exact Hagg|].
        by rewrite endswith_edge_suffix.
    - assert (Hagg : params s' !! "aggregator_type" = Some (VStr s0)).
      { rewrite H. by rewrite !lookup_insert_ne by done. }
      assert (Hno : Py.endswith s0 "edge" = false).
      { set_unfold in Hs0. by destruct_or!; subst. }
      split.
      + rewrite (bind_Ok_intro _ _ _ _ s' (param_run _ _ _ Hagg)).
        cbn. by rewrite Hno.
      + eexists. split; [exact Hagg|]. rewrite Hno. split; [done|].
        intros Heq. rewrite Heq in Hd. injection Hd as <-.
        by rewrite (proj2 (eq_str_true _ _) eq_refl) in Hcount. }
  split; [|exact Hpost].
  rewrite bind_run.
  pose proof (no_assertion_expand_derived fixed_params (Frame p t)) as Hno.
  destruct (expand_derived fixed_params (Frame p t)) as [[[]|e] s'] eqn:Hrun.
  - destruct (Hpost s' eq_refl) as (_ & -> & _). done.
  - cbn in *. intros [= ->]. by apply Hno.
Qed.

Lemma C2_consistency_holds_witness :
  let fp := Sample.FixedParameters (Sample.cli 1 "count_occurrence") in
  let p := arg_dict SearchableHyperparameters.dimensions
                    SearchableHyperparameters.default_parameters in
  ((expand_derived fp ≫= λ _, check_consistency fp) (Frame p [])).1
    ≠ Raise AssertionError ∧
  ∀ s', expand_derived fp (Frame p []) = (Ok (), s') →
    trace s' = [] ∧
    check_consistency fp s' = (Ok (), s') ∧
    ∃ a', params s' !! "aggregator_type" = Some (VStr a') ∧
          (Py.endswith a' "edge" = true ↔
           fp !! "duplicates" = Some (VStr "count_occurrence")).
Proof.
  intros fp p.
  apply (C2_consistency_holds fp p [] (VStr "mean_nn")
           (Categorical [VStr "mean"; VStr "mean_nn"; VStr "pool_nn"]
                        "aggregator_type")).
  - reflexivity.
  - vm_compute. reflexivity.
  - reflexivity.
Defined.

(** ** The trial executor *)

Lemma check_consistency_Ok fp s s' :
  check_consistency fp s = (Ok (), s') → s' = s.
Proof.
  intros H. unfold check_consistency in H. inv_run H.
  destruct (Py.eq_str _ _); inv_run H;
    unfold assert in H; destruct (Py.endswith _ _); cbn in H;
    by first [discriminate H | injection H as <-].
Qed.

(** The calls made by the construction phase, in order. *)
Lemma build_Ok collab fp s s' :
  build collab fp s = (Ok (), s') →
  ∃ n_layers sampler cs ps el ns dim_o dim_h norm dropout agg pred ah,
    params s !! "n_layers" = Some n_layers ∧
    fp !! "neighbor_sampler" = Some sampler ∧
    trace s' = (trace s ++
      [ CreateGraph; AssignGraphFeatures (params s); TrainValidSplit cs ps;
        GenerateDataloaders el n_layers ns;
        ConvModel (if Py.eq_str sampler "partial" then VInt 3 else n_layers)
                  dim_o dim_h norm dropout agg pred ah el ])%list.
Proof.
  intros H. unfold build in H. inv_run H; cbn [params trace] in *.
  all: apply emit_Ok in H as [_ ->]; cbn [trace].
  all: simplify_map_eq.
  all: eexists _, _, _, _, _, _, _, _, _, _, _, _, _.
  all: split; [reflexivity|]; split; [reflexivity|].
  all: rewrite <- !app_assoc; cbn [app].
  all: match goal with H : Py.eq_str _ _ = _ |- _ => rewrite H end.
  all: reflexivity.
Qed.

(** *** Steps that only extend the call log *)

Lemma appends_ret {A} (a : A) : appends (mret a).
Proof. intros s. exists []. by rewrite app_nil_r. Qed.

Lemma appends_raise {A} e : appends (raise e : M frame A).
Proof. intros s. exists []. by rewrite app_nil_r. Qed.

Lemma appends_lift {A} (r : result A) : appends (lift r).
Proof. intros s. exists []. by rewrite app_nil_r. Qed.

Lemma appends_bind {A B} (c : M frame A) (k : A → M frame B) :
  appends c → (∀ a, appends (k a)) → appends (c ≫= k).
Proof.
  intros Hc Hk s. rewrite bind_run. destruct (Hc s) as [l Hl].
  destruct (c s) as [[a|e] s1]; cbn in *.
  - destruct (Hk a s1) as [l' Hl']. exists (l ++ l')%list.
    by rewrite Hl', Hl, app_assoc.
  - by exists l.
Qed.

Lemma appends_log_free {A} (c : M frame A) : log_free c → appends c.
Proof.
  intros Hc [p t]. exists []. rewrite (Hc p t). by rewrite app_nil_r.
Qed.

Lemma appends_emit c : appends (emit c).
Proof. intros s. by exists [c]. Qed.

Lemma appends_get_trace : appends get_trace.
Proof. intros s. exists []. by rewrite app_nil_r. Qed.

Lemma appends_get_params : appends get_params.
Proof. intros s. exists []. by rewrite app_nil_r. Qed.

Lemma appends_update_params d : appends (update_params d).
Proof. intros s. exists []. by rewrite app_nil_r. Qed.

Lemma appends_del_param k : appends (del_param k).
Proof.
  intros s. exists []. unfold del_param.
  destruct (params s !! k); by rewrite app_nil_r.
Qed.

Lemma appends_if {A} (b : bool) (c1 c2 : M frame A) :
  appends c1 → appends c2 → appends (if b then c1 else c2).
Proof. by destruct b. Qed.

Lemma appends_read_attrs fp names : appends (read_attrs fp names).
Proof.
  induction names as [|n names IH]; cbn [read_attrs].
  - apply appends_ret.
  - apply appends_bind; [|done].
    apply appends_log_free, log_free_attr.
Qed.

Create HintDb appends.
#[local] Hint Resolve appends_ret appends_raise appends_lift appends_bind
  appends_emit appends_get_trace appends_get_params appends_update_params
  appends_del_param appends_if appends_read_attrs : appends.
#[local] Hint Extern 1 (appends (param _)) =>
  apply appends_log_free, log_free_param : appends.
#[local] Hint Extern 1 (appends (attr _ _)) =>
  apply appends_log_free, log_free_attr : appends.

Lemma appends_test_metrics collab fp gt : appends (test_metrics collab fp gt).
Proof. unfold test_metrics. auto 30 with appends. Qed.

Lemma appends_fit_and_test collab cuda fp vis :
  appends (fit_and_test collab cuda fp vis).
Proof.
  pose proof (appends_test_metrics collab fp).
  unfold fit_and_test. auto 80 with appends.
Qed.

Lemma appends_explore collab fp recall : appends (explore collab fp recall).
Proof. unfold explore. auto 80 with appends. Qed.

Lemma appends_recap fp epochs inference : appends (recap fp epochs inference).
Proof.
  unfold recap. destruct inference, (decide (epochs = 0%nat));
    auto 30 with appends.
Qed.

(** C3, counterexample: in counting mode the raw choice ['pool_nn'] has
    no edge suffix, yet the trial is not aborted: the executor rewrites the
    value to ['pool_nn_edge'] and the trial returns a recall. *)
Lemma C3_counterexample :
  ¬ (∀ fixed_params visualization check_embedding p t,
       incompatible fixed_params p →
       aborts_uncoerced Sample.collab false fixed_params
         visualization check_embedding p t).
Proof.
  intros Hclaim.
  destruct (Hclaim (Sample.FixedParameters (Sample.cli 1 "count_occurrence"))
              (VInt 0) (VInt 0)
              (arg_dict SearchableHyperparameters.dimensions
                        (Sample.proposal 0)) [])
    as ([e He] & _).
  - exists (VStr "count_occurrence"), "pool_nn".
    split; [by vm_compute|]. split; [by vm_compute|]. by vm_compute.
  - vm_compute in He. discriminate He.
Qed.

(** C3, amended: when the derived-parameter lookups succeed, a string
    aggregation value [a] is handled as follows.  In counting mode the
    executor appends ['_edge'] to it and the consistency check passes.  In
    every other mode the value is left as given, and if it ends with
    ['edge'] the trial stops on the assertion before any collaborator is
    called. *)
Theorem C3_appends_or_asserts
    collab cuda fixed_params visualization check_embedding p t s1 d a :
  fixed_params !! "duplicates" = Some d →
  p !! "aggregator_type" = Some (VStr a) →
  expand_derived fixed_params (Frame p t) = (Ok (), s1) →
  trace s1 = t ∧
  if Py.eq_str d "count_occurrence" then
    params s1 !! "aggregator_type" = Some (VStr (a +:+ "_edge")) ∧
    check_consistency fixed_params s1 = (Ok (), s1)
  else
    params s1 !! "aggregator_type" = Some (VStr a) ∧
    (Py.endswith a "edge" = true →
     train_body collab cuda fixed_params visualization check_embedding
       (Frame p t) = (Raise AssertionError, s1)).
Proof.
  intros Hd Ha Hexpand.
  pose proof Hexpand as Hrun.
  apply expand_derived_Ok in Hexpand
    as (e & q & d' & vo & vh & vu & vw & vd & _ & _ & Hd' & _ & _
        & _ & _ & _ & Ht & Hp).
  cbn [params trace] in *. rewrite Hd in Hd'. injection Hd' as <-.
  split; [done|].
  destruct (Py.eq_str d "count_occurrence") eqn:Hcount.
  - destruct Hp as (a0 & Ha0 & Hp). rewrite Ha in Ha0. injection Ha0 as <-.
    assert (Hagg : params s1 !! "aggregator_type"
                   = Some (VStr (a +:+ "_edge")))
      by (rewrite Hp; apply lookup_insert_eq).
    split; [done|]. unfold check_consistency.
    rewrite (bind_Ok_intro _ _ _ d s1); [|unfold attr; by rewrite Hd].
    rewrite Hcount.
    rewrite (bind_Ok_intro _ _ _ _ s1 (param_run _ _ _ Hagg)).
    cbn. by rewrite endswith_edge_suffix.
  - assert (Hagg : params s1 !! "aggregator_type" = Some (VStr a)).
    { rewrite Hp. by rewrite !lookup_insert_ne by done. }
    split; [done|]. intros Hedge. unfold train_body.
    rewrite (bind_Ok_intro _ _ _ _ _ Hrun).
    apply bind_Raise_intro. unfold check_consistency.
    rewrite (bind_Ok_intro _ _ _ d s1); [|unfold attr; by rewrite Hd].
    rewrite Hcount.
    rewrite (bind_Ok_intro _ _ _ _ s1 (param_run _ _ _ Hagg)).
    cbn. by rewrite Hedge.
Qed.

Lemma C3_appends_or_asserts_witness :
  let fp := Sample.FixedParameters (Sample.cli 1 "keep_all") in
  let p := arg_dict SearchableHyperparameters.dimensions Sample.edge_point in
  let s1 := (expand_derived fp (Frame p [])).2 in
  trace s1 = [] ∧
  params s1 !! "aggregator_type" = Some (VStr "mean_edge") ∧
  (Py.endswith "mean_edge" "edge" = true →
   train_body Sample.collab false fp (VInt 0) (VInt 0) (Frame p [])
   = (Raise AssertionError, s1)).
Proof.
  intros fp p s1.
  apply (C3_appends_or_asserts Sample.collab false fp (VInt 0) (VInt 0)
           p [] s1 (VStr "keep_all") "mean_edge").
  - vm_compute. reflexivity.
  - vm_compute. reflexivity.
  - vm_compute. reflexivity.
Defined.

(** ** The objective *)

Lemma fitness_length collab cuda x w :
  length x ≠ length SearchableHyperparameters.dimensions →
  fitness collab cuda x w = (Raise ValueError, w).
Proof.
  intros Hlen. unfold fitness, use_named_args.
  by destruct (decide _).
Qed.

(** An exception of the trial goes through the wrapper unchanged: no
    objective is produced. *)
Lemma fitness_raises collab cuda x w c e log' :
  fitness_params w = Some c →
  length x = length SearchableHyperparameters.dimensions →
  train collab cuda (ctx_fixed_params c) (ctx_visualization c)
    (ctx_check_embedding c)
    (arg_dict SearchableHyperparameters.dimensions x) (log w)
  = (Raise e, log') →
  fitness collab cuda x w = (Raise e, Process (Some c) log').
Proof.
  intros Hc Hlen Htrain. unfold fitness, use_named_args.
  destruct (decide _); [|done]. unfold fitness_named.
  by rewrite Hc, Htrain.
Qed.

(** C1: for every raw vector with one component per dimension, when the
    trial run on the named parameters returns the recall [recall], the
    objective the wrapper returns to the optimizer is [-recall]. *)
Theorem C1_fitness_negates_recall collab cuda x w c recall log' :
  fitness_params w = Some c →
  length x = length SearchableHyperparameters.dimensions →
  train collab cuda (ctx_fixed_params c) (ctx_visualization c)
    (ctx_check_embedding c)
    (arg_dict SearchableHyperparameters.dimensions x) (log w)
  = (Ok recall, log') →
  fitness collab cuda x w
  = (Ok (PrimFloat.opp recall), Process (Some c) log').
Proof.
  intros Hc Hlen Htrain. unfold fitness, use_named_args.
  destruct (decide _); [|done]. unfold fitness_named.
  by rewrite Hc, Htrain.
Qed.

(** With collaborators that report a recall of [0.20], the objective of
    the default vector is [-0.20]. *)
Lemma C1_fitness_negates_recall_witness :
  let c := Context_ (Sample.FixedParameters (Sample.cli 1 "keep_all"))
                    (VInt 0) (VInt 0) in
  let w := Process (Some c) [] in
  let x := SearchableHyperparameters.default_parameters in
  (fitness Sample.collab false x w).1 = Ok (-0.2)%float.
Proof.
  intros c w x.
  rewrite (C1_fitness_negates_recall Sample.collab false x w c 0.2%float
             (train Sample.collab false (ctx_fixed_params c)
                (ctx_visualization c) (ctx_check_embedding c)
                (arg_dict SearchableHyperparameters.dimensions x) (log w)).2).
  - reflexivity.
  - reflexivity.
  - reflexivity.
  - vm_compute. reflexivity.
Defined.

(** ** The search space and the default vector *)

Lemma point_in_Forall2 dims (x : point) :
  Space.point_in dims x = true ↔
  Forall2 (λ d v, Space.contains d v = true) dims x.
Proof.
  revert x. induction dims as [|d dims IH]; intros [|v x]; cbn.
  - split; [constructor | done].
  - split; [done | inversion 1].
  - split; [done | inversion 1].
  - rewrite andb_true_iff, IH. split.
    + intros [??]. by constructor.
    + inversion 1; subst. done.
Qed.

Lemma point_in_length dims (x : point) :
  Space.point_in dims x = true → length x = length dims.
Proof.
  intros H%point_in_Forall2. symmetry. by eapply Forall2_length.
Qed.

(** The test of the library answers [True] on a point of the right length
    exactly for the points of the space. *)
Lemma dimension_contains_true d v :
  Space.dimension_contains d v = Ok true ↔ Space.contains d v = true.
Proof. destruct d, v; cbn; split; congruence. Qed.

Lemma space_contains_point_in dims (x : point) :
  Space.point_in dims x = true ↔
  Space.space_contains dims x = Ok true ∧ length x = length dims.
Proof.
  revert x. induction dims as [|d dims IH]; intros [|v x];
    cbn [Space.point_in Space.space_contains length].
  - done.
  - split; [done | by intros [_ ?]].
  - split; [done | by intros [_ ?]].
  - rewrite andb_true_iff, IH, <- dimension_contains_true.
    destruct (Space.dimension_contains d v) as [[|]|e].
    + split; [by intros (_ & ? & ->) | by intros [? [= ->]]].
    + split; [by intros [[=] _] | by intros [[=] _]].
    + split; [by intros [[=] _] | by intros [[=] _]].
Qed.

(** C9: the default vector is a point of the declared space.  The
    assembled dimensions are the declared ones in the alphabetical order of
    their attribute names; the default vector has one entry per dimension,
    and each entry belongs to the dimension at its position: for instance
    ['sum'] for [aggregator_hetero], [0.266] within [[0.15, 0.35]] for
    [delta] and [2500] within [[700, 3000]] for [neg_sample_size]. *)
Theorem C9_default_vector_in_space :
  let dims := SearchableHyperparameters.dimensions in
  let x := SearchableHyperparameters.default_parameters in
  Space.name <$> dims
    = SearchableHyperparameters.sorted
        (fst <$> SearchableHyperparameters.attributes) ∧
  Space.name <$> dims
    = [ "aggregator_hetero"; "aggregator_type"; "clicks_sample"; "delta";
        "dropout"; "embed_dim"; "embedding_layer"; "lr"; "n_layers";
        "neg_sample_size"; "norm"; "popularity_importance";
        "purchases_sample"; "use_recency" ] ∧
  length x = length dims ∧
  Forall2 (λ d v, Space.contains d v = true) dims x ∧
  (dims !! 0%nat, x !! 0%nat)
    = (Some (Categorical [VStr "mean"; VStr "sum"; VStr "max"]
                         "aggregator_hetero"), Some (VStr "sum")) ∧
  (dims !! 3%nat, x !! 3%nat)
    = (Some (Real 0.15 0.35 LogUniform "delta"), Some (VFloat 0.266)) ∧
  (dims !! 9%nat, x !! 9%nat)
    = (Some (Integer 700 3000 "neg_sample_size"), Some (VInt 2500)).
Proof.
  cbn zeta. split; [by vm_compute|]. split; [by vm_compute|].
  split; [by vm_compute|]. split; [|by vm_compute].
  apply point_in_Forall2. by vm_compute.
Qed.

Lemma default_parameters_in_space :
  Space.point_in SearchableHyperparameters.dimensions
    SearchableHyperparameters.default_parameters = true.
Proof. by vm_compute. Qed.

(** ** The driver *)

(** Boolean comparisons on [Z] decided by linear arithmetic. *)
Ltac zbool :=
  symmetry;
  first [apply Z.ltb_ge | apply Z.ltb_lt | apply Z.leb_le | apply Z.leb_gt];
  cbn [length]; lia.

Section MinimizeFacts.

Import Skopt.

Context {W rng : Type}.
Context (rvs : rng → point * rng).
Context (acquire : list point → list float → rng → point * rng).
Context (space : list dimension).
Context (func : point → M W float).

Abbreviation Optimizer := (@Skopt.Optimizer rng).
Abbreviation optimize := (Skopt.optimize rvs acquire space func).
Abbreviation tell := (Skopt.tell acquire space).
Abbreviation tell_many := (Skopt.tell_many acquire space).
Abbreviation ask := (Skopt.ask rvs).
Abbreviation fit := (Skopt.fit acquire).

(** [tell] accepts the points of the space and raises on the others. *)
Lemma check_x_in_space_spec x :
  if Space.point_in space x
  then Skopt.check_x_in_space space x = Ok ()
  else ∃ e, Skopt.check_x_in_space space x = Raise e.
Proof.
  pose proof (space_contains_point_in space x) as H.
  unfold Skopt.check_x_in_space.
  destruct (Space.point_in space x).
  - destruct H as [[Hin Hlen] _]; [done|].
    by rewrite Hin, bool_decide_eq_true_2.
  - destruct (Space.space_contains space x) as [[|]|e]; [|eauto..].
    case_bool_decide as Hlen; [|eauto].
    discriminate (proj2 H (conj eq_refl Hlen)).
Qed.

Lemma points_in_space_spec xs bs :
  Skopt.points_in_space space xs = Ok bs →
  Forall2 (λ p b, Space.space_contains space p = Ok b) xs bs.
Proof.
  revert bs. induction xs as [|p xs IH]; intros bs; cbn.
  - intros [= <-]. constructor.
  - destruct (Space.space_contains space p) as [b|] eqn:Hp; [|done].
    destruct (Skopt.points_in_space space xs) as [bs'|]; [|done].
    intros [= <-]. constructor; [done | by apply IH].
Qed.

Lemma check_xs_in_space_spec xs :
  if forallb (Space.point_in space) xs
  then Skopt.check_xs_in_space space xs = Ok ()
  else ∃ e, Skopt.check_xs_in_space space xs = Raise e.
Proof.
  unfold Skopt.check_xs_in_space.
  destruct (Skopt.points_in_space space xs) as [bs|e] eqn:Hbs.
  2: { destruct (forallb _ xs) eqn:Hin; [|by eauto]. exfalso.
       revert Hbs. induction xs as [|p xs IH]; cbn; [done|].
       cbn in Hin. apply andb_true_iff in Hin as [Hp Hin].
       apply space_contains_point_in in Hp as [-> _].
       destruct (Skopt.points_in_space space xs); [done | by auto]. }
  apply points_in_space_spec in Hbs.
  destruct (forallb (Space.point_in space) xs) eqn:Hin.
  - assert (forallb id bs = true ∧
            forallb (λ p, bool_decide (length p = length space)) xs = true)
      as [-> ->]; [|done].
    induction Hbs as [|p b xs bs Hp _ IH]; [done|].
    cbn in Hin. apply andb_true_iff in Hin as [Hp' Hin].
    apply space_contains_point_in in Hp' as [Hp' Hlen].
    rewrite Hp in Hp'. injection Hp' as ->.
    destruct (IH Hin) as [IH1 IH2]. cbn. rewrite IH1, IH2.
    by rewrite bool_decide_eq_true_2.
  - destruct (forallb id bs) eqn:Hall; [|by eauto].
    destruct (forallb (λ p, bool_decide _) xs) eqn:Hlen; [|by eauto].
    exfalso. induction Hbs as [|p b xs bs Hp _ IH]; [done|].
    cbn in Hin, Hall, Hlen.
    apply andb_true_iff in Hall as [Hb Hall].
    apply andb_true_iff in Hlen as [Hl Hlen].
    apply andb_false_iff in Hin as [Hin|Hin]; [|by auto].
    destruct b; [|done]. apply bool_decide_eq_true_1 in Hl.
    by rewrite (proj2 (space_contains_point_in space p)) in Hin.
Qed.

Lemma tell_spec (o : Optimizer) x y :
  if Space.point_in space x
  then tell o x y
       = Ok (fit {| Xi := Xi o ++ [x]; yi := yi o ++ [y];
                    _n_initial_points := _n_initial_points o - 1;
                    _next_x := _next_x o; rng_ := rng_ o |})
  else ∃ e, tell o x y = Raise e.
Proof.
  pose proof (check_x_in_space_spec x) as H. unfold Skopt.tell.
  destruct (Space.point_in space x); [by rewrite H|].
  destruct H as [e ->]. eauto.
Qed.

Lemma tell_many_spec (o : Optimizer) xs ys :
  if forallb (Space.point_in space) xs
  then tell_many o xs ys
       = Ok (fit {| Xi := Xi o ++ xs; yi := yi o ++ ys;
                    _n_initial_points := _n_initial_points o
                                         - Z.of_nat (length ys);
                    _next_x := _next_x o; rng_ := rng_ o |})
  else ∃ e, tell_many o xs ys = Raise e.
Proof.
  pose proof (check_xs_in_space_spec xs) as H. unfold Skopt.tell_many.
  destruct (forallb (Space.point_in space) xs); [by rewrite H|].
  destruct H as [e ->]. eauto.
Qed.

(** State what the next [tell] of the goal does, as [Htell]. *)
Ltac use_tell :=
  match goal with
  | |- context [Skopt.tell _ _ ?o ?x ?y] =>
      pose proof (tell_spec o x y) as Htell
  | |- context [Skopt.tell_many _ _ ?o ?xs ?ys] =>
      pose proof (tell_many_spec o xs ys) as Htell
  end.

Lemma fit_n_initial_points (o : Optimizer) :
  _n_initial_points (fit o) = _n_initial_points o.
Proof. unfold Skopt.fit. by destruct (_ <=? _). Qed.

Lemma fit_Xi (o : Optimizer) : Xi (fit o) = Xi o.
Proof. unfold Skopt.fit. by destruct (_ <=? _). Qed.

Lemma fit_yi (o : Optimizer) : yi (fit o) = yi o.
Proof. unfold Skopt.fit. by destruct (_ <=? _). Qed.

Lemma fit_next_x (o : Optimizer) :
  _n_initial_points o ≤ 0 →
  _next_x (fit o) = Some (acquire (Xi o) (yi o) (rng_ o)).1.
Proof.
  intros H. unfold Skopt.fit.
  destruct (_ <=? _) eqn:E; [done | lia].
Qed.

(** Once no initial point remains, every point the loop evaluates comes
    from the acquisition function, whether or not the loop completes. *)
Lemma optimize_acquired n : ∀ (o : Optimizer) s,
  _n_initial_points o ≤ 0 →
  ∃ new, evaluated (optimize n o s).2 = (evaluated s ++ new)%list ∧
         Forall (λ e, e.1 = Acquired) new.
Proof.
  induction n as [|n IH]; intros o s Hn; cbn [Skopt.optimize].
  { exists []. by rewrite app_nil_r. }
  rewrite bind_run. unfold lift at 1, Skopt.ask.
  destruct (0 <? _n_initial_points o) eqn:E; [lia|].
  destruct (_next_x o) as [x|]; [|exists []; by rewrite app_nil_r].
  cbn [fst snd]. rewrite bind_run. unfold evaluate at 1.
  destruct (func x (world s)) as [[y|e] w'] eqn:Hf; cbn [fst snd].
  2: { exists [(Acquired, x)]. split; [done | by repeat constructor]. }
  rewrite bind_run. unfold lift at 1. use_tell.
  destruct (Space.point_in space x);
    [rewrite Htell | destruct Htell as [e' ->]].
  2: { exists [(Acquired, x)]. split; [done | by repeat constructor]. }
  edestruct IH as (new & Hnew & Hall);
    [|rewrite Hnew; exists ((Acquired, x) :: new); cbn [evaluated];
      split; [by rewrite <- app_assoc | by constructor]].
  rewrite fit_n_initial_points. cbn. lia.
Qed.

(** The loop only adds to the record of evaluations. *)
Lemma optimize_extends n : ∀ (o : Optimizer) s,
  ∃ new, evaluated (optimize n o s).2 = (evaluated s ++ new)%list.
Proof.
  induction n as [|n IH]; intros o s; cbn [Skopt.optimize].
  { exists []. by rewrite app_nil_r. }
  rewrite bind_run. unfold lift at 1.
  destruct (ask o) as [[[src x] o1]|e]; [|exists []; by rewrite app_nil_r].
  cbn [fst snd]. rewrite bind_run. unfold evaluate at 1.
  destruct (func x (world s)) as [[y|e] w'] eqn:Hf; cbn [fst snd].
  2: { by exists [(src, x)]. }
  rewrite bind_run. unfold lift at 1.
  destruct (tell o1 x y) as [o2|e]; [|by exists [(src, x)]].
  destruct (IH o2 (Run w' (evaluated s ++ [(src, x)]))) as [new Hnew].
  rewrite Hnew. exists ((src, x) :: new). cbn. by rewrite <- app_assoc.
Qed.

(** When every proposed point is in the space and its evaluation returns,
    the loop completes and follows the schedule. *)
Section Total.

Context (Inv : W → Prop) (good : point → Prop).
Context (Hgood : ∀ x, good x →
  Space.point_in space x = true ∧
  ∀ w, Inv w → ∃ y w', func x w = (Ok y, w') ∧ Inv w').
(** [sampling] tells whether the sampler may be called at all. *)
Context (sampling : Prop).
Context (Hrvs : sampling → ∀ g, good (rvs g).1).
Context (Hacq : ∀ X Y g, good (acquire X Y g).1).

Lemma ready_fit (o : Optimizer) :
  (0 < _n_initial_points o → sampling) → ready good sampling (fit o).
Proof.
  intros Hs. split; rewrite fit_n_initial_points; [done|].
  intros H. rewrite fit_next_x by done. eauto.
Qed.

Lemma optimize_total n : ∀ (o : Optimizer) s,
  Inv (world s) → ready good sampling o →
  ∃ o' s',
    optimize n o s = (Ok o', s') ∧ Inv (world s') ∧
    (evaluated s').*1
      = ((evaluated s).*1 ++ schedule n (_n_initial_points o))%list ∧
    (∃ X, Xi o' = (Xi o ++ X)%list ∧ length X = n) ∧
    (∃ Y, yi o' = (yi o ++ Y)%list ∧ length Y = n).
Proof.
  induction n as [|n IH]; intros o s HI Hready; cbn [Skopt.optimize].
  { exists o, s. split; [done|]. split; [done|].
    unfold schedule. cbn. rewrite !app_nil_r.
    split; [done|]. split; exists []; by rewrite app_nil_r. }
  assert (Hask : ∃ src x o1, ask o = Ok (src, x, o1) ∧ good x ∧
            Xi o1 = Xi o ∧ yi o1 = yi o ∧
            _n_initial_points o1 = _n_initial_points o ∧
            [src] = schedule 1 (_n_initial_points o)).
  { unfold Skopt.ask, schedule. destruct (0 <? _n_initial_points o) eqn:E.
    - eexists _, _, _. split; [done|].
      split; [apply Hrvs, Hready; lia|].
      cbn [fst snd Xi yi _n_initial_points].
      replace (1 `min` Z.to_nat (_n_initial_points o))%nat
        with 1%nat by lia. done.
    - destruct Hready as [_ (x & -> & Hx)]; [lia|].
      eexists _, _, _. split; [done|]. split; [done|].
      replace (1 `min` Z.to_nat (_n_initial_points o))%nat
        with 0%nat by lia. done. }
  destruct Hask as (src & x & o1 & -> & Hx & HXi & Hyi & Hn1 & Hsrc).
  destruct (Hgood x Hx) as [Hin Hret].
  destruct (Hret (world s) HI) as (y & w' & Hf & HI').
  rewrite bind_run. unfold lift at 1. cbn [fst snd].
  rewrite bind_run. unfold evaluate at 1. rewrite Hf. cbn [fst snd].
  rewrite bind_run. unfold lift at 1. use_tell.
  rewrite Hin in Htell. rewrite Htell.
  set (o2 := fit _).
  destruct (IH o2 (Run w' (evaluated s ++ [(src, x)]))) as
    (o' & s' & -> & HI'' & Hev & (X & HX & HlX) & (Y & HY & HlY));
    [done | apply ready_fit; cbn; intros; apply Hready; lia |].
  exists o', s'. split; [done|]. split; [done|].
  unfold o2 in *. rewrite fit_n_initial_points in Hev.
  rewrite fit_Xi in HX. rewrite fit_yi in HY. cbn in Hev, HX, HY.
  split; [|split].
  - rewrite Hev, fmap_app, <- app_assoc. f_equal. cbn [fmap list_fmap fst].
    change ([src] ++ schedule n (_n_initial_points o1 - 1)
            = schedule (S n) (_n_initial_points o))%list.
    rewrite Hsrc, Hn1. unfold schedule.
    destruct (decide (0 < _n_initial_points o)).
    + replace (1 `min` Z.to_nat (_n_initial_points o))%nat with 1%nat by lia.
      replace (S n `min` Z.to_nat (_n_initial_points o))%nat
        with (S (n `min` Z.to_nat (_n_initial_points o - 1)))%nat by lia.
      cbn. done.
    + replace (1 `min` Z.to_nat (_n_initial_points o))%nat with 0%nat by lia.
      replace (S n `min` Z.to_nat (_n_initial_points o))%nat
        with 0%nat by lia.
      replace (n `min` Z.to_nat (_n_initial_points o - 1))%nat
        with 0%nat by lia.
      cbn. by rewrite Nat.sub_0_r.
  - exists (x :: X). rewrite HX, HXi, <- app_assoc. split; [done | cbn; lia].
  - exists (y :: Y). rewrite HY, Hyi, <- app_assoc. split; [done | cbn; lia].
Qed.

End Total.

Lemma bind_ret_state {S A B} (c : M S A) (f : A → B) (s : S) :
  ((c ≫= λ a, mret (f a)) s).2 = (c s).2.
Proof. rewrite bind_run. by destruct (c s) as [[a|e] s1]. Qed.

(** A resumed search with well-formed observations goes straight to the
    loop. *)
Lemma base_minimize_resume_eq n_calls (xs : list point) (ys : list float) g s :
  xs ≠ [] → length xs = length ys →
  forallb (Space.point_in space) xs = true → 0 ≤ n_calls →
  base_minimize rvs acquire space func n_calls (- Z.of_nat (length xs))
    (X0_nested xs) (Some ys) g s
  = (o ← optimize (Z.to_nat n_calls) (resumed acquire xs ys g);
     mret (Result (Xi o) (yi o))) s.
Proof.
  intros Hne Hlen Hin Hn. unfold base_minimize.
  destruct xs as [|x xs]; [done|]. destruct ys as [|y ys]; [done|].
  rewrite bind_run, ret_run.
  replace (- Z.of_nat (length (x :: xs)) <=? 0) with true by zbool.
  rewrite bool_decide_eq_false_2 by done. cbn [andb].
  rewrite bind_run, ret_run.
  replace (n_calls <? - Z.of_nat (length (x :: xs)) + 0)
    with false by zbool.
  rewrite bind_run, ret_run. rewrite bind_run. unfold lift at 1.
  unfold Optimizer_init.
  replace (- Z.of_nat (length (x :: xs)) + Z.of_nat (length (x :: xs)) <? 0)
    with false by zbool.
  assert (Hdims : forallb (λ p, bool_decide (length p = length space))
                    (x :: xs) = true).
  { apply forallb_forall. intros p Hp.
    apply bool_decide_eq_true_2, point_in_length.
    by eapply forallb_forall in Hin. }
  rewrite Hdims. rewrite bind_run, ret_run. rewrite bind_run, ret_run.
  cbn [fst snd]. destruct (decide _) as [_|]; [|done].
  rewrite bind_run. unfold lift at 1. use_tell.
  rewrite Hin in Htell. rewrite Htell.
  cbn [Xi yi _n_initial_points _next_x rng_ app]. reflexivity.
Qed.

(** Every point evaluated by a resumed search comes from the acquisition
    function. *)
Lemma base_minimize_resume_acquired n_calls (xs : list point)
    (ys : list float) g s :
  ∃ new,
    evaluated (base_minimize rvs acquire space func n_calls
                 (- Z.of_nat (length xs)) (X0_nested xs) (Some ys) g s).2
    = (evaluated s ++ new)%list ∧
    Forall (λ e, e.1 = Acquired) new.
Proof.
  assert (Hnil : ∃ new : list (origin * point),
            evaluated s = (evaluated s ++ new)%list ∧
            Forall (λ e, e.1 = Acquired) new)
    by (exists []; by rewrite app_nil_r).
  unfold base_minimize.
  destruct xs as [|x xs]; [done|].
  rewrite bind_run, ret_run.
  rewrite bool_decide_eq_false_2, andb_false_r by done.
  rewrite bind_run, ret_run.
  destruct (n_calls <? _); [done|]. rewrite bind_run, ret_run.
  rewrite bind_run. unfold lift at 1, Optimizer_init.
  destruct (_ <? 0) eqn:E; [done|].
  destruct (forallb _ _); [|done]. rewrite bind_run, ret_run.
  rewrite bind_run, ret_run. cbn [fst snd].
  destruct (decide _) as [Hlen|]; [|done].
  rewrite bind_run. unfold lift at 1. use_tell.
  destruct (forallb (Space.point_in space) _);
    [rewrite Htell | by destruct Htell as [e' ->]].
  rewrite bind_ret_state. apply optimize_acquired.
  rewrite fit_n_initial_points. cbn [_n_initial_points]. lia.
Qed.

(** A resumed search well-formed as above proposes, as its first point,
    the maximiser of the acquisition function on the surrogate fitted on
    exactly the loaded observations. *)
Lemma base_minimize_resume_first n_calls (xs : list point)
    (ys : list float) g s :
  xs ≠ [] → length xs = length ys →
  forallb (Space.point_in space) xs = true → 0 < n_calls →
  ∃ rest,
    evaluated (base_minimize rvs acquire space func n_calls
                 (- Z.of_nat (length xs)) (X0_nested xs) (Some ys) g s).2
    = (evaluated s ++ (Acquired, (acquire xs ys g).1) :: rest)%list.
Proof.
  intros Hne Hlen Hin Hn.
  rewrite base_minimize_resume_eq by (done || lia).
  rewrite bind_ret_state.
  destruct (Z.to_nat n_calls) as [|n] eqn:En; [lia|].
  cbn [Skopt.optimize]. rewrite bind_run. unfold lift at 1, Skopt.ask.
  unfold resumed. rewrite fit_n_initial_points. cbn [_n_initial_points].
  destruct (0 <? _) eqn:E; [lia|].
  rewrite fit_next_x by (cbn; lia). cbn [Xi yi rng_ fst snd].
  set (x1 := (acquire xs ys g).1).
  rewrite bind_run. unfold evaluate at 1.
  destruct (func x1 (world s)) as [[y|e] w'] eqn:Hf; cbn [fst snd].
  2: { by exists []. }
  rewrite bind_run. unfold lift at 1.
  destruct (Skopt.tell _ _ _ _ _) as [o2|e]; [|by exists []].
  destruct (optimize_extends n o2 (Run w' (evaluated s ++ [(Acquired, x1)])))
    as [new Hnew].
  rewrite Hnew. exists new. cbn. by rewrite <- app_assoc.
Qed.

(** A fresh search evaluates the given point before anything else. *)
Lemma base_minimize_fresh_first n_calls n_initial_points (x : point) g s :
  x ≠ [] → length x = length space →
  0 < n_initial_points → n_initial_points + 1 ≤ n_calls →
  ∃ rest,
    evaluated (base_minimize rvs acquire space func n_calls n_initial_points
                 (X0_flat x) None g s).2
    = (evaluated s ++ (Given, x) :: rest)%list.
Proof.
  intros Hne Hlen Hpos Hcalls. unfold base_minimize.
  destruct x as [|v x]; [done|]. set (x0 := v :: x) in *.
  rewrite bind_run, ret_run.
  replace (n_initial_points <=? 0) with false by zbool.
  cbn [andb]. rewrite bind_run, ret_run.
  replace (n_calls <? n_initial_points + Z.of_nat (length [x0]))
    with false by zbool.
  rewrite bind_run, ret_run. rewrite bind_run. unfold lift at 1.
  unfold Optimizer_init.
  replace (n_initial_points + Z.of_nat (length [x0]) <? 0)
    with false by zbool.
  cbn [forallb]. rewrite bool_decide_eq_true_2 by done. cbn [andb].
  rewrite bind_run, ret_run. rewrite bind_run.
  rewrite (bind_run (map_func func [x0])). cbn [map_func].
  rewrite bind_run. unfold evaluate at 1.
  destruct (func x0 (world s)) as [[y|e] w'] eqn:Hf; cbn [fst snd].
  2: { by exists []. }
  rewrite bind_run, !ret_run. cbn [fst snd length].
  destruct (decide _) as [_|]; [|done].
  rewrite bind_run. unfold lift at 1.
  destruct (Skopt.tell_many _ _ _ _ _) as [o1|e]; [|by exists []].
  rewrite bind_ret_state.
  destruct (optimize_extends (Z.to_nat (n_calls - Z.of_nat 1)) o1
              (Run w' (evaluated s ++ [(Given, x0)]))) as [new Hnew].
  rewrite Hnew. exists new. cbn. by rewrite <- app_assoc.
Qed.

Section TotalSearch.

Context (Inv : W → Prop) (good : point → Prop).
Context (Hgood : ∀ x, good x →
  Space.point_in space x = true ∧
  ∀ w, Inv w → ∃ y w', func x w = (Ok y, w') ∧ Inv w').
Context (Hacq : ∀ X Y g, good (acquire X Y g).1).

(** A resumed search whose proposals all return runs [n_calls] new
    evaluations, all acquired, after the loaded observations. *)
Lemma base_minimize_resume_total n_calls (xs : list point)
    (ys : list float) g s :
  xs ≠ [] → length xs = length ys →
  forallb (Space.point_in space) xs = true → 0 ≤ n_calls →
  Inv (world s) →
  ∃ res s',
    base_minimize rvs acquire space func n_calls (- Z.of_nat (length xs))
      (X0_nested xs) (Some ys) g s = (Ok res, s') ∧
    Inv (world s') ∧
    (evaluated s').*1
      = ((evaluated s).*1 ++ repeat Acquired (Z.to_nat n_calls))%list ∧
    (∃ X, x_iters res = (xs ++ X)%list ∧ length X = Z.to_nat n_calls) ∧
    (∃ Y, func_vals res = (ys ++ Y)%list ∧ length Y = Z.to_nat n_calls).
Proof.
  intros Hne Hlen Hin Hn HI.
  rewrite base_minimize_resume_eq by done.
  assert (Hready : ready good False (resumed acquire xs ys g))
    by (apply ready_fit; [done | cbn; lia]).
  destruct (optimize_total Inv good Hgood False (λ H, False_rect _ H) Hacq
              (Z.to_nat n_calls) (resumed acquire xs ys g) s HI Hready)
    as (o' & s' & Hrun & HI' & Hev & HX & HY).
  exists (Result (Xi o') (yi o')), s'.
  rewrite (bind_Ok_intro _ _ _ _ _ Hrun), ret_run.
  split; [done|]. split; [done|].
  unfold resumed in *. rewrite fit_n_initial_points in Hev.
  rewrite fit_Xi in HX. rewrite fit_yi in HY. cbn in Hev, HX, HY.
  split; [|done]. rewrite Hev. f_equal. unfold schedule.
  replace (Z.to_nat n_calls `min` _)%nat with 0%nat by lia.
  cbn. by rewrite Nat.sub_0_r.
Qed.

(** A fresh search whose proposals all return evaluates the given point,
    then random samples while initial points remain, then acquisitions:
    [n_calls] evaluations in all. *)
Lemma base_minimize_fresh_total n_calls n_initial_points (x : point) g s :
  (∀ g, good (rvs g).1) →
  x ≠ [] → good x →
  0 < n_initial_points → n_initial_points + 1 ≤ n_calls →
  Inv (world s) →
  ∃ res s',
    base_minimize rvs acquire space func n_calls n_initial_points
      (X0_flat x) None g s = (Ok res, s') ∧
    Inv (world s') ∧
    (evaluated s').*1
      = ((evaluated s).*1 ++
         Given :: schedule (Z.to_nat (n_calls - 1)) n_initial_points)%list ∧
    (∃ X, x_iters res = x :: X ∧ length X = Z.to_nat (n_calls - 1)) ∧
    (∃ y Y, (func x (world s)).1 = Ok y ∧
            func_vals res = y :: Y ∧ length Y = Z.to_nat (n_calls - 1)).
Proof.
  intros Hrvs Hne Hx Hpos Hcalls HI. unfold base_minimize.
  destruct (Hgood x Hx) as [Hin Hret].
  destruct (Hret (world s) HI) as (y & w' & Hf & HI').
  pose proof (point_in_length _ _ Hin) as Hlen.
  destruct x as [|v x]; [done|]. set (x0 := v :: x) in *.
  rewrite bind_run, ret_run.
  replace (n_initial_points <=? 0) with false by zbool.
  cbn [andb]. rewrite bind_run, ret_run.
  replace (n_calls <? n_initial_points + Z.of_nat (length [x0]))
    with false by zbool.
  rewrite bind_run, ret_run. rewrite bind_run. unfold lift at 1.
  unfold Optimizer_init.
  replace (n_initial_points + Z.of_nat (length [x0]) <? 0)
    with false by zbool.
  cbn [forallb]. rewrite bool_decide_eq_true_2 by done. cbn [andb].
  rewrite bind_run, ret_run. rewrite bind_run.
  rewrite (bind_run (map_func func [x0])). cbn [map_func].
  rewrite bind_run. unfold evaluate at 1. rewrite Hf. cbn [fst snd].
  rewrite bind_run, !ret_run. cbn [fst snd length].
  destruct (decide _) as [_|]; [|done].
  rewrite bind_run. unfold lift at 1. use_tell.
  cbn [forallb] in Htell. rewrite Hin in Htell. rewrite Htell.
  cbn [Xi yi _n_initial_points _next_x rng_ app length].
  set (o1 := Skopt.fit _ _).
  assert (Hready : ready good True o1) by (by apply ready_fit).
  destruct (optimize_total Inv good Hgood True (λ _, Hrvs) Hacq
              (Z.to_nat (n_calls - Z.of_nat 1)) o1
              (Run w' (evaluated s ++ [(Given, x0)])) HI' Hready)
    as (o' & s' & Hrun & HI'' & Hev & (X & HX & HlX) & (Y & HY & HlY)).
  rewrite (bind_Ok_intro _ _ _ _ _ Hrun), ret_run.
  exists (Result (Xi o') (yi o')), s'.
  split; [done|]. split; [done|].
  unfold o1 in *. rewrite fit_n_initial_points in Hev.
  rewrite fit_Xi in HX. rewrite fit_yi in HY. cbn in Hev, HX, HY.
  split; [|split].
  - rewrite Hev, fmap_app, <- app_assoc. cbn.
    do 3 f_equal; lia.
  - exists X. split; [done|]. rewrite HlX. lia.
  - exists y, Y. split; [done|]. split; [done|]. rewrite HlY. lia.
Qed.

End TotalSearch.

End MinimizeFacts.

(** ** The search started by [main] *)

Lemma fitness_keeps_params collab cuda x w :
  fitness_params (fitness collab cuda x w).2 = fitness_params w.
Proof.
  unfold fitness, use_named_args. destruct (decide _); [|done].
  unfold fitness_named. destruct w as [[c|] lg]; reflexivity.
Qed.

Section MainFacts.

Import Skopt.

Context (collab : collaborators) (cuda : bool).
Context {rng : Type}.
Context (seed : Z → rng).
Context (rvs : rng → point * rng).
Context (acquire : list point → list float → rng → point * rng).
Context (FixedParameters : options → gmap string value).

Abbreviation dims := SearchableHyperparameters.dimensions.
Abbreviation main_ := (main collab cuda seed rvs acquire FixedParameters).

Lemma trial_returns_good c x :
  trial_returns collab cuda c x →
  Space.point_in dims x = true ∧
  ∀ w, fitness_params w = Some c →
       ∃ y w', fitness collab cuda x w = (Ok y, w') ∧
               fitness_params w' = Some c.
Proof.
  intros [Hin Hret]. split; [done|]. intros [fp lg] Hw. cbn in Hw. subst fp.
  destruct (Hret lg) as [y Hy].
  pose proof (fitness_keeps_params collab cuda x (Process (Some c) lg)) as Hk.
  destruct (fitness collab cuda x (Process (Some c) lg)) as [r w'].
  cbn in Hy, Hk. subst r. by exists y, w'.
Qed.

Lemma main_resume o res s :
  from_beginning o = 0 →
  main_ o (Ok res) s
  = gp_minimize rvs acquire dims (fitness collab cuda) 200
      (Some (- Z.of_nat (length (x_iters res))))
      (X0_nested (x_iters res)) (Some (func_vals res)) (seed 46)
      (Run (Process (Some (main_context FixedParameters o)) (log (world s)))
           (evaluated s)).
Proof. intros H. unfold main. rewrite bind_run. cbn. by rewrite H. Qed.

Lemma main_fresh o checkpoint s :
  from_beginning o ≠ 0 →
  main_ o checkpoint s
  = gp_minimize rvs acquire dims (fitness collab cuda) 200 None
      (X0_flat SearchableHyperparameters.default_parameters) None (seed 46)
      (Run (Process (Some (main_context FixedParameters o)) (log (world s)))
           (evaluated s)).
Proof.
  intros H. unfold main. rewrite bind_run. cbn.
  by destruct (Z.eqb_spec (from_beginning o) 0).
Qed.

(** C4: in resume mode every trial the search runs is proposed by the
    acquisition function; none is a random warm-up sample.  With a
    well-formed checkpoint the first proposal is the maximiser of the
    acquisition function on the surrogate fitted on exactly the loaded
    points and objective values. *)
Theorem C4_resume_skips_warm_up o res s :
  from_beginning o = 0 →
  let r := main_ o (Ok res) s in
  (∃ new, evaluated r.2 = (evaluated s ++ new)%list ∧
          Forall (λ e, e.1 = Acquired) new) ∧
  (well_formed res →
   ∃ rest, evaluated r.2
           = (evaluated s ++
              (Acquired,
               (acquire (x_iters res) (func_vals res) (seed 46)).1) :: rest
             )%list).
Proof.
  intros Hresume. cbn zeta. rewrite main_resume by done.
  unfold gp_minimize. cbn [default].
  set (s1 := Run _ (evaluated s)).
  change (evaluated s) with (evaluated s1). split.
  - apply base_minimize_resume_acquired.
  - intros (Hne & Hlen & Hin).
    by apply base_minimize_resume_first.
Qed.

(** C5, amended: the budget of 200 evaluations is per invocation.  A
    resumed search that loaded a well-formed checkpoint and whose proposals
    all return runs 200 new trials, whatever the number of loaded
    observations, and returns them after the loaded ones. *)
Theorem C5_resume_runs_full_budget o res s :
  from_beginning o = 0 →
  well_formed res →
  (∀ X Y g, trial_returns collab cuda (main_context FixedParameters o) (acquire X Y g).1) →
  ∃ res' s',
    main_ o (Ok res) s = (Ok res', s') ∧
    length (evaluated s') = (length (evaluated s) + 200)%nat ∧
    (∃ X, x_iters res' = (x_iters res ++ X)%list ∧ length X = 200%nat) ∧
    (∃ Y, func_vals res' = (func_vals res ++ Y)%list ∧ length Y = 200%nat).
Proof.
  intros Hresume (Hne & Hlen & Hin) Hacq.
  rewrite main_resume by done. unfold gp_minimize. cbn [default].
  set (c := main_context FixedParameters o) in *.
  destruct (base_minimize_resume_total rvs acquire dims (fitness collab cuda)
              (λ w, fitness_params w = Some c) (trial_returns collab cuda c)
              (trial_returns_good c) Hacq 200
              (x_iters res) (func_vals res) (seed 46)
              (Run (Process (Some c) (log (world s))) (evaluated s)))
    as (res' & s' & Hrun & _ & Hev & HX & HY); try done.
  exists res', s'. split; [done|]. split; [|done].
  apply (f_equal length) in Hev.
  rewrite length_app, !length_fmap, repeat_length in Hev. exact Hev.
Qed.

(** C6: on a fresh start the first trial is the default vector, given by
    the caller and not sampled.  When the trials of the default vector and
    of every proposal return, ten randomly sampled trials follow it and the
    remaining 189 trials are proposed by the acquisition function. *)
Theorem C6_fresh_start_seeds_default o checkpoint s :
  from_beginning o ≠ 0 →
  let c := main_context FixedParameters o in
  let r := main_ o checkpoint s in
  (∃ rest, evaluated r.2
           = (evaluated s ++
              (Given, SearchableHyperparameters.default_parameters) :: rest
             )%list) ∧
  (trial_returns collab cuda c SearchableHyperparameters.default_parameters →
   (∀ g, trial_returns collab cuda c (rvs g).1) →
   (∀ X Y g, trial_returns collab cuda c (acquire X Y g).1) →
   ∃ res X,
     r.1 = Ok res ∧
     x_iters res = SearchableHyperparameters.default_parameters :: X ∧
     length X = 199%nat ∧
     (evaluated r.2).*1
       = ((evaluated s).*1 ++
          Given :: repeat Sampled 10 ++ repeat Acquired 189)%list).
Proof.
  intros Hfresh. cbn zeta. rewrite main_fresh by done.
  unfold gp_minimize. cbn [default]. split.
  - set (s1 := Run _ (evaluated s)).
    change (evaluated s) with (evaluated s1).
    apply base_minimize_fresh_first; done.
  - intros Hdefault Hrvs Hacq.
    set (c := main_context FixedParameters o) in *.
    destruct (base_minimize_fresh_total rvs acquire dims
                (fitness collab cuda)
                (λ w, fitness_params w = Some c) (trial_returns collab cuda c)
                (trial_returns_good c) Hacq 200 10
                SearchableHyperparameters.default_parameters (seed 46)
                (Run (Process (Some c) (log (world s))) (evaluated s)))
      as (res' & s' & Hrun & _ & Hev & (X & HX & HlX) & _); try done.
    exists res', X. rewrite Hrun. done.
Qed.

End MainFacts.

(** ** The search in the sample setting *)

Lemma sample_proposal_returns f n :
  trial_returns Sample.collab false
    (main_context Sample.FixedParameters (Sample.cli f "keep_all"))
    (Sample.proposal n).
Proof.
  assert (Hn : n mod 3 = 0 ∨ n mod 3 = 1 ∨ n mod 3 = 2)
    by (pose proof (Z.mod_pos_bound n 3); lia).
  unfold Sample.proposal.
  destruct Hn as [-> | [-> | ->]]; (split; [by vm_compute|]);
    intros lg; eexists; vm_compute; reflexivity.
Qed.

Lemma sample_default_returns f :
  trial_returns Sample.collab false
    (main_context Sample.FixedParameters (Sample.cli f "keep_all"))
    SearchableHyperparameters.default_parameters.
Proof.
  split; [by vm_compute|]. intros lg. eexists. vm_compute. reflexivity.
Qed.

Lemma sample_checkpoint_well_formed : well_formed Sample.checkpoint.
Proof. split; [done|]. split; [reflexivity | by vm_compute]. Qed.

Lemma C4_resume_skips_warm_up_witness :
  let r := Sample.run_main (Sample.cli 0 "keep_all") (Ok Sample.checkpoint) in
  (∃ new, Skopt.evaluated r.2 = ([] ++ new)%list ∧
          Forall (λ e, e.1 = Skopt.Acquired) new) ∧
  (∃ rest, Skopt.evaluated r.2
           = ([] ++ (Skopt.Acquired, Sample.proposal 1) :: rest)%list).
Proof.
  intros r.
  destruct (C4_resume_skips_warm_up Sample.collab false (λ z, z) Sample.rvs
              Sample.acquire Sample.FixedParameters
              (Sample.cli 0 "keep_all") Sample.checkpoint Sample.start
              eq_refl) as [Hall Hfirst].
  split; [exact Hall|].
  exact (Hfirst sample_checkpoint_well_formed).
Defined.

(** C5, counterexample: resuming from a checkpoint with one observation
    runs 200 new trials, not 199. *)
Lemma C5_counterexample :
  let r := Sample.run_main (Sample.cli 0 "keep_all") (Ok Sample.checkpoint) in
  length (Skopt.x_iters Sample.checkpoint) = 1%nat ∧
  length (Skopt.evaluated r.2) = 200%nat ∧
  length (Skopt.evaluated r.2)
    ≠ (200 - length (Skopt.x_iters Sample.checkpoint))%nat.
Proof.
  cbn zeta. split; [reflexivity|].
  assert (H : length (Skopt.evaluated
                (Sample.run_main (Sample.cli 0 "keep_all")
                   (Ok Sample.checkpoint)).2) = 200%nat)
    by (vm_compute; reflexivity).
  split; [exact H|]. rewrite H. cbn. lia.
Qed.

Lemma C5_resume_runs_full_budget_witness :
  ∃ res' s',
    Sample.run_main (Sample.cli 0 "keep_all") (Ok Sample.checkpoint)
      = (Ok res', s') ∧
    length (Skopt.evaluated s') = (0 + 200)%nat ∧
    (∃ X, Skopt.x_iters res'
            = (Skopt.x_iters Sample.checkpoint ++ X)%list ∧
          length X = 200%nat) ∧
    (∃ Y, Skopt.func_vals res'
            = (Skopt.func_vals Sample.checkpoint ++ Y)%list ∧
          length Y = 200%nat).
Proof.
  apply (C5_resume_runs_full_budget Sample.collab false (λ z, z) Sample.rvs
           Sample.acquire Sample.FixedParameters
           (Sample.cli 0 "keep_all") Sample.checkpoint Sample.start).
  - reflexivity.
  - exact sample_checkpoint_well_formed.
  - intros X Y g. apply sample_proposal_returns.
Defined.

Lemma C6_fresh_start_seeds_default_witness :
  let r := Sample.run_main (Sample.cli 1 "keep_all") (Raise ValueError) in
  (∃ rest, Skopt.evaluated r.2
           = ([] ++ (Skopt.Given,
                     SearchableHyperparameters.default_parameters) :: rest
             )%list) ∧
  (∃ res X,
     r.1 = Ok res ∧
     Skopt.x_iters res = SearchableHyperparameters.default_parameters :: X ∧
     length X = 199%nat ∧
     (Skopt.evaluated r.2).*1
       = ([] ++ Skopt.Given :: repeat Skopt.Sampled 10 ++
                repeat Skopt.Acquired 189)%list).
Proof.
  intros r.
  destruct (C6_fresh_start_seeds_default Sample.collab false (λ z, z)
              Sample.rvs Sample.acquire Sample.FixedParameters
              (Sample.cli 1 "keep_all") (Raise ValueError) Sample.start)
    as [Hfirst Hall]; [done|].
  split; [exact Hfirst|]. apply Hall.
  - apply sample_default_returns.
  - intros g. apply sample_proposal_returns.
  - intros X Y g. apply sample_proposal_returns.
Defined.

(** The objectives a fresh search records in the sample setting, where the
    collaborators report a recall of [0.20] for every trial. *)
Lemma sample_recorded_objectives :
  ∃ res,
    (Sample.run_main (Sample.cli 1 "keep_all") (Raise ValueError)).1 = Ok res ∧
    Skopt.func_vals res = repeat (-0.2)%float 200.
Proof. eexists. split; vm_compute; reflexivity. Qed.

(** * Further properties of the program *)

(** ** Named arguments *)

Lemma arg_dict_snoc dims (x : point) d v :
  length x = length dims →
  arg_dict (dims ++ [d]) (x ++ [v]) = <[Space.name d := v]> (arg_dict dims x).
Proof.
  intros Hlen. unfold arg_dict.
  rewrite zip_with_app by done. by rewrite foldl_app.
Qed.

(** With distinct dimension names, the dictionary built from a point
    gives back each component under the name of its dimension. *)
Lemma arg_dict_lookup dims :
  NoDup (Space.name <$> dims) →
  ∀ (x : point) i d v,
    length x = length dims →
    dims !! i = Some d → x !! i = Some v →
    arg_dict dims x !! Space.name d = Some v.
Proof.
  induction dims as [|d0 dims IH] using rev_ind; intros Hnd x i d v Hlen Hd Hv.
  { by rewrite lookup_nil in Hd. }
  rewrite fmap_app in Hnd. apply NoDup_app in Hnd as (Hnd & Hfresh & _).
  destruct x as [|v0 x _] using rev_ind.
  { rewrite length_app in Hlen. cbn in Hlen. lia. }
  rewrite !length_app in Hlen. cbn in Hlen.
  assert (Hlen' : length x = length dims) by lia.
  rewrite arg_dict_snoc by done.
  destruct (decide (i < length dims)%nat) as [Hlt|Hge].
  - rewrite lookup_app_l in Hd by done.
    rewrite lookup_app_l in Hv by lia.
    rewrite lookup_insert_ne; [by eapply IH|].
    intros Heq. apply (Hfresh (Space.name d)).
    + apply list_elem_of_fmap. exists d. split; [done|].
      by eapply list_elem_of_lookup_2.
    + rewrite <- Heq. cbn. left.
  - assert (i = length dims) as ->.
    { apply lookup_lt_Some in Hd. rewrite length_app in Hd. cbn in Hd. lia. }
    rewrite list_lookup_middle in Hd by done.
    rewrite list_lookup_middle in Hv by done.
    injection Hd as <-. injection Hv as <-. apply lookup_insert_eq.
Qed.

Lemma dimension_names_distinct :
  NoDup (Space.name <$> SearchableHyperparameters.dimensions).
Proof.
  apply (bool_decide_unpack _). by vm_compute.
Qed.

(** Every hyperparameter reaches [train] under its own name: for a vector
    with one component per dimension, the keyword dictionary maps the name
    of each dimension to the component at the position of that dimension;
    no dimension hides another. *)
Theorem named_arguments_carry_every_component (x : point) i d v :
  length x = length SearchableHyperparameters.dimensions →
  SearchableHyperparameters.dimensions !! i = Some d →
  x !! i = Some v →
  arg_dict SearchableHyperparameters.dimensions x !! Space.name d = Some v.
Proof. apply arg_dict_lookup, dimension_names_distinct. Qed.

Lemma named_arguments_carry_every_component_witness :
  arg_dict SearchableHyperparameters.dimensions
           SearchableHyperparameters.default_parameters !! "delta"
  = Some (VFloat 0.266).
Proof.
  apply (named_arguments_carry_every_component
           SearchableHyperparameters.default_parameters 3
           (Real 0.15 0.35 LogUniform "delta") (VFloat 0.266));
    reflexivity.
Defined.

(** ** Derived parameters, continued *)

(** Run the next steps of a computation whose reads are known. *)
Ltac fwd :=
  repeat first
    [ rewrite bind_run
    | rewrite ret_run
    | rewrite set_param_run
    | progress cbn [params trace]
    | rewrite lookup_insert_ne by done
    | rewrite lookup_insert_eq
    | match goal with
      | H : ?x = Some _
        |- context [match ?x with Some _ => _ | None => _ end] => rewrite H
      end
    | progress unfold param at 1
    | progress unfold attr at 1
    | progress unfold lookup_table at 1 ].

(** The converse of [expand_derived_Ok]: when the buckets are keys of the
    tables, [fixed_params] has a [duplicates] attribute and, in counting
    mode, the aggregator is a string, the expansion returns. *)
Lemma expand_derived_run fixed_params p t e q d vo vh vu vw vd :
  p !! "embed_dim" = Some e →
  p !! "popularity_importance" = Some q →
  fixed_params !! "duplicates" = Some d →
  Py.getitem out_dim e = Some vo →
  Py.getitem hidden_dim e = Some vh →
  Py.getitem use_popularity q = Some vu →
  Py.getitem weight_popularity q = Some vw →
  Py.getitem days_popularity q = Some vd →
  (Py.eq_str d "count_occurrence" = true →
   ∃ a, p !! "aggregator_type" = Some (VStr a)) →
  ∃ p', expand_derived fixed_params (Frame p t) = (Ok (), Frame p' t).
Proof.
  intros He Hq Hd Hvo Hvh Hvu Hvw Hvd Hagg. unfold expand_derived.
  fwd. destruct (Py.eq_str d "count_occurrence").
  - destruct (Hagg eq_refl) as [a Ha]. fwd. cbn. fwd. eauto.
  - fwd. eauto.
Qed.

(** The check passes on the outcome of an expansion whose raw aggregator
    is a string that does not end with ['edge']. *)
Lemma check_after_expansion fixed_params p t s' a :
  p !! "aggregator_type" = Some (VStr a) →
  Py.endswith a "edge" = false →
  expand_derived fixed_params (Frame p t) = (Ok (), s') →
  check_consistency fixed_params s' = (Ok (), s').
Proof.
  intros Ha Hno H.
  apply expand_derived_Ok in H
    as (e & q & d & vo & vh & vu & vw & vd & _ & _ & Hd & _ & _
        & _ & _ & _ & _ & H).
  cbn [params] in H. unfold check_consistency.
  rewrite (bind_Ok_intro _ _ _ d s'); [|unfold attr; by rewrite Hd].
  destruct (Py.eq_str d "count_occurrence").
  - destruct H as (a0 & Ha0 & Hp').
    assert (Hagg : params s' !! "aggregator_type"
                   = Some (VStr (a0 +:+ "_edge")))
      by (rewrite Hp'; apply lookup_insert_eq).
    rewrite (bind_Ok_intro _ _ _ _ s' (param_run _ _ _ Hagg)).
    cbn. by rewrite endswith_edge_suffix.
  - assert (Hagg : params s' !! "aggregator_type" = Some (VStr a)).
    { rewrite H. by rewrite !lookup_insert_ne by done. }
    rewrite (bind_Ok_intro _ _ _ _ s' (param_run _ _ _ Hagg)).
    cbn. by rewrite Hno.
Qed.

(** The optimizer cannot propose a vector that the trial executor
    rejects: for every point of the declared search space, and every
    [fixed_params] that has a [duplicates] attribute, the expansion finds
    every bucket in its tables and the consistency check passes, before any
    collaborator is called. *)
Theorem space_points_pass_expansion_and_check fixed_params d (x : point) t :
  Space.point_in SearchableHyperparameters.dimensions x = true →
  fixed_params !! "duplicates" = Some d →
  ∃ p',
    (expand_derived fixed_params ≫= λ _, check_consistency fixed_params)
      (Frame (arg_dict SearchableHyperparameters.dimensions x) t)
    = (Ok (), Frame p' t).
Proof.
  intros Hin Hd.
  pose proof (point_in_length _ _ Hin) as Hlen.
  apply point_in_Forall2 in Hin.
  set (p := arg_dict SearchableHyperparameters.dimensions x).
  assert (Hget : ∀ i dim, SearchableHyperparameters.dimensions !! i = Some dim →
            ∃ v, p !! Space.name dim = Some v ∧ Space.contains dim v = true).
  { intros i dim Hdim.
    destruct (lookup_lt_is_Some_2 x i) as [v Hv].
    { rewrite Hlen. by eapply lookup_lt_Some. }
    exists v. split.
    - by eapply (arg_dict_lookup _ dimension_names_distinct).
    - by eapply (Forall2_lookup_lr _ _ _ _ _ _ Hin). }
  destruct (Hget 1%nat _ eq_refl) as (va & Ha & Hca).
  destruct (Hget 5%nat _ eq_refl) as (ve & He & Hce).
  destruct (Hget 11%nat _ eq_refl) as (vq & Hq & Hcq).
  cbn [Space.name] in Ha, He, Hq.
  apply (In_list_VStr va ["mean"; "mean_nn"; "pool_nn"]) in Hca
    as (a & -> & Hain).
  apply (In_list_VStr ve
           ["Very Small"; "Small"; "Medium"; "Large"; "Very Large"]) in Hce
    as (e & -> & Hein).
  apply (In_list_VStr vq ["No"; "Small"; "Medium"; "Large"]) in Hcq
    as (q & -> & Hqin).
  assert (Hno : Py.endswith a "edge" = false).
  { set_unfold in Hain. by destruct_or!; subst. }
  assert (Hrun : ∃ p', expand_derived fixed_params (Frame p t)
                       = (Ok (), Frame p' t)).
  { set_unfold in Hein. set_unfold in Hqin.
    destruct_or!; subst;
      (eapply expand_derived_run; [done..|]; eauto). }
  destruct Hrun as [p' Hrun]. exists p'.
  rewrite (bind_Ok_intro _ _ _ _ _ Hrun).
  by eapply check_after_expansion.
Qed.

Lemma space_points_pass_expansion_and_check_witness :
  ∃ p',
    (expand_derived (Sample.FixedParameters (Sample.cli 1 "count_occurrence"))
       ≫= λ _, check_consistency
                 (Sample.FixedParameters (Sample.cli 1 "count_occurrence")))
      (Frame (arg_dict SearchableHyperparameters.dimensions
                       SearchableHyperparameters.default_parameters) [])
    = (Ok (), Frame p' []).
Proof.
  apply (space_points_pass_expansion_and_check
           (Sample.FixedParameters (Sample.cli 1 "count_occurrence"))
           (VStr "count_occurrence")
           SearchableHyperparameters.default_parameters []).
  - vm_compute. reflexivity.
  - vm_compute. reflexivity.
Defined.

(** The two size tables have the same keys, and the hidden width is
    twice the output width. *)
Lemma size_tables e vo vh :
  Py.getitem out_dim e = Some vo →
  Py.getitem hidden_dim e = Some vh →
  ∃ n, vo = VInt n ∧ vh = VInt (2 * n) ∧ 32 ≤ n ≤ 256.
Proof.
  destruct e as [s| | |]; try discriminate.
  unfold out_dim, hidden_dim. cbn [Py.getitem Py.eqb].
  repeat match goal with
         | |- context [String.eqb ?k s] => destruct (String.eqb k s)
         end;
    intros; simplify_eq; eexists; (split; [done|]); (split; [done | lia]).
Qed.

(** After a successful expansion the hidden width is twice the output
    width, and the output width lies between 32 and 256. *)
Theorem expansion_hidden_width_is_twice_output_width fixed_params s s' :
  expand_derived fixed_params s = (Ok (), s') →
  ∃ n, params s' !! "out_dim" = Some (VInt n) ∧
       params s' !! "hidden_dim" = Some (VInt (2 * n)) ∧
       32 ≤ n ≤ 256.
Proof.
  intros H.
  apply expand_derived_Ok in H
    as (e & q & d & vo & vh & vu & vw & vd & _ & _ & _ & Hvo & Hvh
        & _ & _ & _ & _ & H).
  destruct (size_tables e vo vh Hvo Hvh) as (n & -> & -> & Hn).
  exists n. cbn zeta in H. destruct (Py.eq_str d "count_occurrence").
  - destruct H as (a & _ & ->). by simplify_map_eq.
  - rewrite H. by simplify_map_eq.
Qed.

Lemma expansion_hidden_width_is_twice_output_width_witness :
  let s := Frame (arg_dict SearchableHyperparameters.dimensions
                           SearchableHyperparameters.default_parameters) [] in
  let fp := Sample.FixedParameters (Sample.cli 1 "keep_all") in
  ∃ n, params (expand_derived fp s).2 !! "out_dim" = Some (VInt n) ∧
       params (expand_derived fp s).2 !! "hidden_dim" = Some (VInt (2 * n)) ∧
       32 ≤ n ≤ 256.
Proof.
  intros s fp.
  apply (expansion_hidden_width_is_twice_output_width fp s).
  vm_compute. reflexivity.
Defined.

(** The expansion writes six keys at most and leaves every other entry of
    the dictionary as it was; outside counting mode it leaves
    [aggregator_type] too. *)
Theorem expansion_keeps_raw_parameters fixed_params s s' k :
  expand_derived fixed_params s = (Ok (), s') →
  k ∉ ["out_dim"; "hidden_dim"; "use_popularity"; "weight_popularity";
       "days_popularity"] →
  (k ≠ "aggregator_type" ∨
   fixed_params !! "duplicates" ≠ Some (VStr "count_occurrence")) →
  params s' !! k = params s !! k.
Proof.
  intros H Hk Hagg.
  apply expand_derived_Ok in H
    as (e & q & d & vo & vh & vu & vw & vd & _ & _ & Hd & _ & _
        & _ & _ & _ & _ & H).
  cbn zeta in H. repeat apply not_elem_of_cons in Hk as [? Hk].
  destruct (Py.eq_str d "count_occurrence") eqn:Hcount.
  - apply eq_str_true in Hcount as ->.
    destruct H as (a & _ & ->). destruct Hagg as [Hne|Hne]; [|done].
    rewrite !lookup_insert_ne by done. done.
  - rewrite H. rewrite !lookup_insert_ne by done. done.
Qed.

Lemma expansion_keeps_raw_parameters_witness :
  let s := Frame (arg_dict SearchableHyperparameters.dimensions
                           SearchableHyperparameters.default_parameters) [] in
  let fp := Sample.FixedParameters (Sample.cli 1 "count_occurrence") in
  params (expand_derived fp s).2 !! "n_layers" = params s !! "n_layers".
Proof.
  intros s fp.
  apply (expansion_keeps_raw_parameters fp s (expand_derived fp s).2).
  - vm_compute. reflexivity.
  - repeat (apply not_elem_of_cons; split; [done|]). apply not_elem_of_nil.
  - left. done.
Defined.

(** A size bucket that is not a key of the table stops the trial with a
    [KeyError] on that bucket: no collaborator is called and the dictionary
    is left as it was. *)
Theorem unknown_size_bucket_stops_trial
    collab cuda fixed_params visualization check_embedding p t e :
  p !! "embed_dim" = Some e →
  Py.getitem out_dim e = None →
  train_body collab cuda fixed_params visualization check_embedding
    (Frame p t) = (Raise (KeyError e), Frame p t).
Proof.
  intros He Hnone. unfold train_body.
  apply bind_Raise_intro. unfold expand_derived.
  rewrite bind_run, (param_run "embed_dim" e (Frame p t) He).
  apply bind_Raise_intro. unfold lookup_table. by rewrite Hnone.
Qed.

Lemma unknown_size_bucket_stops_trial_witness :
  let p := <["embed_dim" := VStr "Huge"]>
             (arg_dict SearchableHyperparameters.dimensions
                       SearchableHyperparameters.default_parameters) in
  train_body Sample.collab false
    (Sample.FixedParameters (Sample.cli 1 "keep_all")) (VInt 0) (VInt 0)
    (Frame p []) = (Raise (KeyError (VStr "Huge")), Frame p []).
Proof.
  intros p.
  apply (unknown_size_bucket_stops_trial Sample.collab false
           (Sample.FixedParameters (Sample.cli 1 "keep_all"))
           (VInt 0) (VInt 0) p [] (VStr "Huge")).
  - vm_compute. reflexivity.
  - reflexivity.
Defined.

(** ** The phases of a trial *)

Lemma update_params_Ok d a s s' :
  update_params d s = (Ok a, s') → s' = Frame (d ∪ params s) (trace s).
Proof. by intros [= <- <-]. Qed.

Lemma test_metrics_Ok collab fp gt m s s' :
  test_metrics collab fp gt s = (Ok m, s') →
  ∃ od up wp,
    params s !! "out_dim" = Some od ∧
    params s !! "use_popularity" = Some up ∧
    params s !! "weight_popularity" = Some wp ∧
    m = metrics_at_k collab (trace s ++ [GetMetricsAtK gt od up wp])%list ∧
    s' = Frame (params s)
               (trace s ++ [GetMetricsAtK gt od up wp; SaveTxt])%list.
Proof.
  intros H. unfold test_metrics in H. inv_run H. cbn [params trace] in *.
  rewrite ret_run in H. injection H as <- <-.
  eexists _, _, _. repeat (split; [eassumption|]).
  split; [done|]. by rewrite <- app_assoc.
Qed.

Lemma fit_and_test_Ok collab cuda fp vis r s s' :
  fit_and_test collab cuda fp vis s = (Ok r, s') →
  let m := {[ "cuda" := VBool cuda ]} ∪ (fp ∪ params s) in
  ∃ delta ns ur lr od pred up wp el,
    m !! "delta" = Some delta ∧ m !! "neg_sample_size" = Some ns ∧
    m !! "use_recency" = Some ur ∧ m !! "lr" = Some lr ∧
    m !! "out_dim" = Some od ∧ m !! "pred" = Some pred ∧
    m !! "use_popularity" = Some up ∧ m !! "weight_popularity" = Some wp ∧
    m !! "embedding_layer" = Some el ∧
    params s' = m ∧
    let t1 := (trace s ++
               [SaveTxt; TrainModel delta ns ur lr od pred up wp el])%list in
    let t2 := (t1 ++ [SaveTxt] ++
               (if Py.truthy vis then [PlotTrainLoss] else []) ++
               [SaveTxt; GetEmbeddings od el;
                GetMetricsAtK PurchaseTest od up wp; SaveTxt;
                GetMetricsAtK Test od up wp])%list in
    trace s' = (t2 ++ [SaveTxt])%list ∧
    r = (train_loss_list_len collab t1, (metrics_at_k collab t2).1.2).
Proof.
  intros H. unfold fit_and_test in H. inv_run H.
  all: repeat match goal with
       | H : update_params _ _ = _ |- _ => apply update_params_Ok in H as ->
       | H : emit _ _ = (Ok _, _) |- _ => apply emit_Ok in H as [_ ->]
       | H : test_metrics _ _ _ _ = _ |- _ =>
           apply test_metrics_Ok in H as (? & ? & ? & ? & ? & ? & -> & ->)
       end.
  all: cbn [params trace] in *.
  all: rewrite ret_run in H; injection H as <- <-.
  all: simplify_eq.
  all: cbn zeta; eexists _, _, _, _, _, _, _, _, _.
  all: repeat (split; [eassumption|]).
  all: cbn [params trace].
  all: split; [done|]; rewrite <- !app_assoc; cbn [app]; done.
Qed.

Lemma recap_Ok fp epochs inference s s' :
  recap fp epochs inference s = (Ok (), s') →
  epochs ≠ 0%nat ∧
  s' = Frame (params s) (trace s ++ [SaveTxt])%list ∧
  ∃ v, fp !! "run_inference" = Some v ∧
       (Py.eq_int v 1 = true → is_Some inference).
Proof.
  intros H. unfold recap in H.
  apply bind_Ok in H as (v & s1 & Hv & H). apply attr_Ok in Hv as [Hv ->].
  apply bind_Ok in H as ([] & s2 & Hinf & H).
  apply bind_Ok in H as ([] & s3 & Hep & H).
  destruct (decide (epochs = 0%nat)) as [|Hne]; [discriminate Hep|].
  rewrite ret_run in Hep. injection Hep as <-.
  apply emit_Ok in H as [_ ->].
  assert (Hs : s2 = s ∧ (Py.eq_int v 1 = true → is_Some inference)).
  { destruct (Py.eq_int v 1).
    - apply bind_Ok in Hinf as (w & s4 & Hw & Hinf).
      apply attr_Ok in Hw as [_ ->].
      destruct inference; [|discriminate Hinf].
      rewrite ret_run in Hinf. injection Hinf as <-. eauto.
    - rewrite ret_run in Hinf. injection Hinf as <-. split; [done|].
      discriminate. }
  destruct Hs as [-> Hs]. eauto.
Qed.

(** A trial that returns went through each phase in turn. *)
Lemma train_body_Ok collab cuda fp vis ce p t recall s' :
  train_body collab cuda fp vis ce (Frame p t) = (Ok recall, s') →
  ∃ s1 s2 s3 s4 r inference,
    expand_derived fp (Frame p t) = (Ok (), s1) ∧
    build collab fp s1 = (Ok (), s2) ∧
    fit_and_test collab cuda fp vis s2 = (Ok r, s3) ∧
    (if Py.truthy ce then explore collab fp r.2 else mret None) s3
      = (Ok inference, s4) ∧
    recap fp r.1 inference s4 = (Ok (), s') ∧
    recall = r.2.
Proof.
  intros H. unfold train_body in H.
  apply bind_Ok in H as ([] & s1 & Hexpand & H).
  apply bind_Ok in H as ([] & s1' & Hcheck & H).
  apply check_consistency_Ok in Hcheck as ->.
  apply bind_Ok in H as ([] & s2 & Hbuild & H).
  apply bind_Ok in H as (r & s3 & Hfit & H).
  apply bind_Ok in H as (inference & s4 & Hexp & H).
  apply bind_Ok in H as ([] & s5 & Hrecap & H).
  rewrite ret_run in H. injection H as <- <-.
  by exists s1, s2, s3, s4, r, inference.
Qed.

(** ** What a returning trial can rely on *)

(** The recap of a trial reads [inference_recall] when
    [fixed_params.run_inference] is [1], but only the exploration of the
    recommendations binds it: with [check_embedding] off and
    [run_inference == 1] no trial ever returns a recall. *)
Theorem recap_needs_the_inference_run
    collab cuda fixed_params visualization check_embedding p t v :
  Py.truthy check_embedding = false →
  fixed_params !! "run_inference" = Some v →
  Py.eq_int v 1 = true →
  ∀ recall,
    (train_body collab cuda fixed_params visualization check_embedding
       (Frame p t)).1 ≠ Ok recall.
Proof.
  intros Hce Hv H1 recall Hok.
  destruct (train_body collab cuda fixed_params visualization
              check_embedding (Frame p t)) as [r s'] eqn:Hrun.
  cbn in Hok. subst r.
  apply train_body_Ok in Hrun
    as (s1 & s2 & s3 & s4 & r & inference & _ & _ & _ & Hexp & Hrecap & _).
  rewrite Hce, ret_run in Hexp. injection Hexp as <- <-.
  apply recap_Ok in Hrecap as (_ & _ & v' & Hv' & Hsome).
  rewrite Hv in Hv'. injection Hv' as <-.
  destruct (Hsome H1) as [? [=]].
Qed.

Lemma recap_needs_the_inference_run_witness :
  let r := train_body Sample.collab false (Sample.inference_params 1)
             (VInt 0) (VInt 0)
             (Frame (arg_dict SearchableHyperparameters.dimensions
                              SearchableHyperparameters.default_parameters)
                    []) in
  r.1 ≠ Ok 0.2%float ∧ r.1 = Raise (NameError "inference_recall").
Proof.
  intros r. split; [|vm_compute; reflexivity].
  apply (recap_needs_the_inference_run Sample.collab false
           (Sample.inference_params 1) (VInt 0) (VInt 0) _ [] (VInt 1)).
  - reflexivity.
  - vm_compute. reflexivity.
  - reflexivity.
Defined.

(** The recap divides the elapsed time by the number of epochs: when the
    training loop reports none, the trial never returns a recall, although
    training and evaluation are done by then. *)
Theorem trial_without_epoch_never_returns
    collab cuda fixed_params visualization check_embedding p t :
  (∀ calls c, is_train_model c = true →
              train_loss_list_len collab (calls ++ [c])%list = 0%nat) →
  ∀ recall,
    (train_body collab cuda fixed_params visualization check_embedding
       (Frame p t)).1 ≠ Ok recall.
Proof.
  intros Hzero recall Hok.
  destruct (train_body collab cuda fixed_params visualization
              check_embedding (Frame p t)) as [r s'] eqn:Hrun.
  cbn in Hok. subst r.
  apply train_body_Ok in Hrun
    as (s1 & s2 & s3 & s4 & r & inference & _ & _ & Hfit & _ & Hrecap & _).
  apply recap_Ok in Hrecap as (Hne & _).
  apply fit_and_test_Ok in Hfit
    as (? & ? & ? & ? & ? & ? & ? & ? & ? & _ & _ & _ & _ & _ & _ & _ & _ & _
        & _ & _ & ->).
  cbn [fst] in Hne.
  match type of Hne with
  | context [(?l ++ [SaveTxt; ?c])%list] =>
      replace (l ++ [SaveTxt; c])%list with ((l ++ [SaveTxt]) ++ [c])%list
        in Hne by (by rewrite <- app_assoc)
  end.
  by rewrite Hzero in Hne.
Qed.

Lemma trial_without_epoch_never_returns_witness :
  let r := train_body Sample.collab_no_epoch false
             (Sample.FixedParameters (Sample.cli 1 "keep_all"))
             (VInt 0) (VInt 0)
             (Frame (arg_dict SearchableHyperparameters.dimensions
                              SearchableHyperparameters.default_parameters)
                    []) in
  r.1 ≠ Ok 0.2%float ∧ r.1 = Raise ZeroDivisionError ∧
  Exists (λ c, is_train_model c = true) (trace r.2).
Proof.
  intros r. split; [|split; [vm_compute; reflexivity|]].
  - apply (trial_without_epoch_never_returns Sample.collab_no_epoch false
             (Sample.FixedParameters (Sample.cli 1 "keep_all"))
             (VInt 0) (VInt 0) _ []).
    reflexivity.
  - apply Exists_exists.
    exists (TrainModel (VFloat 0.266) (VInt 2500) (VBool true)
              (VFloat 0.00565) (VInt 128) (VStr "cos") (VBool false)
              (VInt 0) (VBool false)).
    split; [|reflexivity]. vm_compute. do 6 right. left.
Defined.

(** The expansion leaves the entries it does not derive. *)
Lemma expand_derived_other_keys fp s s' k :
  expand_derived fp s = (Ok (), s') →
  k ∉ ["out_dim"; "hidden_dim"; "use_popularity"; "weight_popularity";
       "days_popularity"; "aggregator_type"] →
  params s' !! k = params s !! k.
Proof.
  intros H Hk.
  apply expand_derived_Ok in H
    as (e & q & d & vo & vh & vu & vw & vd & _ & _ & _ & _ & _
        & _ & _ & _ & _ & H).
  cbn zeta in H. repeat apply not_elem_of_cons in Hk as [? Hk].
  destruct (Py.eq_str d "count_occurrence").
  - destruct H as (a & _ & ->). by rewrite !lookup_insert_ne by done.
  - rewrite H. by rewrite !lookup_insert_ne by done.
Qed.

(** The construction phase changes [n_layers] at most. *)
Lemma build_other_keys collab fp s s' k :
  build collab fp s = (Ok (), s') → k ≠ "n_layers" →
  params s' !! k = params s !! k.
Proof.
  intros H Hk. unfold build in H. inv_run H; cbn [params trace] in *.
  all: apply emit_Ok in H as [_ ->]; cbn [params].
  - by rewrite lookup_insert_ne by done.
  - done.
Qed.

(** [hp_sentence] is another name of [params]: once the attributes of
    [fixed_params] are merged into it, [train_model] is called with
    [pred = fixed_params.pred], and an attribute of [fixed_params] named
    like a searched hyperparameter replaces the searched value in that
    call. *)
Theorem fixed_params_override_train_model_arguments
    collab cuda fixed_params visualization check_embedding p t recall s' :
  train_body collab cuda fixed_params visualization check_embedding
    (Frame p t) = (Ok recall, s') →
  ∃ c, c ∈ trace s' ∧ is_train_model c = true ∧
       train_model_kwargs c !! "pred" = fixed_params !! "pred" ∧
       ∀ k, k ∈ ["delta"; "neg_sample_size"; "use_recency"; "lr";
                 "embedding_layer"] →
            train_model_kwargs c !! k = (fixed_params ∪ p) !! k.
Proof.
  intros H.
  apply train_body_Ok in H
    as (s1 & s2 & s3 & s4 & r & inference & Hexpand & Hbuild & Hfit & Hexp
        & Hrecap & _).
  pose proof (build_Ok _ _ _ _ Hbuild)
    as (? & ? & ? & ? & ? & ? & ? & ? & ? & ? & ? & pred0 & ? & _ & _ & Hb).
  assert (Hpred : is_Some (fixed_params !! "pred")).
  { unfold build in Hbuild. inv_run Hbuild; eauto. }
  destruct Hpred as [pred Hpred].
  pose proof (fit_and_test_Ok _ _ _ _ _ _ _ Hfit) as Hfit'. cbn zeta in Hfit'.
  destruct Hfit'
    as (delta & ns & ur & lr & od & pred' & up & wp & el & Hdelta & Hns
        & Hur & Hlr & Hod & Hpred' & Hup & Hwp & Hel & _ & Ht3 & _).
  assert (Hraw : ∀ k, k ∈ ["delta"; "neg_sample_size"; "use_recency"; "lr";
                           "embedding_layer"] →
            ({["cuda" := VBool cuda]} ∪ (fixed_params ∪ params s2)) !! k
            = (fixed_params ∪ p) !! k).
  { intros k Hk.
    assert (k ≠ "cuda" ∧ k ≠ "n_layers" ∧
            k ∉ ["out_dim"; "hidden_dim"; "use_popularity";
                 "weight_popularity"; "days_popularity"; "aggregator_type"])
      as (Hc & Hn & Hd).
    { set_unfold in Hk. destruct_or!; subst;
        (split; [done|]); (split; [done|]);
        repeat (apply not_elem_of_cons; split; [done|]);
        apply not_elem_of_nil. }
    rewrite lookup_union_r by (by rewrite lookup_singleton_ne).
    rewrite !lookup_union.
    rewrite (build_other_keys _ _ _ _ _ Hbuild Hn).
    by rewrite (expand_derived_other_keys _ _ _ _ Hexpand Hd). }
  exists (TrainModel delta ns ur lr od pred' up wp el).
  split; [|split; [done|split]].
  - assert (Hin : TrainModel delta ns ur lr od pred' up wp el ∈ trace s3).
    { rewrite Ht3. set_solver. }
    assert (Hgrow : ∃ l, trace s' = (trace s3 ++ l)%list).
    { apply recap_Ok in Hrecap as (_ & -> & _). cbn [trace].
      destruct (Py.truthy check_embedding).
      - destruct (appends_explore collab fixed_params r.2 s3) as [l Hl].
        rewrite Hexp in Hl. cbn in Hl. rewrite Hl.
        exists (l ++ [SaveTxt])%list. by rewrite app_assoc.
      - rewrite ret_run in Hexp. injection Hexp as <- <-. by eexists. }
    destruct Hgrow as [l ->]. set_solver.
  - cbn. rewrite Hpred.
    rewrite lookup_union_r in Hpred' by (by rewrite lookup_singleton_ne).
    rewrite lookup_union, Hpred in Hpred'.
    destruct (params s2 !! "pred"); cbn in Hpred'; by simplify_eq.
  - intros k Hk. rewrite <- (Hraw k Hk).
    set_unfold in Hk. destruct_or!; subst; cbn; by simplify_map_eq.
Qed.

Lemma fixed_params_override_train_model_arguments_witness :
  let p := arg_dict SearchableHyperparameters.dimensions
                    SearchableHyperparameters.default_parameters in
  let r := train_body Sample.collab false Sample.shadowing_params
             (VInt 0) (VInt 0) (Frame p []) in
  (∃ c, c ∈ trace r.2 ∧ is_train_model c = true ∧
        train_model_kwargs c !! "pred" = Sample.shadowing_params !! "pred" ∧
        ∀ k, k ∈ ["delta"; "neg_sample_size"; "use_recency"; "lr";
                  "embedding_layer"] →
             train_model_kwargs c !! k = (Sample.shadowing_params ∪ p) !! k) ∧
  p !! "lr" = Some (VFloat 0.00565) ∧
  (Sample.shadowing_params ∪ p) !! "lr" = Some (VFloat 0.5).
Proof.
  intros p r. split; [|split; vm_compute; reflexivity].
  apply (fixed_params_override_train_model_arguments Sample.collab false
           Sample.shadowing_params (VInt 0) (VInt 0) p [] 0.2%float r.2).
  vm_compute. reflexivity.
Defined.

(** The recall a trial returns is the one measured in the last round, on
    the test set of purchases and clicks; the round on the purchases alone
    comes just before and its recall is only logged. *)
Theorem trial_returns_recall_of_last_round
    collab cuda fixed_params visualization check_embedding p t recall s' :
  train_body collab cuda fixed_params visualization check_embedding
    (Frame p t) = (Ok recall, s') →
  ∃ before od up wp after,
    let measured :=
      (before ++ [GetMetricsAtK PurchaseTest od up wp; SaveTxt;
                  GetMetricsAtK Test od up wp])%list in
    trace s' = (measured ++ after)%list ∧
    recall = (metrics_at_k collab measured).1.2.
Proof.
  intros H.
  apply train_body_Ok in H
    as (s1 & s2 & s3 & s4 & r & inference & _ & _ & Hfit & Hexp
        & Hrecap & ->).
  pose proof (fit_and_test_Ok _ _ _ _ _ _ _ Hfit) as Hfit'. cbn zeta in Hfit'.
  destruct Hfit'
    as (delta & ns & ur & lr & od & pred' & up & wp & el & _ & _ & _ & _ & _
        & _ & _ & _ & _ & _ & Ht3 & ->).
  assert (Hgrow : ∃ l, trace s' = (trace s3 ++ l)%list).
  { apply recap_Ok in Hrecap as (_ & -> & _). cbn [trace].
    destruct (Py.truthy check_embedding).
    - destruct (appends_explore collab fixed_params
                  (train_loss_list_len collab
                     (trace s2 ++
                      [SaveTxt; TrainModel delta ns ur lr od pred' up wp el]),
                   (metrics_at_k collab
                      ((trace s2 ++
                        [SaveTxt;
                         TrainModel delta ns ur lr od pred' up wp el]) ++
                       [SaveTxt] ++
                       (if Py.truthy visualization
                        then [PlotTrainLoss] else []) ++
                       [SaveTxt; GetEmbeddings od el;
                        GetMetricsAtK PurchaseTest od up wp; SaveTxt;
                        GetMetricsAtK Test od up wp])).1.2).2 s3) as [l Hl].
      rewrite Hexp in Hl. cbn in Hl. rewrite Hl.
      exists (l ++ [SaveTxt])%list. by rewrite app_assoc.
    - rewrite ret_run in Hexp. injection Hexp as <- <-. by eexists. }
  destruct Hgrow as [l Hl]. rewrite Ht3 in Hl.
  exists ((trace s2 ++
           [SaveTxt; TrainModel delta ns ur lr od pred' up wp el]) ++
          [SaveTxt] ++
          (if Py.truthy visualization then [PlotTrainLoss] else []) ++
          [SaveTxt; GetEmbeddings od el])%list, od, up, wp,
         ([SaveTxt] ++ l)%list.
  cbn zeta. cbn [snd]. split.
  - rewrite Hl. destruct (Py.truthy visualization);
      rewrite <- ?app_assoc; cbn [app]; by rewrite <- ?app_assoc.
  - do 2 f_equal. destruct (Py.truthy visualization);
      rewrite <- ?app_assoc; cbn [app]; by rewrite <- ?app_assoc.
Qed.

Lemma trial_returns_recall_of_last_round_witness :
  let r := train_body Sample.collab_by_round false
             (Sample.FixedParameters (Sample.cli 1 "keep_all"))
             (VInt 0) (VInt 0)
             (Frame (arg_dict SearchableHyperparameters.dimensions
                              SearchableHyperparameters.default_parameters)
                    []) in
  ∃ before od up wp after,
    let measured :=
      (before ++ [GetMetricsAtK PurchaseTest od up wp; SaveTxt;
                  GetMetricsAtK Test od up wp])%list in
    trace r.2 = (measured ++ after)%list ∧
    0.12%float = (metrics_at_k Sample.collab_by_round measured).1.2.
Proof.
  intros r.
  apply (trial_returns_recall_of_last_round Sample.collab_by_round false
           (Sample.FixedParameters (Sample.cli 1 "keep_all"))
           (VInt 0) (VInt 0)
           (arg_dict SearchableHyperparameters.dimensions
                     SearchableHyperparameters.default_parameters)
           [] 0.12%float r.2).
  vm_compute. reflexivity.
Defined.

(** ** Calls a trial can make *)

Section EmitsOnly.

Context (P : call → bool).

Lemma emits_only_nothing {A} (c : M frame A) :
  (∀ s, trace (c s).2 = trace s) → emits_only P c.
Proof. intros H s. exists []. by rewrite app_nil_r, H. Qed.

Lemma emits_only_ret {A} (a : A) : emits_only P (mret a).
Proof. by apply emits_only_nothing. Qed.

Lemma emits_only_raise {A} e : emits_only P (raise e : M frame A).
Proof. by apply emits_only_nothing. Qed.

Lemma emits_only_lift {A} (r : result A) : emits_only P (lift r).
Proof. by apply emits_only_nothing. Qed.

Lemma emits_only_bind {A B} (c : M frame A) (k : A → M frame B) :
  emits_only P c → (∀ a, emits_only P (k a)) → emits_only P (c ≫= k).
Proof.
  intros Hc Hk s. rewrite bind_run. destruct (Hc s) as (l & Hl & HP).
  destruct (c s) as [[a|e] s1]; cbn in *.
  - destruct (Hk a s1) as (l' & Hl' & HP'). exists (l ++ l')%list.
    rewrite Hl', Hl, app_assoc, forallb_app, HP, HP'. done.
  - by exists l.
Qed.

Lemma emits_only_log_free {A} (c : M frame A) : log_free c → emits_only P c.
Proof.
  intros Hc. apply emits_only_nothing. intros [p t]. by rewrite (Hc p t).
Qed.

Lemma emits_only_emit c : P c = true → emits_only P (emit c).
Proof. intros Hc s. exists [c]. cbn. by rewrite Hc. Qed.

Lemma emits_only_get_trace : emits_only P get_trace.
Proof. by apply emits_only_nothing. Qed.

Lemma emits_only_get_params : emits_only P get_params.
Proof. by apply emits_only_nothing. Qed.

Lemma emits_only_update_params d : emits_only P (update_params d).
Proof. by apply emits_only_nothing. Qed.

Lemma emits_only_del_param k : emits_only P (del_param k).
Proof.
  apply emits_only_nothing. intros s. unfold del_param.
  by destruct (params s !! k).
Qed.

Lemma emits_only_ceil_div n d : emits_only P (ceil_div n d).
Proof.
  apply emits_only_nothing. intros s. by rewrite ceil_div_state.
Qed.

Lemma emits_only_if {A} (b : bool) (c1 c2 : M frame A) :
  emits_only P c1 → emits_only P c2 → emits_only P (if b then c1 else c2).
Proof. by destruct b. Qed.

Lemma emits_only_read_attrs fp names : emits_only P (read_attrs fp names).
Proof.
  induction names as [|n names IH]; cbn [read_attrs].
  - apply emits_only_ret.
  - apply emits_only_bind; [|done].
    apply emits_only_log_free, log_free_attr.
Qed.

End EmitsOnly.

Create HintDb emits_only.
#[local] Hint Resolve emits_only_ret emits_only_raise emits_only_lift
  emits_only_bind emits_only_get_trace emits_only_get_params
  emits_only_update_params emits_only_del_param emits_only_ceil_div
  emits_only_if emits_only_read_attrs : emits_only.
#[local] Hint Extern 1 (emits_only _ (param _)) =>
  apply emits_only_log_free, log_free_param : emits_only.
#[local] Hint Extern 1 (emits_only _ (attr _ _)) =>
  apply emits_only_log_free, log_free_attr : emits_only.
#[local] Hint Extern 1 (emits_only _ (set_param _ _)) =>
  apply emits_only_log_free, log_free_set_param : emits_only.
#[local] Hint Extern 1 (emits_only _ (emit _)) =>
  apply emits_only_emit; reflexivity : emits_only.

Lemma emits_only_recap P fp epochs inference :
  P SaveTxt = true → emits_only P (recap fp epochs inference).
Proof.
  intros HP. unfold recap.
  apply emits_only_bind; [auto with emits_only | intros v].
  apply emits_only_bind.
  { apply emits_only_if; [|apply emits_only_ret].
    apply emits_only_bind; [auto with emits_only | intros _].
    destruct inference; [apply emits_only_ret | apply emits_only_raise]. }
  intros _. apply emits_only_bind.
  { destruct (decide _); [apply emits_only_raise | apply emits_only_ret]. }
  intros _. by apply emits_only_emit.
Qed.

(** Without [check_embedding] a trial never saves a model, writes no
    output file, runs no inference and explores no recommendation, whatever
    recall it reaches and whether or not it returns. *)
Theorem no_exploration_without_check_embedding
    collab cuda fixed_params visualization check_embedding p t :
  Py.truthy check_embedding = false →
  ∃ calls,
    trace (train_body collab cuda fixed_params visualization check_embedding
             (Frame p t)).2 = (t ++ calls)%list ∧
    forallb (λ c, negb (is_exploration c)) calls = true.
Proof.
  intros Hce.
  assert (H : emits_only (λ c, negb (is_exploration c))
                (train_body collab cuda fixed_params visualization
                   check_embedding)).
  { unfold train_body. rewrite Hce.
    apply emits_only_bind;
      [apply emits_only_log_free, log_free_expand_derived | intros _].
    apply emits_only_bind;
      [apply emits_only_log_free, log_free_check_consistency | intros _].
    apply emits_only_bind; [unfold build; auto 80 with emits_only | intros _].
    apply emits_only_bind;
      [unfold fit_and_test, test_metrics; auto 100 with emits_only
      | intros r].
    apply emits_only_bind; [apply emits_only_ret | intros inference].
    apply emits_only_bind; [by apply emits_only_recap | intros _].
    apply emits_only_ret. }
  exact (H (Frame p t)).
Qed.

Lemma no_exploration_without_check_embedding_witness :
  ∃ calls,
    trace (train_body Sample.collab false
             (Sample.FixedParameters (Sample.cli 1 "keep_all"))
             (VInt 1) (VInt 0)
             (Frame (arg_dict SearchableHyperparameters.dimensions
                              SearchableHyperparameters.default_parameters)
                    [])).2 = ([] ++ calls)%list ∧
    forallb (λ c, negb (is_exploration c)) calls = true.
Proof.
  apply (no_exploration_without_check_embedding Sample.collab false
           (Sample.FixedParameters (Sample.cli 1 "keep_all"))
           (VInt 1) (VInt 0)).
  reflexivity.
Defined.

Lemma filter_none {A} (f : A → bool) (l : list A) :
  forallb (λ x, negb (f x)) l = true → List.filter f l = [].
Proof.
  induction l as [|x l IH]; cbn; [done|].
  intros [Hx Hl]%andb_true_iff. apply negb_true_iff in Hx.
  rewrite Hx. by apply IH.
Qed.

Lemma forallb_weaken {A} (f g : A → bool) (l : list A) :
  (∀ x, f x = true → g x = true) →
  forallb f l = true → forallb g l = true.
Proof.
  intros Hfg. induction l as [|x l IH]; cbn; [done|].
  intros [Hx Hl]%andb_true_iff. by rewrite (Hfg x Hx), IH.
Qed.

Lemma emits_only_explore collab fp recall :
  emits_only (λ c, is_exploration c || negb (is_train_model c || is_conv_model c))
    (explore collab fp recall).
Proof. unfold explore. auto 100 with emits_only. Qed.

(** A trial that returns has built one model and trained it once. *)
Theorem returning_trial_trains_once
    collab cuda fixed_params visualization check_embedding p t recall s' :
  train_body collab cuda fixed_params visualization check_embedding
    (Frame p t) = (Ok recall, s') →
  ∃ calls,
    trace s' = (t ++ calls)%list ∧
    length (List.filter is_conv_model calls) = 1%nat ∧
    length (List.filter is_train_model calls) = 1%nat.
Proof.
  intros H.
  apply train_body_Ok in H
    as (s1 & s2 & s3 & s4 & r & inference & Hexpand & Hbuild & Hfit & Hexp
        & Hrecap & _).
  apply expand_derived_Ok in Hexpand
    as (? & ? & ? & ? & ? & ? & ? & ? & _ & _ & _ & _ & _ & _ & _ & _
        & Ht1 & _).
  cbn [trace] in Ht1.
  apply build_Ok in Hbuild
    as (? & ? & ? & ? & ? & ? & ? & ? & ? & ? & ? & ? & ? & _ & _ & Ht2).
  apply fit_and_test_Ok in Hfit. cbn zeta in Hfit.
  destruct Hfit as (? & ? & ? & ? & ? & ? & ? & ? & ? & _ & _ & _ & _ & _
                    & _ & _ & _ & _ & _ & Ht3 & _).
  assert (Hexplored : ∃ l, trace s4 = (trace s3 ++ l)%list ∧
            List.filter is_conv_model l = [] ∧
            List.filter is_train_model l = []).
  { destruct (Py.truthy check_embedding).
    - destruct (emits_only_explore collab fixed_params r.2 s3)
        as (l & Hl & HP).
      rewrite Hexp in Hl. exists l. split; [done|].
      split; apply filter_none; revert HP; apply forallb_weaken;
        by intros [].
    - rewrite ret_run in Hexp. injection Hexp as _ <-.
      exists []. by rewrite app_nil_r. }
  destruct Hexplored as (l & Ht4 & Hlc & Hlt).
  apply recap_Ok in Hrecap as (_ & -> & _). cbn [trace].
  rewrite Ht4, Ht3, Ht2, Ht1. eexists. split.
  - rewrite <- !app_assoc. reflexivity.
  - rewrite !List.filter_app, Hlc, Hlt.
    destruct (Py.truthy visualization); cbn; done.
Qed.

Lemma returning_trial_trains_once_witness :
  let r := train_body Sample.collab false
             (Sample.FixedParameters (Sample.cli 1 "keep_all"))
             (VInt 1) (VInt 0)
             (Frame (arg_dict SearchableHyperparameters.dimensions
                              SearchableHyperparameters.default_parameters)
                    []) in
  ∃ calls,
    trace r.2 = ([] ++ calls)%list ∧
    length (List.filter is_conv_model calls) = 1%nat ∧
    length (List.filter is_train_model calls) = 1%nat.
Proof.
  intros r.
  apply (returning_trial_trains_once Sample.collab false
           (Sample.FixedParameters (Sample.cli 1 "keep_all"))
           (VInt 1) (VInt 0)
           (arg_dict SearchableHyperparameters.dimensions
                     SearchableHyperparameters.default_parameters)
           [] 0.2%float r.2).
  vm_compute. reflexivity.
Defined.

Lemma del_param_Ok k a s s' :
  del_param k s = (Ok a, s') →
  s' = Frame (delete k (params s)) (trace s).
Proof.
  unfold del_param. destruct (params s !! k); [|discriminate].
  by intros [= <- <-].
Qed.

Lemma lift_Ok {S A} (r : result A) a (s s' : S) :
  lift r s = (Ok a, s') → r = Ok a ∧ s' = s.
Proof. by intros [= -> ->]. Qed.

Lemma ret_Ok {S A} (a b : A) (s s' : S) :
  (mret a : M S A) s = (Ok b, s') → b = a ∧ s' = s.
Proof. by intros [= <- <-]. Qed.

(** Decompose every step of a run that returned, branch by branch. *)
Ltac inv_all :=
  repeat match goal with
  | H : (_ ≫= _) _ = (Ok _, _) |- _ =>
      let H1 := fresh "Hstep" in
      apply bind_Ok in H as (? & ? & H1 & H)
  | H : (if ?b then _ else _) _ = (Ok _, _) |- _ => destruct b eqn:?
  | H : mret _ _ = (Ok _, _) |- _ =>
      let Heq := fresh "Hret" in
      apply ret_Ok in H as [Heq ->]; try subst
  | H : param _ _ = (Ok _, _) |- _ => apply param_Ok in H as [H ->]
  | H : attr _ _ _ = (Ok _, _) |- _ => apply attr_Ok in H as [H ->]
  | H : emit _ _ = (Ok _, _) |- _ => apply emit_Ok in H as [_ ->]
  | H : get_params _ = (Ok _, _) |- _ => apply get_params_Ok in H as [-> ->]
  | H : get_trace _ = (Ok _, _) |- _ => apply get_trace_Ok in H as [-> ->]
  | H : del_param _ _ = (Ok _, _) |- _ => apply del_param_Ok in H as ->
  | H : read_attrs _ _ _ = (Ok _, _) |- _ => apply read_attrs_Ok in H as ->
  | H : lift _ _ = (Ok _, _) |- _ => apply lift_Ok in H as [H ->]
  end.

(** The inference never receives twice a keyword it is given explicitly:
    in an exploration that returns, [remove] has been deleted from the
    keyword dictionary before each call of the inference, and the three
    periods before the call that overrides them. *)
Theorem inference_keywords_are_deleted_first collab fixed_params recall
    inference s s' :
  explore collab fixed_params recall s = (Ok inference, s') →
  ∃ calls, trace s' = (trace s ++ calls)%list ∧
           Forall inference_kwargs_ok calls.
Proof.
  intros H. unfold explore in H. inv_all; cbn [params trace] in *.
  all: rewrite <- ?app_assoc; cbn [app].
  all: eexists; (split; [reflexivity|]).
  all: repeat (apply Forall_cons; split; [|]); try apply Forall_nil.
  all: try exact I.
  all: cbn; split; [by simplify_map_eq | intros; by simplify_map_eq].
Qed.

Lemma inference_keywords_are_deleted_first_witness :
  let fp := Sample.inference_params 2 in
  let p := arg_dict SearchableHyperparameters.dimensions
                    SearchableHyperparameters.default_parameters in
  let s := ((expand_derived fp ≫= λ _, build Sample.collab fp ≫= λ _,
             fit_and_test Sample.collab false fp (VInt 0)) (Frame p [])).2 in
  let r := explore Sample.collab fp 0.2%float s in
  (∃ calls, trace r.2 = (trace s ++ calls)%list ∧
            Forall inference_kwargs_ok calls) ∧
  r.1 = Ok (Some 0.1%float).
Proof.
  intros fp p s r. split; [|vm_compute; reflexivity].
  apply (inference_keywords_are_deleted_first Sample.collab fp 0.2%float
           (Some 0.1%float) s r.2).
  vm_compute. reflexivity.
Defined.

(** ** The override of [n_layers] under the partial sampler *)

(** The construction phase leaves in [params] the number of layers the
    model was built with. *)
Lemma build_n_layers collab fp s s' n sampler :
  build collab fp s = (Ok (), s') →
  params s !! "n_layers" = Some n →
  fp !! "neighbor_sampler" = Some sampler →
  params s' !! "n_layers"
  = Some (if Py.eq_str sampler "partial" then VInt 3 else n).
Proof.
  intros H Hn Hs. unfold build in H. inv_run H; cbn [params trace] in *.
  all: apply emit_Ok in H as [_ ->]; cbn [params].
  all: simplify_map_eq.
  all: match goal with H : Py.eq_str _ _ = _ |- _ => rewrite H end.
  all: by simplify_map_eq.
Qed.

(** The exploration deletes four keys from [params] and changes nothing
    else: every inference receives the other entries as they were. *)
Lemma explore_other_keys collab fp recall inference s s' k :
  explore collab fp recall s = (Ok inference, s') →
  k ∉ ["remove"; "days_of_purchases"; "days_of_clicks";
       "lifespan_of_items"] →
  ∃ calls, trace s' = (trace s ++ calls)%list ∧
    ∀ overwrite kw, InferenceFn overwrite kw ∈ calls →
                    kw !! k = params s !! k.
Proof.
  intros H Hk.
  repeat apply not_elem_of_cons in Hk as [? Hk].
  unfold explore in H. inv_all; cbn [params trace] in *.
  all: rewrite <- ?app_assoc; cbn [app].
  all: eexists; (split; [reflexivity|]).
  all: intros ow kw Hin; set_unfold in Hin; destruct_or!; simplify_eq.
  all: by rewrite ?lookup_delete_ne by done.
Qed.

(** C10, counterexample: with the partial sampler, the exploration on and
    the inference asked for, a trial whose searched [n_layers] is [4]
    returns a recall and has called the inference with [n_layers = 3]: the
    override is not for the construction of the model only. *)
Lemma C10_counterexample :
  ¬ (∀ fixed_params visualization check_embedding p t,
       overrides_model_only Sample.collab false fixed_params
         visualization check_embedding p t).
Proof.
  intros Hclaim.
  set (p := arg_dict SearchableHyperparameters.dimensions (Sample.proposal 1)).
  set (r := train_body Sample.collab false Sample.partial_inference_params
              (VInt 0) (VInt 1) (Frame p [])).
  assert (Hrun : r = (Ok 0.2%float, r.2)) by (vm_compute; reflexivity).
  assert (Hcall : ∃ i kw, trace r.2 !! i = Some (InferenceFn false kw) ∧
                          kw !! "n_layers" = Some (VInt 3)).
  { exists 20%nat. vm_compute. eexists. split; reflexivity. }
  destruct Hcall as (i & kw & Hi & Hkw).
  specialize (Hclaim Sample.partial_inference_params (VInt 0) (VInt 1) p []
                (0.2%float) r.2 (VInt 4) Hrun eq_refl
                (InferenceFn false kw) (VInt 3)).
  discriminate Hclaim; [|exact Hkw].
  cbn [length drop]. by eapply list_elem_of_lookup_2.
Qed.

(** C10, amended: in a trial that returns, the graph features and the data
    loaders are given the searched [n_layers]; the model is built afterwards
    with [3] when [fixed_params.neighbor_sampler] is ['partial'] and with
    the searched [n_layers] for every other sampler.  The override is written
    into [params] and stays there: every later call of the inference
    receives the number of layers of the model through the keyword
    dictionary (or the attribute [n_layers] of [fixed_params], if it has
    one, which [hp_sentence.update] puts in its place). *)
Theorem C10_partial_sampler_overrides_model_layers
    collab cuda fixed_params visualization check_embedding p t recall s' :
  train_body collab cuda fixed_params visualization check_embedding
    (Frame p t) = (Ok recall, s') →
  ∃ n_layers sampler kwargs cs ps el ns dim_o dim_h norm dropout agg pred ah
    rest,
    p !! "n_layers" = Some n_layers ∧
    fixed_params !! "neighbor_sampler" = Some sampler ∧
    let model_layers :=
      if Py.eq_str sampler "partial" then VInt 3 else n_layers in
    trace s' = (t ++
      [ CreateGraph; AssignGraphFeatures kwargs; TrainValidSplit cs ps;
        GenerateDataloaders el n_layers ns;
        ConvModel model_layers dim_o dim_h norm dropout agg pred ah el ]
      ++ rest)%list ∧
    kwargs !! "n_layers" = Some n_layers ∧
    ∀ overwrite kw,
      InferenceFn overwrite kw ∈ rest →
      kw !! "n_layers"
      = Some (default model_layers (fixed_params !! "n_layers")).
Proof.
  intros H.
  apply train_body_Ok in H
    as (s1 & s2 & s3 & s4 & r & inference & Hexpand & Hbuild & Hfit & Hexp
        & Hrecap & _).
  apply expand_derived_Ok in Hexpand
    as (e & q & d & vo & vh & vu & vw & vd & _ & _ & _ & _ & _
        & _ & _ & _ & Ht & Hp).
  cbn [params trace] in *.
  pose proof (build_Ok _ _ _ _ Hbuild)
    as (n_layers & sampler & cs & ps & el & ns & dim_o & dim_h & norm
        & dropout & agg & pred & ah & Hn & Hs & Hbuilt).
  pose proof (build_n_layers _ _ _ _ _ _ Hbuild Hn Hs) as Hmodel.
  assert (Hraw : p !! "n_layers" = Some n_layers).
  { destruct (Py.eq_str d "count_occurrence").
    - destruct Hp as (a & _ & Hp). rewrite Hp in Hn.
      by rewrite !lookup_insert_ne in Hn by done.
    - rewrite Hp in Hn. by rewrite !lookup_insert_ne in Hn by done. }
  apply fit_and_test_Ok in Hfit
    as (delta & ns' & ur & lr & od & pred' & up & wp & el' & _ & _ & _ & _
        & _ & _ & _ & _ & _ & Hparams & Hfitted & _).
  cbn zeta in Hfitted.
  assert (Hkept : params s3 !! "n_layers"
                  = Some (default
                            (if Py.eq_str sampler "partial"
                             then VInt 3 else n_layers)
                            (fixed_params !! "n_layers"))).
  { rewrite Hparams. rewrite lookup_union_r by done.
    destruct (fixed_params !! "n_layers") as [v|] eqn:Hv; cbn.
    - by apply lookup_union_Some_l.
    - by rewrite lookup_union_r. }
  assert (Hexplored : ∃ calls,
            trace s4 = (trace s3 ++ calls)%list ∧
            ∀ overwrite kw, InferenceFn overwrite kw ∈ calls →
                            kw !! "n_layers" = params s3 !! "n_layers").
  { destruct (Py.truthy check_embedding).
    - eapply explore_other_keys; [exact Hexp|].
      repeat (apply not_elem_of_cons; split; [done|]).
      apply not_elem_of_nil.
    - rewrite ret_run in Hexp. injection Hexp as _ <-.
      exists []. split; [by rewrite app_nil_r | by inversion 1]. }
  destruct Hexplored as (calls & Hexplored & Hcalls).
  apply recap_Ok in Hrecap as (_ & -> & _). cbn [trace].
  eexists n_layers, sampler, (params s1), cs, ps, el, ns, dim_o, dim_h, norm,
    dropout, agg, pred, ah, _.
  split; [done|]. split; [done|]. cbn zeta. split; [|split].
  - rewrite Hexplored, Hfitted, Hbuilt, Ht.
    rewrite <- !app_assoc. cbn [app]. reflexivity.
  - done.
  - intros overwrite kw Hin. rewrite <- Hkept.
    apply (Hcalls overwrite). set_unfold in Hin.
    destruct (Py.truthy visualization); set_unfold in Hin;
      destruct_or!; by simplify_eq.
Qed.

Lemma C10_partial_sampler_overrides_model_layers_witness :
  let fp := Sample.partial_inference_params in
  let p := arg_dict SearchableHyperparameters.dimensions
                    (Sample.proposal 1) in
  let r := train_body Sample.collab false fp (VInt 0) (VInt 1) (Frame p []) in
  (∃ n_layers sampler kwargs cs ps el ns dim_o dim_h norm dropout agg pred ah
     rest,
     p !! "n_layers" = Some n_layers ∧
     fp !! "neighbor_sampler" = Some sampler ∧
     let model_layers :=
       if Py.eq_str sampler "partial" then VInt 3 else n_layers in
     trace r.2 = ([] ++
       [ CreateGraph; AssignGraphFeatures kwargs; TrainValidSplit cs ps;
         GenerateDataloaders el n_layers ns;
         ConvModel model_layers dim_o dim_h norm dropout agg pred ah el ]
       ++ rest)%list ∧
     kwargs !! "n_layers" = Some n_layers ∧
     ∀ overwrite kw,
       InferenceFn overwrite kw ∈ rest →
       kw !! "n_layers"
       = Some (default model_layers (fp !! "n_layers"))) ∧
  r.1 = Ok 0.2%float ∧
  trace r.2 !! 3%nat
    = Some (GenerateDataloaders (VBool true) (VInt 4) (VInt 1000)) ∧
  trace r.2 !! 4%nat
    = Some (ConvModel (VInt 3) (VInt 96) (VInt 192) (VBool false)
              (VFloat 0.1) (VStr "pool_nn") (VStr "cos") (VStr "mean")
              (VBool true)).
Proof.
  intros fp p r. split; [|split; [|split]; vm_compute; reflexivity].
  apply (C10_partial_sampler_overrides_model_layers
           Sample.collab false fp (VInt 0) (VInt 1) p [] 0.2%float r.2).
  vm_compute. reflexivity.
Defined.

(** ** Resuming from a checkpoint that cannot be used *)

Section ResumeErrors.

Import Skopt.

Context (collab : collaborators) (cuda : bool).
Context {rng : Type}.
Context (seed : Z → rng).
Context (rvs : rng → point * rng).
Context (acquire : list point → list float → rng → point * rng).
Context (FixedParameters : options → gmap string value).

Lemma base_minimize_resume_malformed {W} (func : point → M W float) space
    n_calls (xs : list point) (ys : list float) g s :
  ¬ (xs ≠ [] ∧ length xs = length ys ∧
     forallb (Space.point_in space) xs = true) →
  ∃ e,
    base_minimize rvs acquire space func n_calls (- Z.of_nat (length xs))
      (X0_nested xs) (Some ys) g s = (Raise e, s).
Proof.
  intros Hbad. unfold base_minimize.
  destruct xs as [|x xs]; [exists IndexError; reflexivity|].
  rewrite bind_run, ret_run.
  rewrite bool_decide_eq_false_2, andb_false_r by done.
  rewrite bind_run, ret_run.
  destruct (n_calls <? _); [exists ValueError; reflexivity|]. rewrite bind_run, ret_run.
  rewrite bind_run. unfold lift at 1, Optimizer_init.
  destruct (_ <? 0); [exists ValueError; reflexivity|].
  destruct (forallb (λ p, bool_decide _) _);
    [|exists RuntimeError; reflexivity].
  rewrite bind_run, ret_run. rewrite bind_run, ret_run. cbn [fst snd].
  destruct (decide _) as [Hlen|]; [|exists ValueError; reflexivity].
  rewrite bind_run. unfold lift at 1.
  match goal with
  | |- context [Skopt.tell_many _ _ ?o ?xs ?ys] =>
      pose proof (tell_many_spec acquire space o xs ys) as Htell
  end.
  destruct (forallb (Space.point_in space) (x :: xs)) eqn:Hin.
  - destruct Hbad. done.
  - destruct Htell as [e ->]. exists e. reflexivity.
Qed.

(** A resume error is fatal at startup.  When the checkpoint cannot be
    loaded, or is loaded but is empty, has not one objective value per
    point, or holds a point outside the declared space, [main] raises
    before any trial is run. *)
Theorem unusable_checkpoint_runs_no_trial o checkpoint s :
  from_beginning o = 0 →
  match checkpoint with
  | Raise _ => True
  | Ok res => ¬ well_formed res
  end →
  let r := main collab cuda seed rvs acquire FixedParameters o checkpoint s in
  (∃ e, r.1 = Raise e) ∧
  evaluated r.2 = evaluated s ∧
  log (world r.2) = log (world s).
Proof.
  intros Hresume Hbad. destruct checkpoint as [res|e].
  - cbn zeta. rewrite main_resume by done.
    unfold gp_minimize. cbn [default].
    edestruct (base_minimize_resume_malformed (fitness collab cuda)
                 SearchableHyperparameters.dimensions 200
                 (x_iters res) (func_vals res)) as [e He]; [exact Hbad|].
    rewrite He. cbn. eauto.
  - cbn zeta. unfold main. rewrite bind_run. cbn. rewrite Hresume. cbn.
    eauto.
Qed.

End ResumeErrors.

Lemma unusable_checkpoint_runs_no_trial_witness :
  let r := Sample.run_main (Sample.cli 0 "keep_all")
             (Ok Sample.damaged_checkpoint) in
  (∃ e, r.1 = Raise e) ∧
  Skopt.evaluated r.2 = [] ∧
  log (Skopt.world r.2) = [].
Proof.
  intros r.
  apply (unusable_checkpoint_runs_no_trial Sample.collab false (λ z, z)
           Sample.rvs Sample.acquire Sample.FixedParameters
           (Sample.cli 0 "keep_all") (Ok Sample.damaged_checkpoint)
           Sample.start).
  - reflexivity.
  - intros (_ & _ & Hin). vm_compute in Hin. discriminate Hin.
Defined.

(** ** The popularity bucket *)

Lemma popularity_tables q vu vw vd :
  Py.getitem use_popularity q = Some vu →
  Py.getitem weight_popularity q = Some vw →
  Py.getitem days_popularity q = Some vd →
  vu = VBool (negb (Py.eq_str q "No")) ∧
  (Py.eq_str q "No" = false →
   vd = VInt 7 ∧
   ∃ w, vw = VFloat w ∧ w ∈ [0.01; 0.05; 0.1]%float).
Proof.
  destruct q as [s| | |]; try discriminate.
  unfold use_popularity, weight_popularity, days_popularity, Py.eq_str.
  cbn [Py.getitem Py.eqb]. rewrite (String.eqb_sym s "No").
  repeat match goal with
         | |- context [String.eqb ?k s] => destruct (String.eqb k s)
         end;
    intros; simplify_eq; (split; [done|]); intros; try done;
    (split; [done|]); eexists; (split; [done|]); set_solver.
Qed.

(** The popularity score is switched off for the bucket ['No'] only;
    every other bucket switches it on with a window of seven days and a
    weight of 0.01, 0.05 or 0.1. *)
Theorem expansion_enables_popularity_unless_no fixed_params s s' q :
  expand_derived fixed_params s = (Ok (), s') →
  params s !! "popularity_importance" = Some q →
  params s' !! "use_popularity" = Some (VBool (negb (Py.eq_str q "No"))) ∧
  (Py.eq_str q "No" = false →
   params s' !! "days_popularity" = Some (VInt 7) ∧
   ∃ w, params s' !! "weight_popularity" = Some (VFloat w) ∧
        w ∈ [0.01; 0.05; 0.1]%float).
Proof.
  intros H Hq.
  apply expand_derived_Ok in H
    as (e & q' & d & vo & vh & vu & vw & vd & _ & Hq' & _ & _ & _
        & Hvu & Hvw & Hvd & _ & H).
  rewrite Hq in Hq'. injection Hq' as <-.
  destruct (popularity_tables q vu vw vd Hvu Hvw Hvd) as [-> Hon].
  cbn zeta in H.
  assert (Hkeys : params s' !! "use_popularity"
                    = Some (VBool (negb (Py.eq_str q "No"))) ∧
                  params s' !! "weight_popularity" = Some vw ∧
                  params s' !! "days_popularity" = Some vd).
  { destruct (Py.eq_str d "count_occurrence").
    - destruct H as (a & _ & ->). by simplify_map_eq.
    - rewrite H. by simplify_map_eq. }
  destruct Hkeys as (Hu & Hw & Hd). split; [done|].
  intros Hno. destruct (Hon Hno) as (-> & w & -> & Hin). eauto.
Qed.

Lemma expansion_enables_popularity_unless_no_witness :
  let s := Frame (arg_dict SearchableHyperparameters.dimensions
                           (Sample.proposal 0)) [] in
  let fp := Sample.FixedParameters (Sample.cli 1 "keep_all") in
  let s' := (expand_derived fp s).2 in
  params s' !! "use_popularity" = Some (VBool true) ∧
  (Py.eq_str (VStr "Large") "No" = false →
   params s' !! "days_popularity" = Some (VInt 7) ∧
   ∃ w, params s' !! "weight_popularity" = Some (VFloat w) ∧
        w ∈ [0.01; 0.05; 0.1]%float).
Proof.
  intros s fp s'.
  apply (expansion_enables_popularity_unless_no fp s s' (VStr "Large")).
  - vm_compute. reflexivity.
  - vm_compute. reflexivity.
Defined.

(** ** The observations a search returns *)

Section Observations.

Import Skopt.

Context {W rng : Type}.
Context (rvs : rng → point * rng).
Context (acquire : list point → list float → rng → point * rng).
Context (space : list dimension).
Context (func : point → M W float).

Lemma observations_ok_fit o :
  observations_ok space o → observations_ok space (Skopt.fit acquire o).
Proof.
  unfold observations_ok. by rewrite fit_Xi, fit_yi.
Qed.

Lemma optimize_Ok_observations n : ∀ o s o' s',
  Skopt.optimize rvs acquire space func n o s = (Ok o', s') →
  observations_ok space o →
  observations_ok space o' ∧ ∃ X, Xi o' = (Xi o ++ X)%list.
Proof.
  induction n as [|n IH]; intros o s o' s' H Hok; cbn [Skopt.optimize] in H.
  { rewrite ret_run in H. injection H as <- <-.
    split; [done|]. exists []. by rewrite app_nil_r. }
  apply bind_Ok in H as ([[src x] o1] & s1 & Hask & H).
  apply lift_Ok in Hask as [Hask ->].
  apply bind_Ok in H as (y & s2 & _ & H).
  apply bind_Ok in H as (o2 & s3 & Htell & H).
  apply lift_Ok in Htell as [Htell ->]. cbn [fst snd] in *.
  assert (Ho1 : Xi o1 = Xi o ∧ yi o1 = yi o).
  { unfold Skopt.ask in Hask. destruct (0 <? _).
    - by injection Hask as _ _ <-.
    - destruct (_next_x o); [|done]. by injection Hask as _ _ <-. }
  destruct Ho1 as [HXi Hyi].
  pose proof (tell_spec acquire space o1 x y) as Hspec.
  destruct (Space.point_in space x) eqn:Hin;
    [|destruct Hspec as [e He]; congruence].
  rewrite Hspec in Htell.
  injection Htell as <-. destruct Hok as [Hall Hlen].
  apply IH in H as [Hok' [X HX]].
  - split; [done|]. rewrite fit_Xi in HX. cbn in HX.
    exists (x :: X). by rewrite HX, HXi, <- app_assoc.
  - apply observations_ok_fit. split; cbn.
    + rewrite HXi. apply Forall_app. split; [done|]. by constructor.
    + rewrite !length_app, HXi, Hyi, Hlen. done.
Qed.

(** Whatever its arguments, a search that returns gives back points of
    the space, one objective value per point, beginning with the points it
    was given. *)
Lemma base_minimize_Ok n_calls n_initial_points x0 y0 g s res s' :
  base_minimize rvs acquire space func n_calls n_initial_points x0 y0 g s
    = (Ok res, s') →
  Forall (λ x, Space.point_in space x = true) (x_iters res) ∧
  length (x_iters res) = length (func_vals res) ∧
  ∃ X, x_iters res = (x0_points x0 ++ X)%list.
Proof.
  intros H. unfold base_minimize in H.
  apply bind_Ok in H as (xs & s1 & Hx0 & H).
  assert (Hxs : xs = x0_points x0 ∧ s1 = s).
  { destruct x0 as [|[|v x]|[|x xs']]; try discriminate Hx0;
      by injection Hx0 as <- <-. }
  destruct Hxs as [-> ->]. clear Hx0.
  apply bind_Ok in H as ([] & s1 & _ & H).
  apply bind_Ok in H as ([] & s2 & _ & H).
  apply bind_Ok in H as (o & s3 & Hinit & H).
  apply lift_Ok in Hinit as [Hinit ->].
  apply bind_Ok in H as ([] & s4 & _ & H).
  apply bind_Ok in H as (yn & s5 & _ & H).
  apply bind_Ok in H as (o1 & s6 & Htold & H).
  apply bind_Ok in H as (o2 & s7 & Hopt & H).
  rewrite ret_run in H. injection H as <- <-. cbn [x_iters func_vals].
  unfold Optimizer_init in Hinit. destruct (_ <? 0); [done|].
  injection Hinit as <-.
  assert (Ho1 : observations_ok space o1 ∧ Xi o1 = x0_points x0).
  { destruct (x0_points x0) as [|x xs] eqn:Hx0.
    - rewrite ret_run in Htold. injection Htold as <- <-.
      split; [|done]. split; [constructor | done].
    - destruct (decide _) as [Hlen|]; [|done].
      apply lift_Ok in Htold as [Htold _].
      match type of Htold with
      | Skopt.tell_many _ _ ?o ?xs ?ys = _ =>
          pose proof (tell_many_spec acquire space o xs ys) as Hspec
      end.
      destruct (forallb (Space.point_in space) _) eqn:Hin;
        [|destruct Hspec as [e He]; congruence].
      rewrite Hspec in Htold. injection Htold as <-.
      rewrite fit_Xi. cbn. split; [|done].
      apply observations_ok_fit. split; cbn; [|done].
      apply Forall_forall. intros p Hp. rewrite forallb_forall in Hin.
      apply Hin. by apply list_elem_of_In. }
  destruct Ho1 as [Hok1 HXi1].
  apply optimize_Ok_observations in Hopt as [[Hall Hlen] [X HX]]; [|done].
  split; [done|]. split; [done|]. exists X. by rewrite HX, HXi1.
Qed.

End Observations.

(** A search that completes can be resumed: the result [main] returns,
    on a fresh start as on a resume, is a well-formed checkpoint (it is not
    empty, has one objective value per point, and all its points lie in
    the declared space). *)
Theorem completed_search_is_a_well_formed_checkpoint
    collab cuda {rng} (seed : Z → rng) rvs acquire FixedParameters
    o checkpoint s res s' :
  main collab cuda seed rvs acquire FixedParameters o checkpoint s
    = (Ok res, s') →
  well_formed res.
Proof.
  intros H.
  assert (Hres : ∃ x0 : Skopt.x0_arg,
            x0_points x0 ≠ [] ∧
            Forall (λ x, Space.point_in SearchableHyperparameters.dimensions x
                         = true) (Skopt.x_iters res) ∧
            length (Skopt.x_iters res) = length (Skopt.func_vals res) ∧
            ∃ X, Skopt.x_iters res = (x0_points x0 ++ X)%list).
  { destruct (decide (from_beginning o = 0)) as [Hresume|Hfresh].
    - destruct checkpoint as [loaded|e].
      + rewrite main_resume in H by done. unfold Skopt.gp_minimize in H.
        cbn [default] in H.
        exists (Skopt.X0_nested (Skopt.x_iters loaded)).
        split; [|by eapply base_minimize_Ok].
        intros Hnil. cbn in Hnil. rewrite Hnil in H.
        unfold Skopt.base_minimize in H. rewrite bind_run in H.
        discriminate H.
      + unfold main in H. rewrite bind_run in H. cbn in H.
        rewrite Hresume in H. discriminate H.
    - rewrite main_fresh in H by done. unfold Skopt.gp_minimize in H.
      cbn [default] in H.
      exists (Skopt.X0_flat SearchableHyperparameters.default_parameters).
      split; [done|]. by eapply base_minimize_Ok. }
  destruct Hres as (x0 & Hne & Hall & Hlen & X & HX).
  split; [|split; [done|]].
  - rewrite HX. by destruct (x0_points x0).
  - apply forallb_forall. intros p Hp.
    rewrite Forall_forall in Hall. apply Hall. by apply list_elem_of_In.
Qed.

(** A fresh search whose trials all return completes. *)
Lemma main_fresh_returns collab cuda {rng} (seed : Z → rng) rvs acquire
    FixedParameters o checkpoint s :
  from_beginning o ≠ 0 →
  trial_returns collab cuda (main_context FixedParameters o)
    SearchableHyperparameters.default_parameters →
  (∀ g, trial_returns collab cuda (main_context FixedParameters o)
          (rvs g).1) →
  (∀ X Y g, trial_returns collab cuda (main_context FixedParameters o)
              (acquire X Y g).1) →
  ∃ res s',
    main collab cuda seed rvs acquire FixedParameters o checkpoint s
    = (Ok res, s').
Proof.
  intros Hfresh Hdefault Hrvs Hacq. rewrite main_fresh by done.
  unfold Skopt.gp_minimize. cbn [default].
  set (c := main_context FixedParameters o) in *.
  destruct (base_minimize_fresh_total rvs acquire
              SearchableHyperparameters.dimensions (fitness collab cuda)
              (λ w, fitness_params w = Some c) (trial_returns collab cuda c)
              (trial_returns_good collab cuda c) Hacq 200 10
              SearchableHyperparameters.default_parameters (seed 46)
              (Skopt.Run (Process (Some c) (log (Skopt.world s)))
                         (Skopt.evaluated s)))
    as (res & s' & Hrun & _); try done.
  by exists res, s'.
Qed.

Lemma completed_search_is_a_well_formed_checkpoint_witness :
  ∃ res,
    (main Sample.collab false (λ z, z) Sample.rvs Sample.acquire
       Sample.FixedParameters (Sample.cli 1 "keep_all") (Raise ValueError)
       Sample.start).1 = Ok res ∧
    well_formed res.
Proof.
  destruct (main_fresh_returns Sample.collab false (λ z, z) Sample.rvs
              Sample.acquire Sample.FixedParameters
              (Sample.cli 1 "keep_all") (Raise ValueError) Sample.start)
    as (res & s' & Hmain).
  - discriminate.
  - apply sample_default_returns.
  - intros g. apply sample_proposal_returns.
  - intros X Y g. apply sample_proposal_returns.
  - exists res. split; [by rewrite Hmain|].
    exact (completed_search_is_a_well_formed_checkpoint _ _ _ _ _ _ _ _ _ _ _
             Hmain).
Defined.

(** ** The order of the dimensions *)

Lemma ascii_compare_Eq a b : Ascii.compare a b = Eq → a = b.
Proof.
  unfold Ascii.compare. intros H%N.compare_eq_iff.
  rewrite <- (Ascii.ascii_N_embedding a), <- (Ascii.ascii_N_embedding b).
  by rewrite H.
Qed.

Lemma ascii_compare_Lt_trans a b c :
  Ascii.compare a b = Lt → Ascii.compare b c = Lt → Ascii.compare a c = Lt.
Proof.
  unfold Ascii.compare. rewrite !N.compare_lt_iff. lia.
Qed.

Lemma string_leb_compare s1 s2 :
  String.leb s1 s2 = true ↔ String.compare s1 s2 ≠ Gt.
Proof.
  unfold String.leb. destruct (String.compare s1 s2); naive_solver.
Qed.

Lemma string_compare_trans s1 : ∀ s2 s3,
  String.compare s1 s2 ≠ Gt → String.compare s2 s3 ≠ Gt →
  String.compare s1 s3 ≠ Gt.
Proof.
  induction s1 as [|a s1 IH]; intros [|b s2] [|c s3]; cbn; try done.
  destruct (Ascii.compare a b) eqn:Hab; [| |done].
  - apply ascii_compare_Eq in Hab as ->.
    destruct (Ascii.compare b c); [apply IH | done | done].
  - destruct (Ascii.compare b c) eqn:Hbc; [| |done].
    + apply ascii_compare_Eq in Hbc as <-. by rewrite Hab.
    + by rewrite (ascii_compare_Lt_trans a b c).
Qed.

#[local] Instance string_le_trans : Transitive string_le.
Proof.
  intros s1 s2 s3. unfold string_le. rewrite !string_leb_compare.
  apply string_compare_trans.
Qed.

#[local] Instance string_le_antisym : AntiSymm eq string_le.
Proof. intros s1 s2. apply String.leb_antisym. Qed.

Lemma insert_sorted_Permutation s l :
  SearchableHyperparameters.insert_sorted s l ≡ₚ s :: l.
Proof.
  induction l as [|t l IH]; cbn; [done|].
  destruct (String.leb s t); [done|]. by rewrite IH, Permutation_swap.
Qed.

Lemma insert_sorted_StronglySorted s l :
  StronglySorted string_le l →
  StronglySorted string_le (SearchableHyperparameters.insert_sorted s l).
Proof.
  induction 1 as [|t l Hl IH Ht]; cbn; [by repeat constructor|].
  destruct (String.leb s t) eqn:Hst.
  - constructor; [by constructor|]. constructor; [done|].
    eapply Forall_impl; [exact Ht|]. intros u Hu. by transitivity t.
  - constructor; [done|].
    rewrite insert_sorted_Permutation. constructor; [|done].
    destruct (String.leb_total s t) as [H|H]; [congruence | done].
Qed.

Lemma sorted_Permutation l : SearchableHyperparameters.sorted l ≡ₚ l.
Proof.
  induction l as [|s l IH]; cbn; [done|].
  by rewrite insert_sorted_Permutation, IH.
Qed.

Lemma sorted_StronglySorted l :
  StronglySorted string_le (SearchableHyperparameters.sorted l).
Proof.
  induction l as [|s l IH]; cbn; [constructor|].
  by apply insert_sorted_StronglySorted.
Qed.

(** [sorted] gives the same list for every arrangement of its input. *)
Lemma sorted_unique l l' :
  l ≡ₚ l' →
  SearchableHyperparameters.sorted l = SearchableHyperparameters.sorted l'.
Proof.
  intros Hp. apply (StronglySorted_unique string_le);
    [apply sorted_StronglySorted..|].
  by rewrite !sorted_Permutation.
Qed.

Lemma getattribute_Some attrs k d :
  NoDup (fst <$> attrs) →
  SearchableHyperparameters.getattribute attrs k = Some d ↔ (k, d) ∈ attrs.
Proof.
  induction attrs as [|[n d'] attrs IH]; cbn; intros Hnd.
  { split; [done | by intros ?%elem_of_nil]. }
  apply NoDup_cons in Hnd as [Hn Hnd].
  rewrite elem_of_cons. destruct (String.eqb_spec n k) as [->|Hne].
  - split; [intros [= ->]; by left|].
    intros [[= ->]|Hin]; [done|]. destruct Hn.
    apply list_elem_of_fmap. by exists (k, d).
  - rewrite IH by done. split; [by right|].
    intros [[= -> ->]|Hin]; done.
Qed.

Lemma getattribute_Permutation attrs attrs' k :
  NoDup (fst <$> attrs) → attrs ≡ₚ attrs' →
  SearchableHyperparameters.getattribute attrs k
  = SearchableHyperparameters.getattribute attrs' k.
Proof.
  intros Hnd Hp.
  assert (Hnd' : NoDup (fst <$> attrs')) by (by rewrite <- Hp).
  apply option_eq. intros d.
  rewrite !getattribute_Some by done. by rewrite Hp.
Qed.

Lemma omap_ext' {A B} (f g : A → option B) (l : list A) :
  (∀ x, f x = g x) → omap f l = omap g l.
Proof.
  intros Hfg. induction l as [|x l IH]; cbn; [done|].
  by rewrite Hfg, IH.
Qed.

(** The dimension list does not depend on the order in which [__init__]
    assigns the attributes: assembled from any arrangement of the declared
    attributes it is the same list, in the alphabetical order of the
    names. *)
Theorem dimension_order_ignores_assignment_order attrs :
  attrs ≡ₚ SearchableHyperparameters.attributes →
  assemble attrs = SearchableHyperparameters.dimensions.
Proof.
  intros Hp. change SearchableHyperparameters.dimensions
    with (assemble SearchableHyperparameters.attributes).
  unfold assemble.
  assert (Hnd : NoDup (fst <$> attrs)).
  { rewrite Hp. apply (bool_decide_unpack _). by vm_compute. }
  rewrite (sorted_unique _
             (SearchableHyperparameters.inherited_names ++
              (fst <$> SearchableHyperparameters.attributes)))
    by (by rewrite Hp).
  apply omap_ext'. intros k. by apply getattribute_Permutation.
Qed.

Lemma dimension_order_ignores_assignment_order_witness :
  assemble (reverse SearchableHyperparameters.attributes)
  = SearchableHyperparameters.dimensions.
Proof.
  apply (dimension_order_ignores_assignment_order
           (reverse SearchableHyperparameters.attributes)).
  apply reverse_Permutation.
Defined.

(** ** Batch sizes *)

Lemma ceil_div_nonzero {S} n d a (s s' : S) :
  ceil_div n d s = (Ok a, s') → Py.eq_int d 0 = false.
Proof.
  unfold ceil_div, lift. destruct d as [t|f|z|b]; try discriminate.
  - unfold mbind, M_bind. destruct (Py.float_of_int _); [|discriminate].
    by destruct (Py.eq_int _ 0).
  - unfold Py.int_truediv_check. cbn [Py.eq_int].
    by destruct (z =? 0).
  - unfold Py.int_truediv_check. cbn [Py.eq_int].
    by destruct (Z.b2z b =? 0).
Qed.

(** The numbers of batches are computed by dividing by the two batch
    sizes of [fixed_params]: when either is zero no trial returns a recall
    (the division fails once the graph, the split and the loaders are
    built). *)
Theorem zero_batch_size_never_returns
    collab cuda fixed_params visualization check_embedding p t k d :
  k ∈ ["edge_batch_size"; "node_batch_size"] →
  fixed_params !! k = Some d →
  Py.eq_int d 0 = true →
  ∀ recall,
    (train_body collab cuda fixed_params visualization check_embedding
       (Frame p t)).1 ≠ Ok recall.
Proof.
  intros Hk Hd Hzero recall Hok.
  destruct (train_body collab cuda fixed_params visualization
              check_embedding (Frame p t)) as [r s'] eqn:Hrun.
  cbn in Hok. subst r.
  apply train_body_Ok in Hrun
    as (s1 & s2 & s3 & s4 & r & inference & _ & Hbuild & _).
  assert (Hnz : ∀ k', k' ∈ ["edge_batch_size"; "node_batch_size"] →
            ∃ d', fixed_params !! k' = Some d' ∧ Py.eq_int d' 0 = false).
  { unfold build in Hbuild. inv_all.
    all: repeat match goal with
         | H : ceil_div _ _ _ = (Ok _, _) |- _ => apply ceil_div_nonzero in H
         end.
    all: intros k' Hk'; set_unfold in Hk'; destruct_or!; subst; eauto. }
  destruct (Hnz k Hk) as (d' & Hd' & Hnz').
  rewrite Hd in Hd'. injection Hd' as <-. congruence.
Qed.

Lemma zero_batch_size_never_returns_witness :
  let r := train_body Sample.collab false
             (<["edge_batch_size" := VInt 0]>
                (Sample.FixedParameters (Sample.cli 1 "keep_all")))
             (VInt 0) (VInt 0)
             (Frame (arg_dict SearchableHyperparameters.dimensions
                              SearchableHyperparameters.default_parameters)
                    []) in
  r.1 ≠ Ok 0.2%float ∧ r.1 = Raise ZeroDivisionError.
Proof.
  intros r. split; [|vm_compute; reflexivity].
  apply (zero_batch_size_never_returns Sample.collab false _ (VInt 0)
           (VInt 0) _ [] "edge_batch_size" (VInt 0)).
  - left.
  - vm_compute. reflexivity.
  - reflexivity.
Defined.

(** ** The aggregator the model is built with *)

Lemma build_conv_model collab fp s s' :
  build collab fp s = (Ok (), s') →
  ∃ n_layers dim_o dim_h norm dropout agg pred ah el,
    params s !! "aggregator_type" = Some agg ∧
    params s !! "aggregator_hetero" = Some ah ∧
    ConvModel n_layers dim_o dim_h norm dropout agg pred ah el ∈ trace s'.
Proof.
  intros H. unfold build in H. inv_run H; cbn [params trace] in *.
  all: apply emit_Ok in H as [_ ->]; cbn [trace].
  all: rewrite ?lookup_insert_ne in * by done.
  all: eexists _, _, _, _, _, _, _, _, _.
  all: split; [eassumption|]; split; [eassumption|].
  all: apply elem_of_app; right; apply list_elem_of_singleton; reflexivity.
Qed.

(** The model of a returning trial is built with the searched aggregator
    followed by ['_edge'] in counting mode, and with the searched
    aggregator itself in every other mode. *)
Theorem model_gets_edge_aggregator_in_counting_mode
    collab cuda fixed_params visualization check_embedding p t recall s' a d :
  train_body collab cuda fixed_params visualization check_embedding
    (Frame p t) = (Ok recall, s') →
  p !! "aggregator_type" = Some (VStr a) →
  fixed_params !! "duplicates" = Some d →
  ∃ c, c ∈ trace s' ∧
       conv_model_aggregator c
       = Some (VStr (if Py.eq_str d "count_occurrence"
                     then a +:+ "_edge" else a)).
Proof.
  intros H Ha Hd.
  apply train_body_Ok in H
    as (s1 & s2 & s3 & s4 & r & inference & Hexpand & Hbuild & Hfit & Hexp
        & Hrecap & _).
  apply build_conv_model in Hbuild
    as (nl & dim_o & dim_h & norm & dropout & agg & pred & ah & el & Hagg
        & _ & Hin).
  apply expand_derived_Ok in Hexpand
    as (e & q & d' & vo & vh & vu & vw & vd & _ & _ & Hd' & _ & _
        & _ & _ & _ & _ & Hp).
  cbn [params] in Hp. rewrite Hd in Hd'. injection Hd' as <-.
  assert (Hval : agg = VStr (if Py.eq_str d "count_occurrence"
                             then a +:+ "_edge" else a)).
  { destruct (Py.eq_str d "count_occurrence").
    - destruct Hp as (a0 & Ha0 & Hp). rewrite Ha in Ha0. injection Ha0 as <-.
      rewrite Hp, lookup_insert_eq in Hagg. by injection Hagg as <-.
    - rewrite Hp in Hagg. rewrite !lookup_insert_ne in Hagg by done.
      rewrite Ha in Hagg. by injection Hagg as <-. }
  subst agg.
  assert (Hgrow : ∃ l, trace s' = (trace s2 ++ l)%list).
  { apply recap_Ok in Hrecap as (_ & -> & _). cbn [trace].
    destruct (appends_fit_and_test collab cuda fixed_params visualization s2)
      as [l1 Hl1].
    rewrite Hfit in Hl1. cbn in Hl1.
    assert (Hl2 : ∃ l2, trace s4 = (trace s3 ++ l2)%list).
    { destruct (Py.truthy check_embedding).
      - destruct (appends_explore collab fixed_params r.2 s3) as [l2 Hl2].
        rewrite Hexp in Hl2. by exists l2.
      - rewrite ret_run in Hexp. injection Hexp as _ <-.
        exists []. by rewrite app_nil_r. }
    destruct Hl2 as [l2 Hl2]. rewrite Hl2, Hl1.
    exists (l1 ++ l2 ++ [SaveTxt])%list. by rewrite <- !app_assoc. }
  destruct Hgrow as [l ->].
  eexists. split; [apply elem_of_app; left; exact Hin | reflexivity].
Qed.

Lemma model_gets_edge_aggregator_in_counting_mode_witness :
  let p := arg_dict SearchableHyperparameters.dimensions
                    (Sample.proposal 0) in
  let r := train_body Sample.collab false
             (Sample.FixedParameters (Sample.cli 1 "count_occurrence"))
             (VInt 0) (VInt 0) (Frame p []) in
  ∃ c, c ∈ trace r.2 ∧ conv_model_aggregator c = Some (VStr "pool_nn_edge").
Proof.
  intros p r.
  apply (model_gets_edge_aggregator_in_counting_mode Sample.collab false
           (Sample.FixedParameters (Sample.cli 1 "count_occurrence"))
           (VInt 0) (VInt 0) p [] 0.2%float r.2 "pool_nn"
           (VStr "count_occurrence")).
  - vm_compute. reflexivity.
  - vm_compute. reflexivity.
  - vm_compute. reflexivity.
Defined.
